(** * SmartInventory: order workflow and inventory store

    A shallow embedding of [order_service/main.py], [order_service/schemas.py],
    [order_service/models.py], [inventory_service/main.py] and
    [inventory_service/schemas.py], followed by the properties of the order
    fulfilment workflow and of the inventory quantity guard.

    Conventions of the embedding:
    - a Python [float] is an IEEE 754 binary64 value ([spec_float] with the
      operations of [SpecFloat] at precision 53), so that NaN, the infinities
      and rounding behave as they do in the interpreter;
    - a handler is a function in the monad [M]: it threads the service's
      tables, the state of everything reached over HTTP, and the list of the
      requests issued so far, and it ends by returning or by raising;
    - [datetime.now()] is an argument [now] of the handler that reads it;
    - [order_service/database.py] is not among the sources: the session
      and the engine it sets up are a parameter, [Database.t], of the
      handlers that depend on them; the inventory service runs on the
      session of [inventory_service/database.py], with the engine behind
      [DATABASE_URL] as a parameter;
    - the routes of the inventory service validate what their handler
      returns against [response_model=schemas.InventoryItem];
    - logging is not modelled. *)

From Stdlib Require Import ZArith List String Ascii Bool Lia SpecFloat DecimalString.
Import ListNotations.

Set Warnings "-register-all".
Local Open Scope string_scope.
Local Open Scope list_scope.
Local Open Scope Z_scope.

(* ================================================================== *)
(** ** Python values *)

Module PyFloat.

Definition prec : Z := 53.
Definition emax : Z := 1024.

Definition float : Type := spec_float.

Definition add (x y : float) : float := SFadd prec emax x y.
Definition neg (x : float) : float := SFopp x.
Definition ltb (x y : float) : bool := SFltb x y.
Definition leb (x y : float) : bool := SFleb x y.
(** [x >= y] *)
Definition geb (x y : float) : bool := SFleb y x.

Definition zero : float := S754_zero false.
Definition nan : float := S754_nan.
Definition inf : float := S754_infinity false.
Definition of_Z (z : Z) : float := binary_normalize prec emax z 0 false.

Definition is_nan (x : float) : bool :=
  match x with S754_nan => true | _ => false end.

(** [math.isfinite(x)] *)
Definition is_finite (x : float) : bool :=
  match x with S754_zero _ | S754_finite _ _ _ => true | _ => false end.

End PyFloat.

Definition float : Type := PyFloat.float.

(** [str(n)] for a Python [int]. *)
Definition str_int (n : Z) : string := NilZero.string_of_int (Z.to_int n).

(** A decoded JSON document, as [response.json()] returns it. *)
Inductive json : Type :=
| JNull
| JBool (b : bool)
| JNumber (x : float)
| JString (s : string)
| JArray (elements : list json)
| JObject (members : list (string * json)).

(** Truth value of a decoded document ([not product] tests its negation). *)
Definition truthy (j : json) : bool :=
  match j with
  | JNull => false
  | JBool b => b
  | JNumber x => negb (SFeqb x PyFloat.zero)
  | JString s => negb (String.eqb s "")
  | JArray l => match l with [] => false | _ => true end
  | JObject m => match m with [] => false | _ => true end
  end.

Fixpoint assoc (key : string) (m : list (string * json)) : option json :=
  match m with
  | [] => None
  | (k, v) :: rest => if String.eqb k key then Some v else assoc key rest
  end.

(** [j[key]]: [None] stands for the [KeyError] or [TypeError] it raises. *)
Definition getitem (j : json) (key : string) : option json :=
  match j with
  | JObject m => assoc key m
  | _ => None
  end.

(** The value as an operand of a numeric comparison: [bool] is a subclass
    of [int]; [None] stands for the [TypeError]. *)
Definition as_number (j : json) : option float :=
  match j with
  | JNumber x => Some x
  | JBool b => Some (PyFloat.of_Z (if b then 1 else 0))
  | _ => None
  end.

(* ================================================================== *)
(** ** HTTP between the services *)

(** Body of [POST {NOTIFICATION_SERVICE_URL}/notifications/]. *)
Inductive notification : Type :=
| order_status (order_id : Z) (status : string) (recipient : string)
| low_stock (product_id : Z) (current_quantity : float) (threshold : Z).

(** The requests the order and inventory services issue. *)
Inductive request : Type :=
| GET_product (product_id : Z)
| GET_inventory (product_id : Z)
| POST_adjust (product_id : Z) (amount : float) (allow_negative : bool)
| POST_notification (payload : notification).

(** What [httpx] gives back: an exception (connection refused, timeout), or
    a response with its status code and its body, [None] when the body does
    not decode. *)
Inductive response : Type :=
| RequestError
| Response (status_code : Z) (body : option json).

(* ================================================================== *)
(** ** Handlers: state, exceptions, requests *)

Inductive outcome (A : Type) : Type :=
| Return (a : A)
| HTTPException (status_code : Z) (detail : string)
| Unhandled (exc : string).

Arguments Return {A} a.
Arguments HTTPException {A} status_code detail.
Arguments Unhandled {A} exc.

Section Handler.

(** [DB]: the tables of the service; [World]: whatever is behind the
    network. *)
Context {DB World : Type}.

Record state : Type := mkState {
  db : DB;
  world : World;
  sent : list request
}.

Definition M (A : Type) : Type := state -> outcome A * state.

Definition ret {A} (a : A) : M A := fun s => (Return a, s).

Definition bind {A B} (c : M A) (k : A -> M B) : M B :=
  fun s =>
    match c s with
    | (Return a, s') => k a s'
    | (HTTPException code detail, s') => (HTTPException code detail, s')
    | (Unhandled exc, s') => (Unhandled exc, s')
    end.

Definition raise {A} (status_code : Z) (detail : string) : M A :=
  fun s => (HTTPException status_code detail, s).

Definition fault {A} (exc : string) : M A :=
  fun s => (Unhandled exc, s).

Definition query {A} (f : DB -> A) : M A := fun s => (Return (f (db s)), s).

Definition commit (f : DB -> DB) : M unit :=
  fun s => (Return tt, mkState (f (db s)) (world s) (sent s)).

(** One request through an [httpx.AsyncClient]. *)
Definition http (send : request -> World -> response * World)
           (r : request) : M response :=
  fun s =>
    let (resp, w) := send r (world s) in
    (Return resp, mkState (db s) w (sent s ++ [r])).

End Handler.

Arguments state : clear implicits.
Arguments M : clear implicits.

Declare Scope handler_scope.
Delimit Scope handler_scope with handler.
Notation "x <- c ;; k" := (bind c (fun x => k))
  (at level 61, c at next level, right associativity) : handler_scope.
Notation "c ;;; k" := (bind c (fun _ => k))
  (at level 61, right associativity) : handler_scope.
Local Open Scope handler_scope.

(* ================================================================== *)
(** ** Tables *)

(** An integer primary key left to the engine: one more than the largest
    key in the table. *)
Definition next_id (ids : list Z) : Z := 1 + fold_right Z.max 0 ids.

(* ================================================================== *)
(** ** order_service/models.py *)

Module Order.
Record t : Type := mk {
  id : Z;
  customer_name : string;
  customer_email : string;
  status : string;
  created_at : Z;
  updated_at : option Z
}.
End Order.

Module OrderItem.
Record t : Type := mk {
  id : Z;
  order_id : Z;
  product_id : Z;
  quantity : float;
  unit_price : float
}.
End OrderItem.

(* ================================================================== *)
(** ** order_service/schemas.py *)

Module OrderItemCreate.
Record t : Type := mk { product_id : Z; quantity : float }.

(** [product_id: int = Field(..., gt=0)] and
    [quantity: float = Field(..., gt=0)]; NaN is not [> 0]. *)
Definition valid (item : t) : bool :=
  (0 <? product_id item) && PyFloat.ltb PyFloat.zero (quantity item).
End OrderItemCreate.

Module OrderCreate.
Record t : Type := mk {
  customer_name : string;
  customer_email : string;
  items : list OrderItemCreate.t
}.

(** The constraints of the body other than the one on the address:
    [customer_name] with [min_length=1, max_length=100], [items] with
    [min_items=1], and the constraints of every item. *)
Definition valid (order : t) : bool :=
  (1 <=? Z.of_nat (String.length (customer_name order)))
  && (Z.of_nat (String.length (customer_name order)) <=? 100)
  && match items order with [] => false | _ :: _ => true end
  && forallb OrderItemCreate.valid (items order).
End OrderCreate.

Module OrderStatusUpdate.
Record t : Type := mk { status : string }.

Definition statuses : list string :=
  ["pending"; "processing"; "processed"; "failed"; "delivered"].

Definition newline : string := String (ascii_of_nat 10) "".

(** [re.match("^(pending|processing|processed|failed|delivered)$", s)]:
    without [re.MULTILINE], [$] matches at the end of the string and
    just before a newline that ends the string. *)
Definition regex_match (s : string) : bool :=
  existsb (fun w => String.eqb s w || String.eqb s (String.append w newline)) statuses.

(** Validation of the request body; [None] is the validation error. *)
Definition validate (s : string) : option t :=
  if regex_match s then Some (mk s) else None.
End OrderStatusUpdate.

(** [schemas.Order], the response model: the row with its nested lines. *)
Module OrderRead.
Record t : Type := mk { order : Order.t; items : list OrderItem.t }.
End OrderRead.

(* ================================================================== *)
(** ** order_service/database.py

    The module is not among the sources. What the handlers take from it is
    the session factory and the engine behind it; both are parameters of
    the embedding. *)

Module Database.
Record t : Type := mk {
  (* [sessionmaker(autoflush=...)]: whether a query first flushes the
     objects added to the session *)
  autoflush : bool;
  (* whether the engine enforces [ForeignKey("orders.id")]: PostgreSQL
     does; SQLite does not unless [PRAGMA foreign_keys] is set *)
  foreign_keys : bool;
  (* whether the engine keeps a NaN in a [Float] column: PostgreSQL does;
     SQLite binds it as NULL *)
  nan_storable : bool;
  (* what reaches a [Float] column from a bound value that is neither a
     number nor [None] (a string, a boolean, a list, a dictionary);
     [None] when the statement fails *)
  bind_other : json -> option float
}.
End Database.

(* ================================================================== *)
(** ** order_service/main.py *)

Module OrderService.

(** The two tables behind the SQLAlchemy session. *)
Record Tables : Type := mkTables {
  orders : list Order.t;
  order_items : list OrderItem.t
}.

(** [db.query(models.Order).filter(models.Order.id == order_id).first()] *)
Definition first_order (order_id : Z) (t : Tables) : option Order.t :=
  find (fun o => Order.id o =? order_id) (orders t).

(** [db.query(models.OrderItem).filter(models.OrderItem.order_id == order_id).all()] *)
Definition items_of (order_id : Z) (t : Tables) : list OrderItem.t :=
  filter (fun i => OrderItem.order_id i =? order_id) (order_items t).

(** [db.add(db_order); db.commit()]: the row gets its key, [created_at]
    from the server default, and no [updated_at]. *)
Definition insert_order (name email status : string) (now : Z) (t : Tables)
  : Tables :=
  mkTables
    (orders t ++
       [Order.mk (next_id (map Order.id (orders t))) name email status now None])
    (order_items t).

(** A line handed to [db.add] and not flushed yet: it has no key, and
    its [unit_price] is whatever [product["price"]] was. *)
Record pending_item : Type := mkPending {
  p_order_id : Z;
  p_product_id : Z;
  p_quantity : float;
  p_unit_price : json
}.

Definition insert_item (t : Tables) (p : pending_item) (unit_price : float)
  : Tables :=
  mkTables
    (orders t)
    (order_items t ++
       [OrderItem.mk (next_id (map OrderItem.id (order_items t)))
          (p_order_id p) (p_product_id p) (p_quantity p) unit_price]).

(** The DELETE statements of [db.delete(db_order); db.commit()]: the row
    of the order, and the lines that the [all, delete-orphan] cascade of
    [Order.items] found for it when [db.delete] loaded that collection,
    [loaded] being their keys. *)
Definition delete_order (order_id : Z) (loaded : list Z) (t : Tables) : Tables :=
  mkTables
    (filter (fun o => negb (Order.id o =? order_id)) (orders t))
    (filter (fun i => negb (existsb (Z.eqb (OrderItem.id i)) loaded))
       (order_items t)).

(** [order.status = status; order.updated_at = now; db.commit()] *)
Definition with_status (order : Order.t) (status : string) (now : Z)
  : Order.t :=
  Order.mk (Order.id order) (Order.customer_name order)
    (Order.customer_email order) status (Order.created_at order) (Some now).

Definition store_order (order : Order.t) (t : Tables) : Tables :=
  mkTables
    (map (fun o => if Order.id o =? Order.id order then order else o)
       (orders t))
    (order_items t).

(** What [background_tasks.add_task] records. *)
Inductive task : Type :=
| task_process_order (order_id : Z)
| task_notify_order_status (order_id : Z) (status : string)
    (customer_email : string).

(** A coroutine of the service over the network [World]. *)
Definition H (World : Type) : Type -> Type := M Tables World.

Section Service.

Context {World : Type}.
Variable send : request -> World -> response * World.

(** [None] is Python's [None]. *)
Definition get_product_info (product_id : Z) : H World (option json) :=
  resp <- http send (GET_product product_id) ;;
  match resp with
  | Response status_code body =>
      if status_code =? 200 then
        match body with
        | Some product => ret (Some product)
        | None => ret None
        end
      else ret None
  | RequestError => ret None
  end.

Definition check_inventory (product_id : Z) (quantity : float) : H World bool :=
  resp <- http send (GET_inventory product_id) ;;
  match resp with
  | Response status_code body =>
      if status_code =? 200 then
        match body with
        | Some inventory =>
            match getitem inventory "quantity" with
            | Some v =>
                match as_number v with
                | Some q => ret (PyFloat.geb q quantity)
                | None => ret false
                end
            | None => ret false
            end
        | None => ret false
        end
      else ret false
  | RequestError => ret false
  end.

Definition update_inventory (product_id : Z) (quantity : float) : H World bool :=
  resp <- http send (POST_adjust product_id (PyFloat.neg quantity) false) ;;
  match resp with
  | Response status_code _ => ret (status_code =? 200)
  | RequestError => ret false
  end.

Definition notify_order_status (order_id : Z) (status : string)
           (customer_email : string) : H World unit :=
  _ <- http send (POST_notification (order_status order_id status customer_email)) ;;
  ret tt.

(** The loop of [process_order] that checks the lines: it stops at the
    first line whose check is false ([break]). *)
Fixpoint check_items (order_items : list OrderItem.t) : H World bool :=
  match order_items with
  | [] => ret true
  | item :: rest =>
      ok <- check_inventory (OrderItem.product_id item) (OrderItem.quantity item) ;;
      if negb ok then ret false else check_items rest
  end.

(** The loop of [process_order] that decrements: the result of
    [update_inventory] is dropped. *)
Fixpoint update_items (order_items : list OrderItem.t) : H World unit :=
  match order_items with
  | [] => ret tt
  | item :: rest =>
      _ <- update_inventory (OrderItem.product_id item) (OrderItem.quantity item) ;;
      update_items rest
  end.

Definition process_order (order_id : Z) (now : Z) : H World unit :=
  found <- query (first_order order_id) ;;
  match found with
  | None => ret tt
  | Some order =>
      order_items <- query (items_of order_id) ;;
      inventory_available <- check_items order_items ;;
      if negb inventory_available then
        commit (store_order (with_status order "failed" now)) ;;;
        notify_order_status (Order.id order) "failed" (Order.customer_email order)
      else
        update_items order_items ;;;
        commit (store_order (with_status order "processed" now)) ;;;
        notify_order_status (Order.id order) "processed" (Order.customer_email order)
  end.

(** The session and the engine of [database.py]. *)
Variable database : Database.t.

(** A [float] that a [Float] column with [nullable=False] accepts. *)
Definition storable (x : float) : bool :=
  Database.nan_storable database || negb (PyFloat.is_nan x).

(** What a [Float] column with [nullable=False] takes from a bound value;
    [None] when the statement fails ([None] itself is NULL). *)
Definition column_value (v : json) : option float :=
  match
    match v with
    | JNumber x => Some x
    | JNull => None
    | _ => Database.bind_other database v
    end
  with
  | Some x => if storable x then Some x else None
  | None => None
  end.

(** The INSERT statements of a flush, one per line added to the session,
    in the order they were added; [None] when one of them fails. *)
Fixpoint flush_items (pending : list pending_item) (t : Tables) : option Tables :=
  match pending with
  | [] => Some t
  | p :: rest =>
      if storable (p_quantity p) then
        match column_value (p_unit_price p) with
        | Some unit_price => flush_items rest (insert_item t p unit_price)
        | None => None
        end
      else None
  end.

(** [db.commit()] with the lines added in the loop: one transaction, which
    fails as a whole with a [sqlalchemy.exc.StatementError] (an
    [IntegrityError] for a NULL) when a line is refused. *)
Definition commit_items (pending : list pending_item) : H World unit :=
  flushed <- query (flush_items pending) ;;
  match flushed with
  | Some t => commit (fun _ => t)
  | None => fault "StatementError"
  end.

(** [db.delete(db_order); db.commit()] with [pending] in the session.
    [db.delete] loads [db_order.items] for the cascade. A session that
    autoflushes inserts the pending lines before that query, so that they
    are loaded and deleted with the order. One that does not loads the
    lines stored earlier under that key only, and its commit inserts the
    pending lines and deletes the order they refer to, which an engine
    that enforces the foreign key refuses. Either way a failure leaves the
    tables as they were. *)
Definition delete_and_commit (order_id : Z) (pending : list pending_item)
  : H World unit :=
  flushed <- query (flush_items pending) ;;
  match flushed with
  | None => fault "StatementError"
  | Some flushed =>
      if Database.autoflush database then
        commit (fun _ =>
                  delete_order order_id
                    (map OrderItem.id (items_of order_id flushed)) flushed)
      else
        loaded <- query (fun t => map OrderItem.id (items_of order_id t)) ;;
        if Database.foreign_keys database
           && match pending with [] => false | _ :: _ => true end
        then fault "IntegrityError"
        else commit (fun _ => delete_order order_id loaded flushed)
  end.

(** The loop of [create_order] over [order.items]; [pending] holds the
    lines added to the session so far. *)
Fixpoint add_items (order_id : Z) (items : list OrderItemCreate.t)
         (pending : list pending_item) : H World (list pending_item) :=
  match items with
  | [] => ret pending
  | item :: rest =>
      product <- get_product_info (OrderItemCreate.product_id item) ;;
      if negb match product with
              | Some product => truthy product
              | None => false
              end
      then
        (* [if not product:] *)
        delete_and_commit order_id pending ;;;
        raise 404 ("Product " ++ str_int (OrderItemCreate.product_id item) ++ " not found")%string
      else
        (* [product["price"]]: a [KeyError] on a dictionary without the key,
           a [TypeError] on what is not a dictionary *)
        match product with
        | Some (JObject members) =>
            match assoc "price" members with
            | Some price =>
                add_items order_id rest
                  (pending ++
                     [mkPending order_id (OrderItemCreate.product_id item)
                        (OrderItemCreate.quantity item) price])
            | None => fault "KeyError"
            end
        | _ => fault "TypeError"
        end
  end.

(** [db.refresh(db_order); return db_order], serialised through
    [schemas.Order]. *)
Definition read_model (order : Order.t) : H World OrderRead.t :=
  lines <- query (items_of (Order.id order)) ;;
  ret (OrderRead.mk order lines).

(** The handler of [POST /orders/]: the response and the task it leaves
    for after the response. *)
Definition create_order (order : OrderCreate.t) (now : Z)
  : H World (OrderRead.t * list task) :=
  order_id <- query (fun t => next_id (map Order.id (orders t))) ;;
  commit (insert_order (OrderCreate.customer_name order)
            (OrderCreate.customer_email order) "pending" now) ;;;
  let db_order :=
    Order.mk order_id (OrderCreate.customer_name order)
      (OrderCreate.customer_email order) "pending" now None in
  pending <- add_items order_id (OrderCreate.items order) [] ;;
  commit_items pending ;;;
  resp <- read_model db_order ;;
  ret (resp, [task_process_order order_id]).

(** The handler of [GET /orders/{order_id}]. *)
Definition read_order (order_id : Z) : H World OrderRead.t :=
  found <- query (first_order order_id) ;;
  match found with
  | None => raise 404 "Order not found"
  | Some order => read_model order
  end.

(** The handler of [PUT /orders/{order_id}/status]. *)
Definition update_order_status (order_id : Z)
           (status_update : OrderStatusUpdate.t) (now : Z)
  : H World (OrderRead.t * list task) :=
  found <- query (first_order order_id) ;;
  match found with
  | None => raise 404 "Order not found"
  | Some order =>
      let order := with_status order (OrderStatusUpdate.status status_update) now in
      commit (store_order order) ;;;
      resp <- read_model order ;;
      ret (resp,
           [task_notify_order_status (Order.id order) (Order.status order)
              (Order.customer_email order)])
  end.

(** Background tasks run once the response is out, in the order they were
    added. *)
Definition run_task (now : Z) (t : task) : H World unit :=
  match t with
  | task_process_order order_id => process_order order_id now
  | task_notify_order_status order_id status customer_email =>
      notify_order_status order_id status customer_email
  end.

Fixpoint run_background (now : Z) (tasks : list task) : H World unit :=
  match tasks with
  | [] => ret tt
  | t :: rest => run_task now t ;;; run_background now rest
  end.

(** A route: the handler, then its background tasks. When the handler
    raises nothing was scheduled. *)
Definition route {A} (handler : H World (A * list task)) (later : Z)
  : H World A :=
  r <- handler ;;
  run_background later (snd r) ;;;
  ret (fst r).

(** pydantic's [EmailStr]: the address as the handler receives it (the
    validator normalises what it accepts), [None] when it is refused. *)
Variable EmailStr : string -> option string.

(** Validation of the request body against [schemas.OrderCreate]; [None]
    is the validation error. *)
Definition validate (order : OrderCreate.t) : option OrderCreate.t :=
  if OrderCreate.valid order then
    match EmailStr (OrderCreate.customer_email order) with
    | Some customer_email =>
        Some (OrderCreate.mk (OrderCreate.customer_name order) customer_email
                (OrderCreate.items order))
    | None => None
    end
  else None.

(** [POST /orders/]: the body is validated before the handler runs; a
    body that fails is answered 422. *)
Definition post_orders (order : OrderCreate.t) (now later : Z)
  : H World OrderRead.t :=
  match validate order with
  | None => raise 422 "validation error"
  | Some order => route (create_order order now) later
  end.

(** [PUT /orders/{order_id}/status]: the body is validated against
    [schemas.OrderStatusUpdate] before the handler runs; a body that fails
    is answered 422. *)
Definition put_order_status (order_id : Z) (status : string) (now : Z)
  : H World OrderRead.t :=
  match OrderStatusUpdate.validate status with
  | None => raise 422 "string does not match regex"
  | Some status_update =>
      route (update_order_status order_id status_update now) now
  end.

End Service.

End OrderService.

(* ================================================================== *)
(** ** inventory_service/models.py, inventory_service/schemas.py *)

(** The timestamps [last_updated] and [created_at] are left out: no
    handler reads them. *)
Module InventoryItem.
Record t : Type := mk {
  id : Z;
  product_id : Z;
  quantity : float;
  location : option string
}.
End InventoryItem.

(** [Field(..., ge=0)] *)
Definition ge0 (x : float) : bool := PyFloat.geb x PyFloat.zero.

(** [Field(None, max_length=100)] on an [Optional[str]] *)
Definition max_length_100 (s : option string) : bool :=
  match s with
  | None => true
  | Some s => (Z.of_nat (String.length s) <=? 100)
  end.

Module InventoryItemCreate.
Record t : Type := mk {
  product_id : Z;
  quantity : float;
  location : option string
}.

Definition valid (item : t) : bool :=
  (0 <? product_id item) && ge0 (quantity item) && max_length_100 (location item).
End InventoryItemCreate.

(** A field of a partial update: left out of the body, or given (possibly
    as [null]); [dict(exclude_unset=True)] keeps the given ones. *)
Inductive field (A : Type) : Type :=
| Unset
| Given (value : option A).

Arguments Unset {A}.
Arguments Given {A} value.

Module InventoryItemUpdate.
Record t : Type := mk {
  quantity : field float;
  location : field string
}.

Definition valid (item : t) : bool :=
  match quantity item with
  | Given (Some q) => ge0 q
  | _ => true
  end
  &&
  match location item with
  | Given l => max_length_100 l
  | Unset => true
  end.
End InventoryItemUpdate.

Module InventoryAdjustment.
Record t : Type := mk {
  amount : float;
  allow_negative : bool
}.
End InventoryAdjustment.

(* ================================================================== *)
(** ** inventory_service/main.py *)

Module InventoryService.

Definition Tables : Type := list InventoryItem.t.

(** [db.query(models.InventoryItem).filter(models.InventoryItem.product_id == product_id).first()] *)
Definition first_item (product_id : Z) (t : Tables) : option InventoryItem.t :=
  find (fun i => InventoryItem.product_id i =? product_id) t.

Definition insert_item (product_id : Z) (quantity : float)
           (location : option string) (t : Tables) : Tables :=
  t ++ [InventoryItem.mk (next_id (map InventoryItem.id t)) product_id quantity location].

Definition store_item (item : InventoryItem.t) (t : Tables) : Tables :=
  map (fun i => if InventoryItem.id i =? InventoryItem.id item then item else i) t.

Inductive task : Type :=
| task_notify_low_stock (inventory_item : InventoryItem.t).

Definition H (World : Type) : Type -> Type := M Tables World.

Section Service.

Context {World : Type}.
Variable send : request -> World -> response * World.

(** [STOCK_THRESHOLD = int(os.getenv("STOCK_THRESHOLD", "10"))] *)
Variable STOCK_THRESHOLD : Z.

(** Whether the engine behind [DATABASE_URL] keeps a NaN in a [Float]
    column. PostgreSQL does; SQLite binds it as NULL, which the
    [nullable=False] of [quantity] refuses. *)
Variable nan_storable : bool.

(** [db.commit()] of a row whose [quantity] attribute is [q] ([None] is
    Python's [None]). *)
Definition commit_item (q : option float) (write : Tables -> Tables)
  : H World unit :=
  match q with
  | None => fault "IntegrityError"
  | Some q =>
      if nan_storable || negb (PyFloat.is_nan q) then commit write
      else fault "IntegrityError"
  end.

Definition verify_product_exists (product_id : Z) : H World bool :=
  resp <- http send (GET_product product_id) ;;
  match resp with
  | Response status_code _ => ret (status_code =? 200)
  | RequestError => ret false
  end.

Definition notify_low_stock (inventory_item : InventoryItem.t) : H World unit :=
  _ <- http send
         (POST_notification
            (low_stock (InventoryItem.product_id inventory_item)
               (InventoryItem.quantity inventory_item) STOCK_THRESHOLD)) ;;
  ret tt.

(** [db_item.quantity <= STOCK_THRESHOLD] schedules the notification. *)
Definition low_stock_tasks (db_item : InventoryItem.t) : list task :=
  if PyFloat.leb (InventoryItem.quantity db_item) (PyFloat.of_Z STOCK_THRESHOLD)
  then [task_notify_low_stock db_item] else [].

(** The handler of [POST /inventory/]. *)
Definition create_inventory_item (item : InventoryItemCreate.t)
  : H World (InventoryItem.t * list task) :=
  product_exists <- verify_product_exists (InventoryItemCreate.product_id item) ;;
  if negb product_exists then raise 404 "Product not found"
  else
    found <- query (first_item (InventoryItemCreate.product_id item)) ;;
    match found with
    | Some db_item =>
        let db_item :=
          InventoryItem.mk (InventoryItem.id db_item)
            (InventoryItem.product_id db_item)
            (InventoryItemCreate.quantity item)
            (InventoryItemCreate.location item) in
        commit_item (Some (InventoryItemCreate.quantity item)) (store_item db_item) ;;;
        ret (db_item, low_stock_tasks db_item)
    | None =>
        new_id <- query (fun t => next_id (map InventoryItem.id t)) ;;
        let db_item :=
          InventoryItem.mk new_id (InventoryItemCreate.product_id item)
            (InventoryItemCreate.quantity item)
            (InventoryItemCreate.location item) in
        commit_item (Some (InventoryItemCreate.quantity item))
          (insert_item (InventoryItemCreate.product_id item)
             (InventoryItemCreate.quantity item)
             (InventoryItemCreate.location item)) ;;;
        ret (db_item, low_stock_tasks db_item)
    end.

(** The handler of [GET /inventory/{product_id}]. *)
Definition read_inventory_item (product_id : Z) : H World InventoryItem.t :=
  found <- query (first_item product_id) ;;
  match found with
  | None => raise 404 "Inventory item not found"
  | Some item => ret item
  end.

(** The handler of [PUT /inventory/{product_id}]. *)
Definition update_inventory_item (product_id : Z) (item : InventoryItemUpdate.t)
  : H World (InventoryItem.t * list task) :=
  product_exists <- verify_product_exists product_id ;;
  if negb product_exists then raise 404 "Product not found"
  else
    found <- query (first_item product_id) ;;
    match found with
    | None => raise 404 "Inventory item not found"
    | Some db_item =>
        (* for key, value in item.dict(exclude_unset=True).items() *)
        let quantity :=
          match InventoryItemUpdate.quantity item with
          | Unset => Some (InventoryItem.quantity db_item)
          | Given value => value
          end in
        let location :=
          match InventoryItemUpdate.location item with
          | Unset => InventoryItem.location db_item
          | Given value => value
          end in
        let row q :=
          InventoryItem.mk (InventoryItem.id db_item)
            (InventoryItem.product_id db_item) q location in
        match quantity with
        | None => commit_item None (fun t => t) ;;; fault "IntegrityError"
        | Some q =>
            commit_item (Some q) (store_item (row q)) ;;;
            ret (row q, low_stock_tasks (row q))
        end
    end.

(** The handler of [POST /inventory/{product_id}/adjust]. *)
Definition adjust_inventory (product_id : Z) (adjustment : InventoryAdjustment.t)
  : H World (InventoryItem.t * list task) :=
  found <- query (first_item product_id) ;;
  match found with
  | None => raise 404 "Inventory item not found"
  | Some db_item =>
      let new_quantity :=
        PyFloat.add (InventoryItem.quantity db_item)
          (InventoryAdjustment.amount adjustment) in
      if PyFloat.ltb new_quantity PyFloat.zero
         && negb (InventoryAdjustment.allow_negative adjustment)
      then raise 400 "Adjustment would cause negative inventory"
      else
        let db_item :=
          InventoryItem.mk (InventoryItem.id db_item)
            (InventoryItem.product_id db_item) new_quantity
            (InventoryItem.location db_item) in
        commit_item (Some new_quantity) (store_item db_item) ;;;
        ret (db_item, low_stock_tasks db_item)
  end.

Fixpoint run_background (tasks : list task) : H World unit :=
  match tasks with
  | [] => ret tt
  | task_notify_low_stock item :: rest =>
      notify_low_stock item ;;; run_background rest
  end.

(** [response_model=schemas.InventoryItem]: the row a handler returns is
    validated against the schema before anything is sent, [product_id]
    with [gt=0], [quantity] with [ge=0] (which NaN is not), [location] with
    [max_length=100]; a row that fails is an unhandled
    [ResponseValidationError]. *)
Definition response_ok (item : InventoryItem.t) : bool :=
  (0 <? InventoryItem.product_id item)
  && ge0 (InventoryItem.quantity item)
  && max_length_100 (InventoryItem.location item).

Definition respond (item : InventoryItem.t) : H World InventoryItem.t :=
  if response_ok item then ret item else fault "ResponseValidationError".

(** A route that writes: the handler, the validation of what it returns,
    then the background tasks, which run once the response is out. When
    the handler raises, or its result fails the validation, no task
    runs. *)
Definition route (handler : H World (InventoryItem.t * list task))
  : H World InventoryItem.t :=
  r <- handler ;;
  item <- respond (fst r) ;;
  run_background (snd r) ;;;
  ret item.

(** [GET /inventory/{product_id}] *)
Definition get_inventory (product_id : Z) : H World InventoryItem.t :=
  item <- read_inventory_item product_id ;;
  respond item.

(** [POST /inventory/]: the body is validated against
    [schemas.InventoryItemCreate] first. *)
Definition post_inventory (item : InventoryItemCreate.t) : H World InventoryItem.t :=
  if InventoryItemCreate.valid item then route (create_inventory_item item)
  else raise 422 "validation error".

(** [PUT /inventory/{product_id}] *)
Definition put_inventory (product_id : Z) (item : InventoryItemUpdate.t)
  : H World InventoryItem.t :=
  if InventoryItemUpdate.valid item then route (update_inventory_item product_id item)
  else raise 422 "validation error".

(** [POST /inventory/{product_id}/adjust]: every [amount] is a valid
    [float], and [allow_negative] defaults to [False]. *)
Definition post_adjust (product_id : Z) (adjustment : InventoryAdjustment.t)
  : H World InventoryItem.t :=
  route (adjust_inventory product_id adjustment).

End Service.

End InventoryService.

(* ================================================================== *)
(** ** The services wired together

    One network on which the order service finds the product service
    ([product_service/main.py], [read_product]), the inventory service
    above, and the notification service, whose [POST /notifications/]
    validates the body against [NotificationCreate] ([type] and [data]
    required) and so answers 422 to the bodies built by
    [notify_order_status] and [notify_low_stock], which carry no [data]. *)

Module Deployment.

Record World : Type := mkWorld {
  products : list (Z * float);          (* id, price *)
  inventory : InventoryService.Tables;
  product_up : bool;
  inventory_up : bool;
  notification_up : bool
}.

Definition detail (msg : string) : option json :=
  Some (JObject [("detail", JString msg)]).

Definition product_json (product_id : Z) (price : float) : json :=
  JObject [("id", JNumber (PyFloat.of_Z product_id)); ("price", JNumber price)].

(** The body of a response of the inventory service for a row that passed
    the validation of the response model. A [float] that is not finite is
    written as [null]. *)
Definition inventory_json (item : InventoryItem.t) : json :=
  JObject
    [("id", JNumber (PyFloat.of_Z (InventoryItem.id item)));
     ("product_id", JNumber (PyFloat.of_Z (InventoryItem.product_id item)));
     ("quantity",
      if PyFloat.is_finite (InventoryItem.quantity item)
      then JNumber (InventoryItem.quantity item)
      else JNull);
     ("location",
      match InventoryItem.location item with
      | Some l => JString l
      | None => JNull
      end)].

(** The product and notification services. *)
Definition send_leaf (r : request) (w : World) : response * World :=
  match r with
  | GET_product product_id =>
      if product_up w then
        match find (fun p => fst p =? product_id) (products w) with
        | Some p => (Response 200 (Some (product_json (fst p) (snd p))), w)
        | None => (Response 404 (detail "Product not found"), w)
        end
      else (RequestError, w)
  | POST_notification _ =>
      if notification_up w then (Response 422 (detail "field required"), w)
      else (RequestError, w)
  | _ => (RequestError, w)
  end.

(** The reply FastAPI builds from the outcome of a route: the rendered
    result, the status and detail of an [HTTPException], or 500 for any
    other exception, the failed validation of the result included. *)
Definition reply {A} (render : A -> json) (o : outcome A) : response :=
  match o with
  | Return a => Response 200 (Some (render a))
  | HTTPException status_code msg => Response status_code (detail msg)
  | Unhandled _ => Response 500 None
  end.

Section Engine.

Variable STOCK_THRESHOLD : Z.
Variable nan_storable : bool.

(** A route of the inventory service run on its tables. *)
Definition serve (route : InventoryService.H World InventoryItem.t) (w : World)
  : response * World :=
  let (o, s) := route (mkState (inventory w) w []) in
  (reply inventory_json o,
   mkWorld (products (world s)) (db s) (product_up (world s))
     (inventory_up (world s)) (notification_up (world s))).

Definition send (r : request) (w : World) : response * World :=
  match r with
  | GET_inventory product_id =>
      if inventory_up w then
        serve (InventoryService.get_inventory product_id) w
      else (RequestError, w)
  | POST_adjust product_id amount allow_negative =>
      if inventory_up w then
        serve (InventoryService.post_adjust send_leaf STOCK_THRESHOLD nan_storable
                 product_id (InventoryAdjustment.mk amount allow_negative)) w
      else (RequestError, w)
  | _ => send_leaf r w
  end.

End Engine.

End Deployment.

(* ================================================================== *)
(** ** Vocabulary of the properties

    What a collaborator answers depends on the state of the network at the
    moment it is asked, so the conditions on an order's lines follow the
    lines in order and thread that state. *)

Section Vocabulary.

Context {World : Type}.
Variable send : request -> World -> response * World.

(** A coroutine of the order service run for its effect on the network. *)
Definition on_world {A} (c : OrderService.H World A) (w : World)
  : outcome A * World :=
  let r := c (mkState (OrderService.mkTables [] []) w []) in
  (fst r, world (snd r)).

(** [check_inventory] returns [True]. *)
Definition passes (item : OrderItem.t) (w : World) : bool :=
  match fst (on_world (OrderService.check_inventory send
                         (OrderItem.product_id item) (OrderItem.quantity item)) w) with
  | Return b => b
  | _ => false
  end.

Definition after_check (item : OrderItem.t) (w : World) : World :=
  snd (on_world (OrderService.check_inventory send
                   (OrderItem.product_id item) (OrderItem.quantity item)) w).

(** Every line passes its check. *)
Fixpoint checks_pass (order_items : list OrderItem.t) (w : World) : bool :=
  match order_items with
  | [] => true
  | item :: rest => passes item w && checks_pass rest (after_check item w)
  end.

(** Line [k] is the first whose check does not pass. *)
Fixpoint check_fails_at (k : nat) (order_items : list OrderItem.t) (w : World)
  : bool :=
  match order_items, k with
  | [], _ => false
  | item :: _, O => negb (passes item w)
  | item :: rest, S k' => passes item w && check_fails_at k' rest (after_check item w)
  end.

Definition after_checks (order_items : list OrderItem.t) (w : World) : World :=
  fold_left (fun w item => after_check item w) order_items w.

(** [update_inventory] returns [True]. *)
Definition decrements (item : OrderItem.t) (w : World) : bool :=
  match fst (on_world (OrderService.update_inventory send
                         (OrderItem.product_id item) (OrderItem.quantity item)) w) with
  | Return b => b
  | _ => false
  end.

Definition after_decrement (item : OrderItem.t) (w : World) : World :=
  snd (on_world (OrderService.update_inventory send
                   (OrderItem.product_id item) (OrderItem.quantity item)) w).

(** The decrement of line [j] fails, whatever the others do. *)
Fixpoint decrement_fails_at (j : nat) (order_items : list OrderItem.t) (w : World)
  : bool :=
  match order_items, j with
  | [], _ => false
  | item :: _, O => negb (decrements item w)
  | item :: rest, S j' => decrement_fails_at j' rest (after_decrement item w)
  end.

Definition after_decrements (order_items : list OrderItem.t) (w : World) : World :=
  fold_left (fun w item => after_decrement item w) order_items w.

(** The requests of the two phases of the fulfilment of a line. *)
Definition check_call (item : OrderItem.t) : request :=
  GET_inventory (OrderItem.product_id item).

Definition decrement_call (item : OrderItem.t) : request :=
  POST_adjust (OrderItem.product_id item) (PyFloat.neg (OrderItem.quantity item)) false.

Definition is_adjust (r : request) : bool :=
  match r with POST_adjust _ _ _ => true | _ => false end.

(** The reply that the inventory check treats as a failure of the
    collaborator: an exception, or a status other than 200. *)
Definition unavailable (r : response) : bool :=
  match r with
  | RequestError => true
  | Response status_code _ => negb (status_code =? 200)
  end.

(** What [get_product_info] brings back for a line of a creation request:
    the price of a product that resolves, [None] otherwise. *)
Definition lookup (item : OrderItemCreate.t) (w : World) : outcome (option json) :=
  fst (on_world (OrderService.get_product_info send (OrderItemCreate.product_id item)) w).

Definition after_lookup (item : OrderItemCreate.t) (w : World) : World :=
  snd (on_world (OrderService.get_product_info send (OrderItemCreate.product_id item)) w).

(** The product id does not resolve: [not product] holds. *)
Definition unresolved (item : OrderItemCreate.t) (w : World) : bool :=
  match lookup item w with
  | Return None => true
  | Return (Some product) => negb (truthy product)
  | _ => false
  end.

(** [product["price"]] when the id resolves to a dictionary that has the
    key. *)
Definition quoted (item : OrderItemCreate.t) (w : World) : option json :=
  match lookup item w with
  | Return (Some (JObject members)) => assoc "price" members
  | _ => None
  end.

(** The price of the product when that value is a number. *)
Definition price_of (item : OrderItemCreate.t) (w : World) : option float :=
  match quoted item w with
  | Some (JNumber price) => Some price
  | _ => None
  end.

(** The prices of all the lines, when every id resolves. *)
Fixpoint prices_of (items : list OrderItemCreate.t) (w : World)
  : option (list float) :=
  match items with
  | [] => Some []
  | item :: rest =>
      match price_of item w, prices_of rest (after_lookup item w) with
      | Some p, Some ps => Some (p :: ps)
      | _, _ => None
      end
  end.

(** Line [k] is the first whose product id does not resolve; the lines
    before it resolve to a product with a number as its price. *)
Fixpoint unresolved_at (k : nat) (items : list OrderItemCreate.t) (w : World)
  : bool :=
  match items, k with
  | [], _ => false
  | item :: _, O => unresolved item w
  | item :: rest, S k' =>
      match price_of item w with
      | Some _ => unresolved_at k' rest (after_lookup item w)
      | None => false
      end
  end.

Definition after_lookups (items : list OrderItemCreate.t) (w : World) : World :=
  fold_left (fun w item => after_lookup item w) items w.

End Vocabulary.

Definition lookup_call (item : OrderItemCreate.t) : request :=
  GET_product (OrderItemCreate.product_id item).

(** The detail of the error raised for a line whose product is missing. *)
Definition not_found (item : OrderItemCreate.t) : string :=
  "Product " ++ str_int (OrderItemCreate.product_id item) ++ " not found".

(** The lines of a request as they are added to the session, each with
    the price found for it. *)
Fixpoint pending_lines (order_id : Z) (items : list OrderItemCreate.t)
         (prices : list json) : list OrderService.pending_item :=
  match items, prices with
  | item :: items', price :: prices' =>
      OrderService.mkPending order_id (OrderItemCreate.product_id item)
        (OrderItemCreate.quantity item) price
      :: pending_lines order_id items' prices'
  | _, _ => []
  end.

(** A stored line without its key. *)
Definition unflushed (row : OrderItem.t) : OrderService.pending_item :=
  OrderService.mkPending (OrderItem.order_id row) (OrderItem.product_id row)
    (OrderItem.quantity row) (JNumber (OrderItem.unit_price row)).

(** A line the engine accepts as it is: its quantity, and a number as its
    price. *)
Definition accepted (database : Database.t) (p : OrderService.pending_item)
  : bool :=
  OrderService.storable database (OrderService.p_quantity p)
  && match OrderService.p_unit_price p with
     | JNumber price => OrderService.storable database price
     | _ => false
     end.

(** The engine accepts the quantities of the lines and the prices found
    for them. *)
Definition lines_storable (database : Database.t)
           (items : list OrderItemCreate.t) (prices : list float) : bool :=
  forallb (fun item => OrderService.storable database (OrderItemCreate.quantity item))
    items
  && forallb (OrderService.storable database) prices.

(** The quantities of the lines and the prices found for them are finite:
    numbers that a JSON response can carry. *)
Definition lines_finite (items : list OrderItemCreate.t) (prices : list float)
  : bool :=
  forallb (fun item => PyFloat.is_finite (OrderItemCreate.quantity item)) items
  && forallb PyFloat.is_finite prices.

(** All quantities of the inventory table are [>= 0]. *)
Definition all_nonneg (t : InventoryService.Tables) : bool :=
  forallb (fun item => ge0 (InventoryItem.quantity item)) t.

(** The quantity stored for a product. *)
Definition stored_quantity (product_id : Z) (t : InventoryService.Tables)
  : option float :=
  option_map InventoryItem.quantity (InventoryService.first_item product_id t).

(* ================================================================== *)
(** ** More vocabulary: any network *)

Section MoreVocabulary.

Context {World : Type}.
Variable send : request -> World -> response * World.

(** The lines whose check is run: up to and including the first that does
    not pass. *)
Fixpoint checked (order_items : list OrderItem.t) (w : World)
  : list OrderItem.t :=
  match order_items with
  | [] => []
  | item :: rest =>
      item :: (if passes send item w then checked rest (after_check send item w)
               else [])
  end.

(** The product of the line resolves to a dictionary that is not empty
    and has no ["price"]. *)
Definition priceless (item : OrderItemCreate.t) (w : World) : bool :=
  match lookup send item w with
  | Return (Some (JObject members)) =>
      truthy (JObject members)
      && match assoc "price" members with Some _ => false | None => true end
  | _ => false
  end.

(** Line [k] is the first whose product has no price; the lines before it
    resolve to a dictionary with a price, whatever its value. *)
Fixpoint priceless_at (k : nat) (items : list OrderItemCreate.t) (w : World)
  : bool :=
  match items, k with
  | [], _ => false
  | item :: _, O => priceless item w
  | item :: rest, S k' =>
      match quoted send item w with
      | Some _ => priceless_at k' rest (after_lookup send item w)
      | None => false
      end
  end.

End MoreVocabulary.

(* ================================================================== *)
(** ** inventory_service/main.py: the listing, and the keys of the table *)

Module InventoryQueries.

(** [.offset(skip)] as SQLite, the engine of [database.py] unless
    [DATABASE_URL] says otherwise, reads it: a negative offset is no
    offset. *)
Definition offset {A} (skip : Z) (rows : list A) : list A :=
  skipn (Z.to_nat skip) rows.

(** [.limit(limit)] as SQLite reads it: a negative limit is no limit. *)
Definition limit {A} (n : Z) (rows : list A) : list A :=
  if n <? 0 then rows else firstn (Z.to_nat n) rows.

(** The handler of [GET /inventory/]:
    [db.query(models.InventoryItem).offset(skip).limit(limit).all()] *)
Definition read_inventory_items {World : Type} (skip n : Z)
  : InventoryService.H World (list InventoryItem.t) :=
  query (fun t => limit n (offset skip t)).

End InventoryQueries.

(** No value occurs twice. *)
Fixpoint distinct (l : list Z) : bool :=
  match l with
  | [] => true
  | x :: rest => negb (existsb (Z.eqb x) rest) && distinct rest
  end.

(** The constraints of [models.InventoryItem]: [id] is the primary key
    and [product_id] is [unique]. *)
Definition unique_keys (t : InventoryService.Tables) : bool :=
  distinct (map InventoryItem.id t) && distinct (map InventoryItem.product_id t).

(** What a partial update leaves in a row. *)
Definition updated_row (old : InventoryItem.t) (item : InventoryItemUpdate.t)
  : InventoryItem.t :=
  InventoryItem.mk (InventoryItem.id old) (InventoryItem.product_id old)
    match InventoryItemUpdate.quantity item with
    | Given (Some q) => q
    | _ => InventoryItem.quantity old
    end
    match InventoryItemUpdate.location item with
    | Given l => l
    | Unset => InventoryItem.location old
    end.

(* ================================================================== *)
(** ** The bodies of the notifications

    The dictionaries that [notify_order_status] (order service) and
    [notify_low_stock] (inventory service) hand to [client.post] as
    [json=payload]. *)

Definition payload (n : notification) : json :=
  match n with
  | order_status order_id status recipient =>
      JObject [("type", JString "order_status");
               ("order_id", JNumber (PyFloat.of_Z order_id));
               ("status", JString status);
               ("recipient", JString recipient)]
  | low_stock product_id current_quantity threshold =>
      JObject [("type", JString "low_stock");
               ("product_id", JNumber (PyFloat.of_Z product_id));
               ("current_quantity", JNumber current_quantity);
               ("threshold", JNumber (PyFloat.of_Z threshold))]
  end.

(* ================================================================== *)
(** ** notification_service/models.py, schemas.py, main.py *)

Module Notification.
Record t : Type := mk {
  id : Z;
  type : string;
  data : list (string * json);
  status : string;
  error_message : option string;
  created_at : Z;
  sent_at : option Z
}.
End Notification.

(** What [send_email_notification] is given; the mock writes it to the
    log as an [EMAIL] line and returns [True]. *)
Record email : Type := mkEmail {
  recipient : json;
  subject : string;
  message : string
}.

Module NotificationService.

Definition Tables : Type := list Notification.t.

(** The emails handed to the mock, in order. *)
Definition Outbox : Type := list email.

Definition H : Type -> Type := M Tables Outbox.

(** [d.get(key)]: [None] when the key is missing. *)
Definition get (d : list (string * json)) (key : string) : json :=
  match assoc key d with
  | Some v => v
  | None => JNull
  end.

Definition first_notification (notification_id : Z) (t : Tables)
  : option Notification.t :=
  find (fun n => Notification.id n =? notification_id) t.

Definition store_notification (n : Notification.t) (t : Tables) : Tables :=
  map (fun m => if Notification.id m =? Notification.id n then n else m) t.

Inductive task : Type :=
| task_process_notification (notification_id : Z).

Section Service.

(** How pydantic reads the two fields of [NotificationCreate] when the
    body has them: [type: str] and [data: Dict[str, Any]], with their
    coercions; [None] is a validation error. *)
Variable as_type : json -> option string.
Variable as_data : json -> option (list (string * json)).

(** [str()] of a value inside an f-string. *)
Variable py_str : json -> string.

(** Validation of the body against [schemas.NotificationCreate]: both
    fields are required ([Field(...)]); other members are ignored. *)
Definition validate (body : json) : option (string * list (string * json)) :=
  match body with
  | JObject members =>
      match assoc "type" members, assoc "data" members with
      | Some ty, Some d =>
          match as_type ty, as_data d with
          | Some ty, Some d => Some (ty, d)
          | _, _ => None
          end
      | _, _ => None
      end
  | _ => None
  end.

Definition send_email_notification (recipient : json) (subject message : string)
  : H bool :=
  fun s =>
    (Return true,
     mkState (db s) (world s ++ [mkEmail recipient subject message]) (sent s)).

(** The background task. Inside its [try], nothing raises: [data] is a
    dictionary, the f-strings format any value, and the mock only logs; so
    the [except] branch, which would mark the notification "failed", is
    never taken. *)
Definition process_notification (notification_id : Z) (now : Z) : H unit :=
  found <- query (first_notification notification_id) ;;
  match found with
  | None => ret tt
  | Some notification =>
      let data := Notification.data notification in
      (if String.eqb (Notification.type notification) "low_stock" then
         _ <- send_email_notification (JString "inventory_manager@example.com")
                "Low Stock Alert"
                ("Product ID " ++ py_str (get data "product_id")
                 ++ " is running low. Current quantity: "
                 ++ py_str (get data "current_quantity")
                 ++ ", Threshold: " ++ py_str (get data "threshold"))%string ;;
         ret tt
       else if String.eqb (Notification.type notification) "order_status" then
         let order_id := get data "order_id" in
         let status := get data "status" in
         let recipient := get data "recipient" in
         if truthy recipient then
           _ <- send_email_notification recipient
                  ("Order #" ++ py_str order_id ++ " Status Update")%string
                  ("Your order #" ++ py_str order_id ++ " has been "
                   ++ py_str status ++ ".")%string ;;
           ret tt
         else ret tt
       else ret tt) ;;;
      commit (store_notification
                (Notification.mk (Notification.id notification)
                   (Notification.type notification) data "sent"
                   (Notification.error_message notification)
                   (Notification.created_at notification) (Some now)))
  end.

(** The handler of [POST /notifications/]. *)
Definition create_notification (ty : string) (data : list (string * json))
           (now : Z) : H (Notification.t * list task) :=
  new_id <- query (fun t => next_id (map Notification.id t)) ;;
  let db_notification := Notification.mk new_id ty data "pending" None now None in
  commit (fun t => t ++ [db_notification]) ;;;
  ret (db_notification, [task_process_notification new_id]).



Fixpoint run_background (now : Z) (tasks : list task) : H unit :=
  match tasks with
  | [] => ret tt
  | task_process_notification notification_id :: rest =>
      process_notification notification_id now ;;; run_background now rest
  end.

Definition route {A} (handler : H (A * list task)) (later : Z) : H A :=
  r <- handler ;;
  run_background later (snd r) ;;;
  ret (fst r).

(** [POST /notifications/] *)
Definition post_notifications (body : json) (now later : Z) : H Notification.t :=
  match validate body with
  | None => raise 422 "validation error"
  | Some (ty, data) => route (create_notification ty data now) later
  end.


End Service.

End NotificationService.

(* ================================================================== *)
(** ** api_gateway/main.py: the product with its inventory *)

Module Gateway.

(** [d[key] = v] on a dictionary: the value of an existing key is
    replaced where it stands, a new key goes last. *)
Fixpoint dict_set (key : string) (v : json) (m : list (string * json))
  : list (string * json) :=
  match m with
  | [] => [(key, v)]
  | (k, old) :: rest =>
      if String.eqb k key then (k, v) :: rest
      else (k, old) :: dict_set key v rest
  end.

(** [{"quantity": 0, "location": None}] *)
Definition no_inventory : json :=
  JObject [("quantity", JNumber (PyFloat.of_Z 0)); ("location", JNull)].

(** The value a [try: ... if status_code == 200: x = response.json()]
    block leaves in [x], which starts as [None]. *)
Definition json_of_200 (r : response) : json :=
  match r with
  | Response status_code (Some j) => if status_code =? 200 then j else JNull
  | _ => JNull
  end.

Section Service.

Context {World : Type}.
Variable send : request -> World -> response * World.

(** The handler of [GET /products/{product_id}/with-inventory]. The
    gateway has no table. *)
Definition get_product_with_inventory (product_id : Z) : M unit World json :=
  product_response <- http send (GET_product product_id) ;;
  let product := json_of_200 product_response in
  inventory_response <- http send (GET_inventory product_id) ;;
  let inventory := json_of_200 inventory_response in
  match product with
  | JNull => raise 404 "Product not found"
  | JObject members =>
      ret (JObject
             (dict_set "inventory"
                (if truthy inventory then inventory else no_inventory) members))
  | _ => fault "TypeError"   (* [**product] on what is not a mapping *)
  end.

End Service.

End Gateway.

(* ================================================================== *)
(** ** Scenarios

    The example of the specification (two products, priced 10 and 20, an
    order for 5 of the first and 3 of the second) and its variants, on the
    deployment above with a stock threshold of 10. *)

Module Scenario.

Definition num (z : Z) : float := PyFloat.of_Z z.

Definition send : request -> Deployment.World -> response * Deployment.World :=
  Deployment.send 10 true.

Definition catalog : list (Z * float) := [(1, num 10); (2, num 20)].

Definition stock (q1 q2 : Z) : InventoryService.Tables :=
  [InventoryItem.mk 1 1 (num q1) None; InventoryItem.mk 2 2 (num q2) (Some "Warehouse A")].

(** Everything up, [q1] of product 1 and [q2] of product 2 in stock. *)
Definition network (q1 q2 : Z) : Deployment.World :=
  Deployment.mkWorld catalog (stock q1 q2) true true true.

(** The inventory service does not answer. *)
Definition inventory_down : Deployment.World :=
  Deployment.mkWorld catalog (stock 50 50) true false true.

Definition ann : Order.t :=
  Order.mk 1 "Ann" "ann@example.com" "pending" 100 None.

(** Order 1: 5 of product 1 and 3 of product 2. *)
Definition two_lines : OrderService.Tables :=
  OrderService.mkTables [ann]
    [OrderItem.mk 1 1 1 (num 5) (num 10); OrderItem.mk 2 1 2 (num 3) (num 20)].

(** Order 1: two lines of 3 of product 1. *)
Definition same_product_twice : OrderService.Tables :=
  OrderService.mkTables [ann]
    [OrderItem.mk 1 1 1 (num 3) (num 10); OrderItem.mk 2 1 1 (num 3) (num 10)].

Definition request_two_lines : OrderCreate.t :=
  OrderCreate.mk "Ann" "ann@example.com"
    [OrderItemCreate.mk 1 (num 5); OrderItemCreate.mk 2 (num 3)].

(** The second line names a product that is not in the catalog. *)
Definition request_unknown_product : OrderCreate.t :=
  OrderCreate.mk "Ann" "ann@example.com"
    [OrderItemCreate.mk 1 (num 5); OrderItemCreate.mk 7 (num 1);
     OrderItemCreate.mk 2 (num 3)].

Definition bob : Order.t :=
  Order.mk 1 "Bob" "bob@example.com" "processed" 50 (Some 60).

(** The order service before Ann's request: one earlier order. *)
Definition earlier_order : OrderService.Tables :=
  OrderService.mkTables [bob] [OrderItem.mk 1 1 2 (num 1) (num 20)].

Definition at_rest {DB : Type} (t : DB) (w : Deployment.World)
  : state DB Deployment.World :=
  mkState t w [].

(** The order service on a database set up as [inventory_service/database.py]
    sets up its own: a session that does not autoflush, on SQLite, which
    does not enforce foreign keys and refuses NaN. The scenarios bind
    numbers only. *)
Definition sqlite : Database.t :=
  Database.mk false false false (fun _ => None).

(** A stand-in for [EmailStr]: a string with an [@] after its first
    character, taken as it is. *)
Definition address (s : string) : option string :=
  match index 0 "@" s with
  | Some (S _) => Some s
  | _ => None
  end.

(** A product service whose documents have a name and no price, and which
    does not know product 7; nothing else is reachable. *)
Definition unpriced (r : request) (w : unit) : response * unit :=
  match r with
  | GET_product product_id =>
      if product_id =? 7 then
        (Response 404 (Some (JObject [("detail", JString "Product not found")])), w)
      else
        (Response 200
           (Some (JObject [("id", JNumber (PyFloat.of_Z product_id));
                           ("name", JString "Pen")])),
         w)
  | _ => (RequestError, w)
  end.

(** A request whose first product resolves and whose second does not. *)
Definition request_then_unknown : OrderCreate.t :=
  OrderCreate.mk "Ann" "ann@example.com"
    [OrderItemCreate.mk 1 (num 5); OrderItemCreate.mk 7 (num 1)].

End Scenario.

(* ================================================================== *)
(** ** More scenarios *)

Module Scenario_more.

(** A product service that answers every lookup with a product that has
    a name and no price; nothing else is reachable. *)
Definition send_priceless (r : request) (w : unit) : response * unit :=
  match r with
  | GET_product product_id =>
      (Response 200
         (Some (JObject [("id", JNumber (PyFloat.of_Z product_id));
                         ("name", JString "Pen")])),
       w)
  | _ => (RequestError, w)
  end.

(** Everything up, and a stock of product 1 that has overflowed to
    infinity. *)
Definition endless : Deployment.World :=
  Deployment.mkWorld Scenario.catalog [InventoryItem.mk 1 1 PyFloat.inf None]
    true true true.

(** The product service does not answer. *)
Definition product_down : Deployment.World :=
  Deployment.mkWorld Scenario.catalog (Scenario.stock 5 50) false true true.





Definition idle {DB World : Type} (t : DB) (w : World) : state DB World :=
  mkState t w [].

End Scenario_more.

(* ================================================================== *)
(** * Properties *)

(** ** Running the coroutines of the order service *)

Ltac run :=
  unfold bind, ret, raise, fault, query, commit, http; simpl.

Section OrderWorkflow.

Context {World : Type}.
Variable send : request -> World -> response * World.

Let St : Type := state OrderService.Tables World.

Lemma state_eta (s : St) : mkState (db s) (world s) (sent s) = s.
Proof. destruct s; reflexivity. Qed.

(** A check asks the inventory service once and touches no table. *)
Lemma check_inventory_run (item : OrderItem.t) (s : St) :
  OrderService.check_inventory send (OrderItem.product_id item)
    (OrderItem.quantity item) s
  = (Return (passes send item (world s)),
     mkState (db s) (after_check send item (world s))
       (sent s ++ [check_call item])).
Proof.
  unfold passes, after_check, on_world, check_call, OrderService.check_inventory.
  run.
  destruct (send (GET_inventory (OrderItem.product_id item)) (world s))
    as [[|code body] w]; simpl; try reflexivity.
  destruct (code =? 200); simpl; try reflexivity.
  destruct body as [inventory|]; simpl; try reflexivity.
  destruct (getitem inventory "quantity") as [v|]; simpl; try reflexivity.
  destruct (as_number v); reflexivity.
Qed.

(** A decrement posts one adjustment and touches no table. *)
Lemma update_inventory_run (item : OrderItem.t) (s : St) :
  OrderService.update_inventory send (OrderItem.product_id item)
    (OrderItem.quantity item) s
  = (Return (decrements send item (world s)),
     mkState (db s) (after_decrement send item (world s))
       (sent s ++ [decrement_call item])).
Proof.
  unfold decrements, after_decrement, on_world, decrement_call,
    OrderService.update_inventory.
  run.
  destruct (send _ (world s)) as [[|code body] w]; reflexivity.
Qed.

Lemma notify_order_status_run (order_id : Z) (status email : string) (s : St) :
  OrderService.notify_order_status send order_id status email s
  = (Return tt,
     mkState (db s)
       (snd (send (POST_notification (order_status order_id status email)) (world s)))
       (sent s ++ [POST_notification (order_status order_id status email)])).
Proof.
  unfold OrderService.notify_order_status. run.
  destruct (send _ (world s)); reflexivity.
Qed.

Lemma check_items_pass (order_items : list OrderItem.t) :
  forall s : St,
    checks_pass send order_items (world s) = true ->
    OrderService.check_items send order_items s
    = (Return true,
       mkState (db s) (after_checks send order_items (world s))
         (sent s ++ map check_call order_items)).
Proof.
  induction order_items as [|item rest IH]; intros s Hpass; simpl in *.
  - rewrite app_nil_r, state_eta. reflexivity.
  - apply andb_prop in Hpass as [Hitem Hrest].
    unfold bind at 1. rewrite check_inventory_run, Hitem. simpl.
    rewrite IH by exact Hrest. simpl.
    rewrite <- app_assoc. reflexivity.
Qed.

Lemma check_items_fail (order_items : list OrderItem.t) :
  forall (k : nat) (s : St),
    check_fails_at send k order_items (world s) = true ->
    OrderService.check_items send order_items s
    = (Return false,
       mkState (db s) (after_checks send (firstn (S k) order_items) (world s))
         (sent s ++ map check_call (firstn (S k) order_items))).
Proof.
  induction order_items as [|item rest IH]; intros k s Hfail.
  - destruct k; discriminate.
  - destruct k as [|k]; simpl in Hfail.
    + simpl. unfold bind at 1. rewrite check_inventory_run.
      apply negb_true_iff in Hfail. rewrite Hfail. reflexivity.
    + apply andb_prop in Hfail as [Hitem Hrest].
      change (OrderService.check_items send (item :: rest) s)
        with (bind (OrderService.check_inventory send (OrderItem.product_id item)
                      (OrderItem.quantity item))
                (fun ok => if negb ok then ret false
                           else OrderService.check_items send rest) s).
      unfold bind at 1. rewrite check_inventory_run, Hitem. simpl negb. cbv iota.
      rewrite (IH k) by exact Hrest.
      change (firstn (S (S k)) (item :: rest)) with (item :: firstn (S k) rest).
      simpl. rewrite <- app_assoc. reflexivity.
Qed.

Lemma update_items_run (order_items : list OrderItem.t) :
  forall s : St,
    OrderService.update_items send order_items s
    = (Return tt,
       mkState (db s) (after_decrements send order_items (world s))
         (sent s ++ map decrement_call order_items)).
Proof.
  induction order_items as [|item rest IH]; intros s; simpl.
  - rewrite app_nil_r, state_eta. reflexivity.
  - unfold bind at 1. rewrite update_inventory_run. rewrite IH. simpl.
    rewrite <- app_assoc. reflexivity.
Qed.

(** ** The orders table *)

Lemma first_order_id (order_id : Z) (t : OrderService.Tables) (order : Order.t) :
  OrderService.first_order order_id t = Some order -> Order.id order = order_id.
Proof.
  unfold OrderService.first_order. intros Hfind.
  apply find_some in Hfind as [_ Heq]. apply Z.eqb_eq in Heq. exact Heq.
Qed.

Lemma first_order_store (order_id : Z) (t : OrderService.Tables)
      (order order' : Order.t) :
  OrderService.first_order order_id t = Some order ->
  Order.id order' = order_id ->
  OrderService.first_order order_id (OrderService.store_order order' t)
  = Some order'.
Proof.
  unfold OrderService.first_order, OrderService.store_order. simpl.
  intros Hfind Hid. rewrite Hid.
  induction (OrderService.orders t) as [|o rows IH].
  - discriminate.
  - simpl in *.
    destruct (Order.id o =? order_id) eqn:Ho.
    + rewrite Hid, Z.eqb_refl. reflexivity.
    + rewrite Ho. apply IH. exact Hfind.
Qed.

(** Writing a status on the row found under [order_id]. *)
Lemma first_order_with_status (order_id : Z) (t : OrderService.Tables)
      (order : Order.t) (status : string) (now : Z) :
  OrderService.first_order order_id t = Some order ->
  OrderService.first_order order_id
    (OrderService.store_order (OrderService.with_status order status now) t)
  = Some (Order.mk order_id (Order.customer_name order)
            (Order.customer_email order) status (Order.created_at order)
            (Some now)).
Proof.
  intros Hfound. pose proof (first_order_id _ _ _ Hfound) as Hid.
  rewrite (first_order_store order_id t order _ Hfound) by exact Hid.
  unfold OrderService.with_status. rewrite Hid. reflexivity.
Qed.

(** ** The requests of a run *)

Lemma filter_adjust_checks (l : list OrderItem.t) :
  filter is_adjust (map check_call l) = [].
Proof. induction l; simpl; auto. Qed.

Lemma filter_adjust_decrements (l : list OrderItem.t) :
  filter is_adjust (map decrement_call l) = map decrement_call l.
Proof. induction l; simpl; congruence. Qed.

Lemma skipn_sent {A} (a b : list A) : skipn (List.length a) (a ++ b) = b.
Proof. induction a; simpl; auto. Qed.


(** ** Fulfilment *)

(** C1. When every line of an order passes the inventory check, the
    fulfilment procedure returns, leaves the order with status "processed"
    and the time of the run as its updated-timestamp, and issues, in this
    order: one check per line, one decrement per line (amount the negated
    quantity of the line, negative stock not allowed), and one "processed"
    notification addressed to the customer's email; nothing else is sent. *)
Theorem process_order_all_lines_pass
        (order_id now : Z) (s : St) (order : Order.t) :
  OrderService.first_order order_id (db s) = Some order ->
  checks_pass send (OrderService.items_of order_id (db s)) (world s) = true ->
  let lines := OrderService.items_of order_id (db s) in
  let r := OrderService.process_order send order_id now s in
  fst r = Return tt
  /\ OrderService.first_order order_id (db (snd r))
     = Some (Order.mk order_id (Order.customer_name order)
               (Order.customer_email order) "processed"
               (Order.created_at order) (Some now))
  /\ sent (snd r)
     = sent s ++ map check_call lines
         ++ map (fun item =>
                   POST_adjust (OrderItem.product_id item)
                     (PyFloat.neg (OrderItem.quantity item)) false) lines
         ++ [POST_notification
               (order_status order_id "processed" (Order.customer_email order))].
Proof.
  intros Hfound Hpass lines r. subst r lines.
  pose proof (first_order_id _ _ _ Hfound) as Hid.
  unfold OrderService.process_order, bind, query. simpl.
  rewrite Hfound. rewrite check_items_pass by exact Hpass. simpl.
  rewrite update_items_run. unfold commit. simpl.
  rewrite notify_order_status_run. simpl.
  repeat split.
  - apply first_order_with_status. exact Hfound.
  - rewrite Hid. rewrite <- !app_assoc. reflexivity.
Qed.

(** The run of a fulfilment in which the check of line [k] fails. *)
Lemma process_order_fail_run
      (order_id now : Z) (s : St) (order : Order.t) (k : nat) :
  OrderService.first_order order_id (db s) = Some order ->
  check_fails_at send k (OrderService.items_of order_id (db s)) (world s) = true ->
  let lines := firstn (S k) (OrderService.items_of order_id (db s)) in
  let call :=
    POST_notification
      (order_status (Order.id order) "failed" (Order.customer_email order)) in
  OrderService.process_order send order_id now s
  = (Return tt,
     mkState
       (OrderService.store_order (OrderService.with_status order "failed" now) (db s))
       (snd (send call (after_checks send lines (world s))))
       ((sent s ++ map check_call lines) ++ [call])).
Proof.
  intros Hfound Hfail lines call. subst lines call.
  unfold OrderService.process_order, bind, query. simpl.
  rewrite Hfound. rewrite (check_items_fail _ k) by exact Hfail. simpl.
  unfold commit. simpl.
  rewrite notify_order_status_run. reflexivity.
Qed.

(** C2. When line [k] is the first whose inventory check is false (the
    collaborator's errors count as false), the fulfilment procedure returns,
    leaves the order with status "failed" and a fresh updated-timestamp,
    and issues the checks of lines 0 to [k] followed by one "failed"
    notification: no check for a line after [k], and no decrement. The
    network is left as those reads and the notification leave it. *)
Theorem process_order_check_fails
        (order_id now : Z) (s : St) (order : Order.t) (k : nat) :
  OrderService.first_order order_id (db s) = Some order ->
  check_fails_at send k (OrderService.items_of order_id (db s)) (world s) = true ->
  let lines := OrderService.items_of order_id (db s) in
  let r := OrderService.process_order send order_id now s in
  fst r = Return tt
  /\ OrderService.first_order order_id (db (snd r))
     = Some (Order.mk order_id (Order.customer_name order)
               (Order.customer_email order) "failed"
               (Order.created_at order) (Some now))
  /\ sent (snd r)
     = sent s ++ map check_call (firstn (S k) lines)
         ++ [POST_notification
               (order_status order_id "failed" (Order.customer_email order))]
  /\ filter is_adjust (skipn (List.length (sent s)) (sent (snd r))) = []
  /\ world (snd r)
     = snd (send (POST_notification
                    (order_status order_id "failed" (Order.customer_email order)))
              (after_checks send (firstn (S k) lines) (world s))).
Proof.
  intros Hfound Hfail lines r. subst r lines.
  pose proof (first_order_id _ _ _ Hfound) as Hid.
  rewrite (process_order_fail_run order_id now s order k Hfound Hfail).
  simpl. rewrite Hid.
  repeat split.
  - apply first_order_with_status. exact Hfound.
  - rewrite <- !app_assoc. reflexivity.
  - rewrite <- app_assoc, skipn_sent, filter_app, filter_adjust_checks.
    reflexivity.
Qed.

(** A check reaches the network as one [GET /inventory/{product_id}]. *)
Lemma after_check_send (item : OrderItem.t) (w : World) :
  after_check send item w = snd (send (check_call item) w).
Proof.
  unfold after_check, on_world, check_call, OrderService.check_inventory. run.
  destruct (send (GET_inventory (OrderItem.product_id item)) w)
    as [[|code body] w']; simpl; try reflexivity.
  destruct (code =? 200); simpl; try reflexivity.
  destruct body as [inventory|]; simpl; try reflexivity.
  destruct (getitem inventory "quantity") as [v|]; simpl; try reflexivity.
  destruct (as_number v); reflexivity.
Qed.

(** C6. In the decrement phase the calls follow the lines in order and the
    answer to each is dropped: when the decrement of some line [j] fails
    (an exception, or a status other than 200), the adjustments posted
    during the run are still the decrements of all the lines, in line
    order, with nothing posted to undo the earlier ones; the network is
    left as those calls and the notification leave it, and the order ends
    "processed". *)
Theorem process_order_decrement_fails
        (order_id now : Z) (s : St) (order : Order.t) (j : nat) :
  OrderService.first_order order_id (db s) = Some order ->
  checks_pass send (OrderService.items_of order_id (db s)) (world s) = true ->
  decrement_fails_at send j (OrderService.items_of order_id (db s))
    (after_checks send (OrderService.items_of order_id (db s)) (world s)) = true ->
  let lines := OrderService.items_of order_id (db s) in
  let r := OrderService.process_order send order_id now s in
  filter is_adjust (skipn (List.length (sent s)) (sent (snd r)))
  = map decrement_call lines
  /\ world (snd r)
     = snd (send (POST_notification
                    (order_status order_id "processed" (Order.customer_email order)))
              (after_decrements send lines (after_checks send lines (world s))))
  /\ option_map Order.status (OrderService.first_order order_id (db (snd r)))
     = Some "processed".
Proof.
  intros Hfound Hpass _ lines r. subst r lines.
  pose proof (first_order_id _ _ _ Hfound) as Hid.
  unfold OrderService.process_order, bind, query. simpl.
  rewrite Hfound. rewrite check_items_pass by exact Hpass. simpl.
  rewrite update_items_run. unfold commit. simpl.
  rewrite notify_order_status_run. simpl.
  repeat split.
  - rewrite <- !app_assoc, skipn_sent, !filter_app.
    rewrite filter_adjust_checks, filter_adjust_decrements. simpl.
    rewrite app_nil_r. reflexivity.
  - rewrite Hid. reflexivity.
  - rewrite first_order_with_status by exact Hfound. reflexivity.
Qed.

(** C7. The inventory check always returns a boolean, never raises, and
    the boolean is [False] whenever the request to the inventory service
    raises or is answered with a status other than 200. *)
Theorem check_inventory_unavailable
        (product_id : Z) (quantity : float) (s : St) :
  (exists b : bool,
      fst (OrderService.check_inventory send product_id quantity s) = Return b)
  /\ (unavailable (fst (send (GET_inventory product_id) (world s))) = true ->
      fst (OrderService.check_inventory send product_id quantity s) = Return false).
Proof.
  unfold OrderService.check_inventory, unavailable. run.
  destruct (send (GET_inventory product_id) (world s)) as [[|code body] w]; simpl.
  - split; [exists false|]; reflexivity.
  - destruct (code =? 200); simpl.
    + split; [|discriminate].
      destruct body as [inventory|]; simpl; [|exists false; reflexivity].
      destruct (getitem inventory "quantity") as [v|]; simpl;
        [|exists false; reflexivity].
      destruct (as_number v); simpl; eexists; reflexivity.
    + split; [exists false|]; reflexivity.
Qed.

(** ** Creation *)

Variable database : Database.t.

Lemma get_product_info_run (item : OrderItemCreate.t) (s : St) :
  OrderService.get_product_info send (OrderItemCreate.product_id item) s
  = (lookup send item (world s),
     mkState (db s) (after_lookup send item (world s))
       (sent s ++ [lookup_call item])).
Proof.
  unfold lookup, after_lookup, on_world, lookup_call, OrderService.get_product_info.
  run.
  destruct (send (GET_product (OrderItemCreate.product_id item)) (world s))
    as [[|code body] w]; simpl; try reflexivity.
  destruct (code =? 200); simpl; try reflexivity.
  destruct body; reflexivity.
Qed.

(** A dictionary that has a key is not empty. *)
Lemma assoc_truthy (key : string) (members : list (string * json)) (v : json) :
  assoc key members = Some v -> truthy (JObject members) = true.
Proof. destruct members; [discriminate | reflexivity]. Qed.

Lemma price_of_quoted (item : OrderItemCreate.t) (w : World) (price : float) :
  price_of send item w = Some price -> quoted send item w = Some (JNumber price).
Proof.
  unfold price_of. destruct (quoted send item w) as [[| | x | | |]|];
    try discriminate.
  intros H. injection H as <-. reflexivity.
Qed.

(** One turn of the loop, for a product that has a price: the line is
    added to the session. *)
Lemma add_items_quoted_step
      (order_id : Z) (item : OrderItemCreate.t) (rest : list OrderItemCreate.t)
      (pending : list OrderService.pending_item) (s : St) (price : json) :
  quoted send item (world s) = Some price ->
  OrderService.add_items send database order_id (item :: rest) pending s
  = OrderService.add_items send database order_id rest
      (pending ++ [OrderService.mkPending order_id (OrderItemCreate.product_id item)
                     (OrderItemCreate.quantity item) price])
      (mkState (db s) (after_lookup send item (world s))
         (sent s ++ [lookup_call item])).
Proof.
  intros Hq. cbn [OrderService.add_items].
  unfold bind at 1. rewrite get_product_info_run.
  unfold quoted in Hq.
  destruct (lookup send item (world s)) as [[product|]| |]; try discriminate.
  destruct product as [| | | | |members]; try discriminate.
  rewrite (assoc_truthy _ _ _ Hq), Hq. reflexivity.
Qed.

(** One turn of the loop, for a product that does not resolve. *)
Lemma add_items_missing_step
      (order_id : Z) (item : OrderItemCreate.t) (rest : list OrderItemCreate.t)
      (pending : list OrderService.pending_item) (s : St) :
  unresolved send item (world s) = true ->
  OrderService.add_items send database order_id (item :: rest) pending s
  = (OrderService.delete_and_commit database order_id pending ;;;
     raise 404 (not_found item))
      (mkState (db s) (after_lookup send item (world s))
         (sent s ++ [lookup_call item])).
Proof.
  intros Hun. cbn [OrderService.add_items].
  unfold bind at 1. rewrite get_product_info_run.
  unfold unresolved in Hun.
  destruct (lookup send item (world s)) as [[product|]| |]; try discriminate.
  - apply negb_true_iff in Hun. rewrite Hun. reflexivity.
  - reflexivity.
Qed.

Lemma add_items_resolved (order_id : Z) (items : list OrderItemCreate.t) :
  forall (prices : list float) (pending : list OrderService.pending_item) (s : St),
    prices_of send items (world s) = Some prices ->
    OrderService.add_items send database order_id items pending s
    = (Return (pending ++ pending_lines order_id items (map JNumber prices)),
       mkState (db s) (after_lookups send items (world s))
         (sent s ++ map lookup_call items)).
Proof.
  induction items as [|item rest IH]; intros prices pending s Hprices.
  - injection Hprices as <-. simpl. rewrite !app_nil_r, state_eta. reflexivity.
  - simpl in Hprices.
    destruct (price_of send item (world s)) as [p|] eqn:Hp; [|discriminate].
    destruct (prices_of send rest (after_lookup send item (world s)))
      as [ps|] eqn:Hps; [|discriminate].
    injection Hprices as <-.
    rewrite (add_items_quoted_step _ _ _ _ _ _ (price_of_quoted _ _ _ Hp)).
    rewrite (IH ps) by exact Hps. simpl.
    rewrite <- !app_assoc. reflexivity.
Qed.

Lemma add_items_unresolved (order_id : Z) (items : list OrderItemCreate.t) :
  forall (k : nat) (prices : list float)
         (pending : list OrderService.pending_item) (s : St),
    unresolved_at send k items (world s) = true ->
    prices_of send (firstn k items) (world s) = Some prices ->
    exists item : OrderItemCreate.t,
      nth_error items k = Some item
      /\ OrderService.add_items send database order_id items pending s
         = (OrderService.delete_and_commit database order_id
              (pending ++ pending_lines order_id (firstn k items)
                            (map JNumber prices)) ;;;
            raise 404 (not_found item))
             (mkState (db s)
                (after_lookups send (firstn (S k) items) (world s))
                (sent s ++ map lookup_call (firstn (S k) items))).
Proof.
  induction items as [|item rest IH]; intros k prices pending s Hun Hprices.
  - destruct k; discriminate.
  - destruct k as [|k].
    + exists item. split; [reflexivity|].
      simpl in Hun, Hprices. injection Hprices as <-.
      rewrite (add_items_missing_step _ _ _ _ _ Hun).
      simpl. rewrite app_nil_r. reflexivity.
    + simpl in Hun.
      change (firstn (S k) (item :: rest)) with (item :: firstn k rest) in Hprices.
      simpl in Hprices.
      destruct (price_of send item (world s)) as [p|] eqn:Hp; [|discriminate].
      destruct (prices_of send (firstn k rest) (after_lookup send item (world s)))
        as [ps|] eqn:Hps; [|discriminate].
      injection Hprices as <-.
      destruct (IH k ps
                  (pending ++ [OrderService.mkPending order_id
                                 (OrderItemCreate.product_id item)
                                 (OrderItemCreate.quantity item) (JNumber p)])
                  (mkState (db s) (after_lookup send item (world s))
                     (sent s ++ [lookup_call item])) Hun Hps)
        as [missing [Hnth Hrun]].
      exists missing. split; [exact Hnth|].
      rewrite (add_items_quoted_step _ _ _ _ _ _ (price_of_quoted _ _ _ Hp)).
      rewrite Hrun.
      change (firstn (S (S k)) (item :: rest)) with (item :: firstn (S k) rest).
      change (firstn (S k) (item :: rest)) with (item :: firstn k rest).
      simpl. rewrite <- !app_assoc. reflexivity.
Qed.

(** Keys handed out by the engine are above the keys in use. *)
Lemma next_id_above (ids : list Z) (x : Z) : In x ids -> x < next_id ids.
Proof.
  unfold next_id. induction ids as [|y ids IH]; cbn [fold_right In]; [tauto|].
  intros [-> | Hin]; [lia|]. specialize (IH Hin). lia.
Qed.

Lemma next_id_unused (rows : list Order.t) :
  forallb (fun o => negb (Order.id o =? next_id (map Order.id rows))) rows = true.
Proof.
  apply forallb_forall. intros o Hin.
  apply negb_true_iff, Z.eqb_neq.
  pose proof (next_id_above (map Order.id rows) (Order.id o)
                (in_map Order.id rows o Hin)).
  lia.
Qed.

Lemma filter_all {A} (f : A -> bool) (l : list A) :
  forallb f l = true -> filter f l = l.
Proof.
  induction l as [|a l IH]; simpl; [reflexivity|].
  intros H. apply andb_prop in H as [Ha Hl]. rewrite Ha, IH by exact Hl.
  reflexivity.
Qed.

Lemma find_none_all {A} (f : A -> bool) (l : list A) :
  forallb (fun a => negb (f a)) l = true -> find f l = None.
Proof.
  induction l as [|a l IH]; simpl; [reflexivity|].
  intros H. apply andb_prop in H as [Ha Hl].
  apply negb_true_iff in Ha. rewrite Ha. apply IH. exact Hl.
Qed.

Lemma find_app_none {A} (f : A -> bool) (l l' : list A) :
  find f l = None -> find f (l ++ l') = find f l'.
Proof.
  induction l as [|a l IH]; simpl; [reflexivity|].
  destruct (f a); [discriminate|]. exact IH.
Qed.

(** Flushing lines that the engine accepts appends one row per line, in
    order, with the contents of the line. *)
Lemma flush_items_rows (pending : list OrderService.pending_item) :
  forallb (accepted database) pending = true ->
  forall t : OrderService.Tables,
    exists rows : list OrderItem.t,
      OrderService.flush_items database pending t
      = Some (OrderService.mkTables (OrderService.orders t)
                (OrderService.order_items t ++ rows))
      /\ map unflushed rows = pending.
Proof.
  induction pending as [|p pending IH]; intros Hok t.
  - exists []. simpl. rewrite app_nil_r. destruct t; split; reflexivity.
  - simpl in Hok. apply andb_prop in Hok as [Hp Hrest].
    unfold accepted in Hp. apply andb_prop in Hp as [Hq Hprice].
    destruct p as [oid pid q price]. cbn [OrderService.p_quantity
      OrderService.p_unit_price] in Hq, Hprice.
    destruct price as [| | price | | |]; try discriminate.
    destruct (IH Hrest
                (OrderService.insert_item t
                   (OrderService.mkPending oid pid q (JNumber price)) price))
      as [rows [Hflush Hrows]].
    eexists (_ :: rows). split.
    + cbn [OrderService.flush_items OrderService.p_quantity
        OrderService.p_unit_price OrderService.column_value].
      rewrite Hq, Hprice, Hflush. cbn. rewrite <- app_assoc. reflexivity.
    + cbn. rewrite Hrows. reflexivity.
Qed.

Lemma prices_of_length (items : list OrderItemCreate.t) :
  forall (w : World) (prices : list float),
    prices_of send items w = Some prices ->
    List.length prices = List.length items.
Proof.
  induction items as [|item rest IH]; intros w prices H; simpl in H.
  - injection H as <-. reflexivity.
  - destruct (price_of send item w); [|discriminate].
    destruct (prices_of send rest (after_lookup send item w)) eqn:Hrest;
      [|discriminate].
    injection H as <-. simpl. f_equal. eapply IH. exact Hrest.
Qed.

Lemma pending_lines_accepted (order_id : Z) (items : list OrderItemCreate.t) :
  forall prices : list float,
    lines_storable database items prices = true ->
    forallb (accepted database) (pending_lines order_id items (map JNumber prices))
    = true.
Proof.
  unfold lines_storable.
  induction items as [|item rest IH]; intros [|p ps] H; try reflexivity.
  cbn in H. apply andb_prop in H as [Hq Hp].
  apply andb_prop in Hq as [Hq Hqs]. apply andb_prop in Hp as [Hp Hps].
  cbn. unfold accepted at 1. cbn. rewrite Hq, Hp. cbn.
  apply IH. rewrite Hqs, Hps. reflexivity.
Qed.

Lemma rows_prices (rows : list OrderItem.t) :
  forall (order_id : Z) (items : list OrderItemCreate.t) (prices : list float),
    List.length prices = List.length items ->
    map unflushed rows = pending_lines order_id items (map JNumber prices) ->
    map OrderItem.unit_price rows = prices
    /\ List.length rows = List.length items.
Proof.
  induction rows as [|row rows IH]; intros order_id items prices Hlen H.
  - destruct items as [|item items]; destruct prices as [|p ps];
      try discriminate; split; reflexivity.
  - destruct items as [|item items]; destruct prices as [|p ps];
      try discriminate.
    cbn in H. injection H as _ _ _ Hprice Hrows.
    cbn in Hlen. injection Hlen as Hlen.
    destruct (IH order_id items ps Hlen Hrows) as [Hps Hn].
    cbn. rewrite Hprice, Hps, Hn. split; reflexivity.
Qed.

Lemma rows_of_order (order_id : Z) (rows : list OrderItem.t) :
  forall (items : list OrderItemCreate.t) (prices : list json),
    map unflushed rows = pending_lines order_id items prices ->
    filter (fun i => OrderItem.order_id i =? order_id) rows = rows.
Proof.
  induction rows as [|row rows IH]; intros items prices H; [reflexivity|].
  destruct items as [|item items]; [discriminate|].
  destruct prices as [|p ps]; [discriminate|].
  simpl in H. injection H as Hoid _ _ _ Hrows.
  simpl. rewrite Hoid, Z.eqb_refl. f_equal. eapply IH. exact Hrows.
Qed.

(** Once the lines loaded for an order are deleted, no line refers to
    it. *)
Lemma items_of_deleted (order_id : Z) (loaded : list Z) (rows : list OrderItem.t) :
  (forall row : OrderItem.t,
      In row rows -> OrderItem.order_id row = order_id ->
      In (OrderItem.id row) loaded) ->
  filter (fun i => OrderItem.order_id i =? order_id)
    (filter (fun i => negb (existsb (Z.eqb (OrderItem.id i)) loaded)) rows) = [].
Proof.
  induction rows as [|row rows IH]; intros Hloaded; simpl; [reflexivity|].
  assert (Hrest : forall r : OrderItem.t,
             In r rows -> OrderItem.order_id r = order_id ->
             In (OrderItem.id r) loaded)
    by (intros r Hin; apply Hloaded; right; exact Hin).
  destruct (existsb (Z.eqb (OrderItem.id row)) loaded) eqn:Hex; simpl.
  - apply IH. exact Hrest.
  - destruct (OrderItem.order_id row =? order_id) eqn:Hoid.
    + apply Z.eqb_eq in Hoid.
      assert (Hin : In (OrderItem.id row) loaded)
        by (apply Hloaded; [left; reflexivity | exact Hoid]).
      assert (Hyes : existsb (Z.eqb (OrderItem.id row)) loaded = true)
        by (apply existsb_exists; exists (OrderItem.id row);
            split; [exact Hin | apply Z.eqb_refl]).
      congruence.
    + apply IH. exact Hrest.
Qed.

(** [db.delete(db_order); db.commit()] when the engine accepts the
    pending lines and the deletion. *)
Lemma delete_and_commit_run
      (order_id : Z) (pending : list OrderService.pending_item) (s : St)
      (flushed : OrderService.Tables) :
  OrderService.flush_items database pending (db s) = Some flushed ->
  Database.autoflush database
  || negb (Database.foreign_keys database)
  || match pending with [] => true | _ :: _ => false end = true ->
  OrderService.delete_and_commit database order_id pending s
  = (Return tt,
     mkState
       (OrderService.delete_order order_id
          (map OrderItem.id
             (OrderService.items_of order_id
                (if Database.autoflush database then flushed else db s)))
          flushed)
       (world s) (sent s)).
Proof.
  intros Hflush Hok.
  unfold OrderService.delete_and_commit, bind, query, commit, fault.
  rewrite Hflush.
  destruct (Database.autoflush database); [reflexivity|].
  destruct (Database.foreign_keys database); [|reflexivity].
  destruct pending; [reflexivity | discriminate].
Qed.

(** The run of a creation that meets a missing product, the lines before
    it being accepted by the engine. *)
Lemma create_order_missing_run
      (order : OrderCreate.t) (now : Z) (s : St) (k : nat) (prices : list float) :
  unresolved_at send k (OrderCreate.items order) (world s) = true ->
  prices_of send (firstn k (OrderCreate.items order)) (world s) = Some prices ->
  lines_storable database (firstn k (OrderCreate.items order)) prices = true ->
  Database.autoflush database
  || negb (Database.foreign_keys database)
  || Nat.eqb k 0 = true ->
  let order_id := next_id (map Order.id (OrderService.orders (db s))) in
  let db_order :=
    Order.mk order_id (OrderCreate.customer_name order)
      (OrderCreate.customer_email order) "pending" now None in
  exists (item : OrderItemCreate.t) (rows : list OrderItem.t),
    nth_error (OrderCreate.items order) k = Some item
    /\ map unflushed rows
       = pending_lines order_id (firstn k (OrderCreate.items order))
           (map JNumber prices)
    /\ let flushed :=
         OrderService.mkTables (OrderService.orders (db s) ++ [db_order])
           (OrderService.order_items (db s) ++ rows) in
       OrderService.create_order send database order now s
       = (HTTPException 404 (not_found item),
          mkState
            (OrderService.delete_order order_id
               (map OrderItem.id
                  (OrderService.items_of order_id
                     (if Database.autoflush database then flushed else db s)))
               flushed)
            (after_lookups send (firstn (S k) (OrderCreate.items order)) (world s))
            (sent s ++ map lookup_call (firstn (S k) (OrderCreate.items order)))).
Proof.
  intros Hun Hprices Hstorable Hengine order_id db_order.
  set (s1 := mkState
               (OrderService.insert_order (OrderCreate.customer_name order)
                  (OrderCreate.customer_email order) "pending" now (db s))
               (world s) (sent s)).
  destruct (add_items_unresolved order_id (OrderCreate.items order) k prices [] s1
              Hun Hprices) as [item [Hnth Hrun]].
  destruct (flush_items_rows _
              (pending_lines_accepted order_id _ _ Hstorable) (db s1))
    as [rows [Hflush Hrows]].
  exists item, rows. split; [exact Hnth|]. split; [exact Hrows|].
  cbv zeta.
  assert (Hempty :
            Database.autoflush database
            || negb (Database.foreign_keys database)
            || match pending_lines order_id (firstn k (OrderCreate.items order))
                       (map JNumber prices)
               with [] => true | _ :: _ => false end = true).
  { destruct (Database.autoflush database
              || negb (Database.foreign_keys database)); [reflexivity|].
    cbn in Hengine. destruct k; [reflexivity | discriminate]. }
  unfold OrderService.create_order.
  unfold bind at 1. unfold query at 1. cbv iota beta.
  unfold bind at 1. unfold commit at 1. cbv iota beta.
  unfold bind at 1. fold order_id. fold s1.
  rewrite Hrun. cbn [app].
  unfold bind at 1.
  match goal with
  | |- context [OrderService.delete_and_commit database ?oid ?p ?st] =>
      rewrite (delete_and_commit_run oid p st _ Hflush Hempty)
  end.
  unfold raise. cbn [db world sent s1].
  destruct (Database.autoflush database); reflexivity.
Qed.

(** C3. When line [k] of a creation request is the first whose product id
    does not resolve, the lines before it having resolved to products with
    a number as their price and the engine accepting these lines, the
    creation fails with status 404 and the detail "Product <id> not found"
    for the product id of line [k]; afterwards the orders table is what it
    was before the request, no row carries the key the order had received,
    and the product service was asked for lines 0 to [k] only. This needs
    the session to autoflush or the engine not to enforce the foreign key
    of the lines, unless [k] is 0. As for the lines before [k]: with a
    session that autoflushes no line refers to the deleted order; with one
    that does not, they are stored, referring to the order that is gone. *)
Theorem create_order_product_missing
        (order : OrderCreate.t) (now : Z) (s : St) (k : nat) (prices : list float) :
  unresolved_at send k (OrderCreate.items order) (world s) = true ->
  prices_of send (firstn k (OrderCreate.items order)) (world s) = Some prices ->
  lines_storable database (firstn k (OrderCreate.items order)) prices = true ->
  Database.autoflush database
  || negb (Database.foreign_keys database)
  || Nat.eqb k 0 = true ->
  let order_id := next_id (map Order.id (OrderService.orders (db s))) in
  let r := OrderService.create_order send database order now s in
  exists (item : OrderItemCreate.t) (rows : list OrderItem.t),
    nth_error (OrderCreate.items order) k = Some item
    /\ fst r
       = HTTPException 404
           ("Product " ++ str_int (OrderItemCreate.product_id item) ++ " not found")
    /\ OrderService.orders (db (snd r)) = OrderService.orders (db s)
    /\ OrderService.first_order order_id (db (snd r)) = None
    /\ sent (snd r)
       = sent s ++ map lookup_call (firstn (S k) (OrderCreate.items order))
    /\ map unflushed rows
       = pending_lines order_id (firstn k (OrderCreate.items order))
           (map JNumber prices)
    /\ (Database.autoflush database = true ->
        OrderService.items_of order_id (db (snd r)) = [])
    /\ (Database.autoflush database = false ->
        OrderService.items_of order_id (db s) = [] ->
        OrderService.order_items (db (snd r))
        = OrderService.order_items (db s) ++ rows).
Proof.
  intros Hun Hprices Hstorable Hengine order_id r. subst r.
  destruct (create_order_missing_run order now s k prices
              Hun Hprices Hstorable Hengine)
    as [item [rows [Hnth [Hrows Hrun]]]].
  cbv zeta in Hrun. fold order_id in Hrun, Hrows.
  exists item, rows. split; [exact Hnth|].
  rewrite Hrun. cbn [fst snd db sent].
  assert (Horders :
            filter (fun o => negb (Order.id o =? order_id))
              (OrderService.orders (db s) ++
                 [Order.mk order_id (OrderCreate.customer_name order)
                    (OrderCreate.customer_email order) "pending" now None])
            = OrderService.orders (db s)).
  { rewrite filter_app. simpl. rewrite Z.eqb_refl. simpl.
    rewrite app_nil_r. apply filter_all. apply next_id_unused. }
  split; [reflexivity|].
  split; [exact Horders|].
  split.
  { unfold OrderService.first_order, OrderService.delete_order.
    cbn [OrderService.orders]. rewrite Horders.
    apply find_none_all. apply next_id_unused. }
  split; [reflexivity|].
  split; [exact Hrows|].
  split.
  - intros Hauto. rewrite Hauto.
    unfold OrderService.items_of at 1, OrderService.delete_order.
    cbn [OrderService.order_items].
    apply items_of_deleted. intros row Hin Hoid.
    apply in_map. unfold OrderService.items_of. cbn [OrderService.order_items].
    apply filter_In. split; [exact Hin | apply Z.eqb_eq; exact Hoid].
  - intros Hauto Hnone. rewrite Hauto, Hnone.
    unfold OrderService.delete_order. cbn [OrderService.order_items map existsb negb].
    apply filter_all. apply forallb_forall. reflexivity.
Qed.

(** The run of a creation whose products all resolve, the engine
    accepting its lines. *)
Lemma create_order_resolved_run
      (order : OrderCreate.t) (now : Z) (s : St) (prices : list float) :
  prices_of send (OrderCreate.items order) (world s) = Some prices ->
  lines_storable database (OrderCreate.items order) prices = true ->
  let order_id := next_id (map Order.id (OrderService.orders (db s))) in
  let db_order :=
    Order.mk order_id (OrderCreate.customer_name order)
      (OrderCreate.customer_email order) "pending" now None in
  exists rows : list OrderItem.t,
    map unflushed rows
    = pending_lines order_id (OrderCreate.items order) (map JNumber prices)
    /\ let tables :=
         OrderService.mkTables (OrderService.orders (db s) ++ [db_order])
           (OrderService.order_items (db s) ++ rows) in
       OrderService.create_order send database order now s
       = (Return (OrderRead.mk db_order
                    (OrderService.items_of order_id (db s) ++ rows),
                  [OrderService.task_process_order order_id]),
          mkState tables
            (after_lookups send (OrderCreate.items order) (world s))
            (sent s ++ map lookup_call (OrderCreate.items order))).
Proof.
  intros Hprices Hstorable order_id db_order.
  destruct (flush_items_rows _
              (pending_lines_accepted order_id _ _ Hstorable)
              (OrderService.insert_order (OrderCreate.customer_name order)
                 (OrderCreate.customer_email order) "pending" now (db s)))
    as [rows [Hflush Hrows]].
  exists rows. split; [exact Hrows|]. cbv zeta.
  unfold OrderService.create_order.
  unfold bind at 1. unfold query at 1. cbv iota beta.
  unfold bind at 1. unfold commit at 1. cbv iota beta.
  unfold bind at 1.
  rewrite (add_items_resolved _ _ prices) by exact Hprices.
  cbn [app db world sent].
  unfold OrderService.commit_items, OrderService.read_model, bind, query,
    commit, ret.
  cbn [db world sent]. fold order_id. rewrite Hflush.
  cbn [db world sent fst snd OrderService.orders OrderService.order_items].
  unfold OrderService.items_of. cbn [OrderService.order_items Order.id].
  rewrite filter_app, (rows_of_order order_id rows _ _ Hrows).
  reflexivity.
Qed.

(** C4. When every line of a creation request resolves to a product with
    a number as its price, [prices] being these prices in line order, and
    the engine accepts the lines, the creation appends exactly one order,
    with status "pending", and exactly one line per requested line, each
    with the product id and quantity of the request and the looked-up price
    as its unit price; it returns that order, status "pending", with its
    lines, and schedules the fulfilment. Reading the order later returns
    the same lines and prices whatever the state of the product service has
    become. *)
Theorem create_order_all_resolve
        (order : OrderCreate.t) (now : Z) (s : St) (prices : list float) :
  prices_of send (OrderCreate.items order) (world s) = Some prices ->
  lines_storable database (OrderCreate.items order) prices = true ->
  let order_id := next_id (map Order.id (OrderService.orders (db s))) in
  let db_order :=
    Order.mk order_id (OrderCreate.customer_name order)
      (OrderCreate.customer_email order) "pending" now None in
  let r := OrderService.create_order send database order now s in
  exists rows : list OrderItem.t,
    OrderService.orders (db (snd r)) = OrderService.orders (db s) ++ [db_order]
    /\ OrderService.order_items (db (snd r))
       = OrderService.order_items (db s) ++ rows
    /\ List.length rows = List.length (OrderCreate.items order)
    /\ map OrderItem.unit_price rows = prices
    /\ map unflushed rows
       = pending_lines order_id (OrderCreate.items order) (map JNumber prices)
    /\ fst r
       = Return (OrderRead.mk db_order
                   (OrderService.items_of order_id (db s) ++ rows),
                 [OrderService.task_process_order order_id])
    /\ forall (w : World) (log : list request),
        fst (OrderService.read_order order_id (mkState (db (snd r)) w log))
        = Return (OrderRead.mk db_order
                    (OrderService.items_of order_id (db s) ++ rows)).
Proof.
  intros Hprices Hstorable order_id db_order r. subst r.
  destruct (create_order_resolved_run order now s prices Hprices Hstorable)
    as [rows [Hrows Hrun]].
  cbv zeta in Hrun. fold order_id in Hrun, Hrows. fold db_order in Hrun.
  exists rows. rewrite Hrun. cbn [fst snd db].
  pose proof (prices_of_length _ _ _ Hprices) as Hlen.
  destruct (rows_prices rows order_id _ _ Hlen Hrows) as [Hunit Hcount].
  split; [reflexivity|]. split; [reflexivity|].
  split; [exact Hcount|]. split; [exact Hunit|].
  split; [exact Hrows|]. split; [reflexivity|].
  intros w log. unfold OrderService.read_order, OrderService.read_model.
  unfold bind, query, ret. cbn [db fst snd].
  unfold OrderService.first_order. cbn [OrderService.orders].
  rewrite find_app_none
    by (apply find_none_all; apply next_id_unused).
  cbn [find Order.id]. fold order_id. rewrite Z.eqb_refl.
  cbn [fst]. unfold OrderService.items_of.
  change (Order.id db_order) with order_id.
  cbn [OrderService.order_items db].
  rewrite filter_app, (rows_of_order order_id rows _ _ Hrows).
  reflexivity.
Qed.

(** ** Status update *)

(** The run of a status update on an order that exists, with a body that
    passes validation. *)
Lemma put_order_status_run
      (order_id : Z) (status : string) (now : Z) (s : St) (order : Order.t) :
  OrderService.first_order order_id (db s) = Some order ->
  OrderStatusUpdate.regex_match status = true ->
  let order' := OrderService.with_status order status now in
  let call :=
    POST_notification
      (order_status (Order.id order) status (Order.customer_email order)) in
  OrderService.put_order_status send order_id status now s
  = (Return (OrderRead.mk order' (OrderService.items_of (Order.id order) (db s))),
     mkState (OrderService.store_order order' (db s))
       (snd (send call (world s))) (sent s ++ [call])).
Proof.
  intros Hfound Hvalid order' call.
  unfold OrderService.put_order_status, OrderStatusUpdate.validate.
  rewrite Hvalid.
  unfold OrderService.route, OrderService.update_order_status,
    OrderService.read_model, bind, query, commit, ret.
  cbn [db world sent fst snd]. rewrite Hfound.
  cbn [db world sent fst snd OrderService.run_background OrderService.run_task].
  unfold bind, ret. rewrite notify_order_status_run. reflexivity.
Qed.

Lemma put_order_status_invalid
      (order_id : Z) (status : string) (now : Z) (s : St) :
  OrderStatusUpdate.regex_match status = false ->
  OrderService.put_order_status send order_id status now s
  = (HTTPException 422 "string does not match regex", s).
Proof.
  intros Hinvalid.
  unfold OrderService.put_order_status, OrderStatusUpdate.validate.
  rewrite Hinvalid. reflexivity.
Qed.

(** The strings the pattern of [OrderStatusUpdate] lets through. *)
Lemma regex_match_spec (status : string) :
  OrderStatusUpdate.regex_match status = true
  <-> exists w : string,
        In w OrderStatusUpdate.statuses
        /\ (status = w \/ status = String.append w OrderStatusUpdate.newline).
Proof.
  unfold OrderStatusUpdate.regex_match. rewrite existsb_exists.
  split; intros [w [Hin Hw]]; exists w; split; try exact Hin.
  - apply orb_prop in Hw as [Hw | Hw]; apply String.eqb_eq in Hw; auto.
  - apply orb_true_iff. destruct Hw as [-> | ->]; [left | right];
      apply String.eqb_refl.
Qed.

(** C5, as amended. The status update is not constrained by the current
    status, but the body is constrained by the pattern of the schema: for an
    existing order, a string the pattern lets through (one of pending,
    processing, processed, failed, delivered, possibly followed by one
    final newline) is written as the stored status whatever the status
    was; any other string is refused with status 422 and nothing changes. *)
Theorem put_order_status_writes_valid_status
        (order_id : Z) (status : string) (now : Z) (s : St) (order : Order.t) :
  OrderService.first_order order_id (db s) = Some order ->
  let r := OrderService.put_order_status send order_id status now s in
  (OrderStatusUpdate.regex_match status = true
   <-> exists w : string,
         In w ["pending"; "processing"; "processed"; "failed"; "delivered"]
         /\ (status = w \/ status = String.append w OrderStatusUpdate.newline))
  /\ if OrderStatusUpdate.regex_match status
     then option_map Order.status (OrderService.first_order order_id (db (snd r)))
          = Some status
     else fst r = HTTPException 422 "string does not match regex" /\ snd r = s.
Proof.
  intros Hfound r. subst r. split; [apply regex_match_spec|].
  destruct (OrderStatusUpdate.regex_match status) eqn:Hvalid.
  - rewrite (put_order_status_run order_id status now s order Hfound Hvalid).
    simpl. rewrite first_order_with_status by exact Hfound. reflexivity.
  - rewrite put_order_status_invalid by exact Hvalid. split; reflexivity.
Qed.


(** C9. For an order id that is not in storage, the status update fails
    with status 404 "Order not found" and leaves everything as it was: the
    tables, the network, and the list of requests sent (so no notification).
    A body the schema refuses is answered 422 before the lookup, with no
    effect either. *)
Theorem put_order_status_not_found
        (order_id : Z) (status : string) (now : Z) (s : St) :
  OrderService.first_order order_id (db s) = None ->
  OrderService.update_order_status order_id (OrderStatusUpdate.mk status) now s
  = (HTTPException 404 "Order not found", s)
  /\ OrderService.put_order_status send order_id status now s
     = (if OrderStatusUpdate.regex_match status
        then HTTPException 404 "Order not found"
        else HTTPException 422 "string does not match regex",
        s).
Proof.
  intros Hnone. split.
  - unfold OrderService.update_order_status, bind, query, raise. simpl.
    rewrite Hnone. reflexivity.
  - unfold OrderService.put_order_status, OrderStatusUpdate.validate.
    destruct (OrderStatusUpdate.regex_match status); [|reflexivity].
    unfold OrderService.route, OrderService.update_order_status,
      bind, query, raise. simpl.
    rewrite Hnone. reflexivity.
Qed.

End OrderWorkflow.

(* ================================================================== *)
(** ** The inventory quantity guard *)

(** A sum that is neither negative nor NaN is [>= 0]. *)
Lemma ge0_of_not_negative (x : float) :
  PyFloat.ltb x PyFloat.zero = false ->
  PyFloat.is_nan x = false ->
  ge0 x = true.
Proof.
  destruct x as [sx | sx | | sx m e]; simpl; try discriminate;
    destruct sx; simpl; intros H _; try reflexivity; discriminate.
Qed.

Lemma ge0_not_nan (x : float) : ge0 x = true -> PyFloat.is_nan x = false.
Proof. destruct x; simpl; try reflexivity. discriminate. Qed.

(** A sum below zero is a number, and is not [>= 0]. *)
Lemma negative_not_nan (x : float) :
  PyFloat.ltb x PyFloat.zero = true -> PyFloat.is_nan x = false.
Proof. destruct x; simpl; try reflexivity. discriminate. Qed.

Lemma negative_not_ge0 (x : float) :
  PyFloat.ltb x PyFloat.zero = true -> ge0 x = false.
Proof.
  destruct x as [sx | sx | | sx m e]; simpl; try discriminate;
    destruct sx; simpl; intros H; try reflexivity; discriminate.
Qed.


Lemma all_nonneg_store (item : InventoryItem.t) (t : InventoryService.Tables) :
  ge0 (InventoryItem.quantity item) = true ->
  all_nonneg t = true ->
  all_nonneg (InventoryService.store_item item t) = true.
Proof.
  unfold all_nonneg, InventoryService.store_item. intros Hq.
  induction t as [|i t IH]; simpl; [reflexivity|].
  intros Ht. apply andb_prop in Ht as [Hi Ht].
  rewrite (IH Ht), andb_true_r.
  destruct (InventoryItem.id i =? InventoryItem.id item); assumption.
Qed.

Lemma all_nonneg_insert (product_id : Z) (q : float) (location : option string)
      (t : InventoryService.Tables) :
  ge0 q = true ->
  all_nonneg t = true ->
  all_nonneg (InventoryService.insert_item product_id q location t) = true.
Proof.
  unfold all_nonneg, InventoryService.insert_item. intros Hq Ht.
  rewrite forallb_app, Ht. simpl. rewrite Hq. reflexivity.
Qed.

Lemma first_item_product (product_id : Z) (t : InventoryService.Tables)
      (item : InventoryItem.t) :
  InventoryService.first_item product_id t = Some item ->
  InventoryItem.product_id item = product_id.
Proof.
  unfold InventoryService.first_item. intros H.
  apply find_some in H as [_ H]. apply Z.eqb_eq. exact H.
Qed.

(** The row found for a product is the row read back after it is stored. *)
Lemma first_item_store (product_id : Z) (t : InventoryService.Tables)
      (item item' : InventoryItem.t) :
  InventoryService.first_item product_id t = Some item ->
  InventoryItem.id item' = InventoryItem.id item ->
  InventoryItem.product_id item' = product_id ->
  InventoryService.first_item product_id (InventoryService.store_item item' t)
  = Some item'.
Proof.
  unfold InventoryService.first_item, InventoryService.store_item.
  intros Hfind Hid Hpid. rewrite Hid.
  induction t as [|i t IH]; [discriminate|]. simpl in *.
  destruct (InventoryItem.product_id i =? product_id) eqn:Hi.
  - injection Hfind as ->. rewrite Z.eqb_refl, Hpid, Z.eqb_refl. reflexivity.
  - destruct (InventoryItem.id i =? InventoryItem.id item).
    + rewrite Hpid, Z.eqb_refl. reflexivity.
    + rewrite Hi. apply IH. exact Hfind.
Qed.

Section InventoryGuard.

Context {World : Type}.
Variable send : request -> World -> response * World.
Variable STOCK_THRESHOLD : Z.
Variable nan_storable : bool.

Let St : Type := state InventoryService.Tables World.

Lemma notify_low_stock_run (item : InventoryItem.t) (s : St) :
  exists w : World,
    InventoryService.notify_low_stock send STOCK_THRESHOLD item s
    = (Return tt,
       mkState (db s) w
         (sent s ++ [POST_notification
                       (low_stock (InventoryItem.product_id item)
                          (InventoryItem.quantity item) STOCK_THRESHOLD)])).
Proof.
  unfold InventoryService.notify_low_stock. run.
  destruct (send _ (world s)) as [resp w]. exists w. reflexivity.
Qed.

(** Background notifications leave the table alone and do not raise. *)
Lemma run_background_tables (tasks : list InventoryService.task) :
  forall s : St,
    fst (InventoryService.run_background send STOCK_THRESHOLD tasks s) = Return tt
    /\ db (snd (InventoryService.run_background send STOCK_THRESHOLD tasks s)) = db s.
Proof.
  induction tasks as [|[item] tasks IH]; intros s; simpl.
  - split; reflexivity.
  - destruct (notify_low_stock_run item s) as [w Hrun].
    unfold bind. rewrite Hrun.
    apply (IH (mkState (db s) w _)).
Qed.

(** What a route makes of a handler that returns. *)
Lemma route_run
      (handler : InventoryService.H World (InventoryItem.t * list InventoryService.task))
      (s s' : St) (item : InventoryItem.t) (tasks : list InventoryService.task) :
  handler s = (Return (item, tasks), s') ->
  InventoryService.route send STOCK_THRESHOLD handler s
  = if InventoryService.response_ok item
    then (Return item,
          snd (InventoryService.run_background send STOCK_THRESHOLD tasks s'))
    else (Unhandled "ResponseValidationError", s').
Proof.
  intros Hrun. unfold InventoryService.route, bind. rewrite Hrun.
  cbn [fst snd]. unfold InventoryService.respond.
  destruct (InventoryService.response_ok item); [|reflexivity].
  unfold ret at 1.
  destruct (run_background_tables tasks s') as [Hret _].
  destruct (InventoryService.run_background send STOCK_THRESHOLD tasks s')
    as [[[]| |] s'']; simpl in *; try discriminate.
  reflexivity.
Qed.

(** A route changes the table as its handler does. *)
Lemma route_tables
      (handler : InventoryService.H World (InventoryItem.t * list InventoryService.task))
      (s : St) :
  db (snd (InventoryService.route send STOCK_THRESHOLD handler s))
  = db (snd (handler s)).
Proof.
  destruct (handler s) as [[[item tasks]| |] s'] eqn:Hrun.
  - rewrite (route_run _ _ _ _ _ Hrun).
    destruct (InventoryService.response_ok item); [|reflexivity].
    apply run_background_tables.
  - unfold InventoryService.route, bind. rewrite Hrun. reflexivity.
  - unfold InventoryService.route, bind. rewrite Hrun. reflexivity.
Qed.

Lemma route_return
      (handler : InventoryService.H World (InventoryItem.t * list InventoryService.task))
      (s : St) (item : InventoryItem.t) (tasks : list InventoryService.task)
      (s' : St) :
  handler s = (Return (item, tasks), s') ->
  InventoryService.response_ok item = true ->
  fst (InventoryService.route send STOCK_THRESHOLD handler s) = Return item.
Proof.
  intros Hrun Hok. rewrite (route_run _ _ _ _ _ Hrun), Hok. reflexivity.
Qed.

Lemma route_raise
      (handler : InventoryService.H World (InventoryItem.t * list InventoryService.task))
      (s : St) (code : Z) (msg : string) (s' : St) :
  handler s = (HTTPException code msg, s') ->
  InventoryService.route send STOCK_THRESHOLD handler s = (HTTPException code msg, s').
Proof.
  intros Hrun. unfold InventoryService.route, bind. rewrite Hrun. reflexivity.
Qed.

Lemma verify_product_exists_run (product_id : Z) (s : St) :
  exists (b : bool) (w : World),
    InventoryService.verify_product_exists send product_id s
    = (Return b, mkState (db s) w (sent s ++ [GET_product product_id])).
Proof.
  unfold InventoryService.verify_product_exists. run.
  destruct (send _ (world s)) as [[|code body] w]; eexists; eexists; reflexivity.
Qed.

Lemma create_inventory_item_nonneg (item : InventoryItemCreate.t) (s : St) :
  all_nonneg (db s) = true ->
  ge0 (InventoryItemCreate.quantity item) = true ->
  all_nonneg
    (db (snd (InventoryService.create_inventory_item send STOCK_THRESHOLD
                nan_storable item s))) = true.
Proof.
  intros Hs Hq. unfold InventoryService.create_inventory_item.
  destruct (verify_product_exists_run (InventoryItemCreate.product_id item) s)
    as [b [w Hverify]].
  unfold bind at 1. rewrite Hverify.
  destruct b; simpl; [|exact Hs].
  unfold bind, query, InventoryService.commit_item, commit, ret. simpl.
  rewrite (ge0_not_nan _ Hq), orb_true_r.
  destruct (InventoryService.first_item (InventoryItemCreate.product_id item) (db s));
    simpl; [apply all_nonneg_store | apply all_nonneg_insert]; assumption.
Qed.

Lemma update_inventory_item_nonneg (product_id : Z) (item : InventoryItemUpdate.t)
      (s : St) :
  all_nonneg (db s) = true ->
  InventoryItemUpdate.valid item = true ->
  all_nonneg
    (db (snd (InventoryService.update_inventory_item send STOCK_THRESHOLD
                nan_storable product_id item s))) = true.
Proof.
  intros Hs Hvalid. unfold InventoryService.update_inventory_item.
  destruct (verify_product_exists_run product_id s) as [b [w Hverify]].
  unfold bind at 1. rewrite Hverify.
  destruct b; simpl; [|exact Hs].
  unfold bind, query, InventoryService.commit_item, commit, ret, fault. simpl.
  destruct (InventoryService.first_item product_id (db s)) as [db_item|] eqn:Hfound;
    [|exact Hs].
  unfold InventoryItemUpdate.valid in Hvalid.
  apply andb_prop in Hvalid as [Hquantity _].
  destruct (InventoryItemUpdate.quantity item) as [|[q|]]; simpl.
  - assert (Hq : ge0 (InventoryItem.quantity db_item) = true).
    { apply find_some in Hfound as [Hin _].
      unfold all_nonneg in Hs. rewrite forallb_forall in Hs. apply Hs. exact Hin. }
    rewrite (ge0_not_nan _ Hq), orb_true_r. simpl.
    apply all_nonneg_store; assumption.
  - rewrite (ge0_not_nan _ Hquantity), orb_true_r. simpl.
    apply all_nonneg_store; assumption.
  - exact Hs.
Qed.

(** The run of an adjustment that the guard refuses. *)
Lemma adjust_inventory_refused (product_id : Z) (amount : float) (s : St)
      (db_item : InventoryItem.t) :
  InventoryService.first_item product_id (db s) = Some db_item ->
  PyFloat.ltb (PyFloat.add (InventoryItem.quantity db_item) amount) PyFloat.zero
  = true ->
  InventoryService.adjust_inventory STOCK_THRESHOLD nan_storable product_id
    (InventoryAdjustment.mk amount false) s
  = (HTTPException 400 "Adjustment would cause negative inventory", s).
Proof.
  intros Hfound Hneg. unfold InventoryService.adjust_inventory, bind, query.
  simpl. rewrite Hfound. simpl. rewrite Hneg. reflexivity.
Qed.

(** The run of an adjustment that goes through, with a sum the engine
    stores. *)
Lemma adjust_inventory_stored (product_id : Z) (amount : float) (s : St)
      (db_item : InventoryItem.t) :
  InventoryService.first_item product_id (db s) = Some db_item ->
  PyFloat.ltb (PyFloat.add (InventoryItem.quantity db_item) amount) PyFloat.zero
  = false ->
  PyFloat.is_nan (PyFloat.add (InventoryItem.quantity db_item) amount) = false ->
  let db_item' :=
    InventoryItem.mk (InventoryItem.id db_item) (InventoryItem.product_id db_item)
      (PyFloat.add (InventoryItem.quantity db_item) amount)
      (InventoryItem.location db_item) in
  InventoryService.adjust_inventory STOCK_THRESHOLD nan_storable product_id
    (InventoryAdjustment.mk amount false) s
  = (Return (db_item', InventoryService.low_stock_tasks STOCK_THRESHOLD db_item'),
     mkState (InventoryService.store_item db_item' (db s)) (world s) (sent s)).
Proof.
  intros Hfound Hneg Hnan db_item'.
  unfold InventoryService.adjust_inventory, bind, query.
  simpl. rewrite Hfound. simpl. rewrite Hneg. simpl.
  unfold InventoryService.commit_item. rewrite Hnan.
  rewrite orb_true_r. reflexivity.
Qed.

(** What the guard does achieve. Starting from a table whose quantities
    are all [>= 0], creation and update keep them so, and so does an
    adjustment with [allow_negative = false] whenever the old quantity plus
    the amount is not NaN. For a product in stock, such an adjustment whose
    sum is negative fails with status 400 and changes nothing; otherwise,
    the sum not being NaN, it stores the old quantity plus the signed
    amount (the binary64 sum), and it returns the item when the rest of the
    row is what the response model accepts. *)
Theorem inventory_quantities_stay_nonnegative (s : St) :
  all_nonneg (db s) = true ->
  (forall item : InventoryItemCreate.t,
      all_nonneg
        (db (snd (InventoryService.post_inventory send STOCK_THRESHOLD
                    nan_storable item s))) = true)
  /\ (forall (product_id : Z) (item : InventoryItemUpdate.t),
         all_nonneg
           (db (snd (InventoryService.put_inventory send STOCK_THRESHOLD
                       nan_storable product_id item s))) = true)
  /\ (forall (product_id : Z) (amount : float),
         (forall old : float,
             stored_quantity product_id (db s) = Some old ->
             PyFloat.is_nan (PyFloat.add old amount) = false) ->
         all_nonneg
           (db (snd (InventoryService.post_adjust send STOCK_THRESHOLD
                       nan_storable product_id
                       (InventoryAdjustment.mk amount false) s))) = true)
  /\ (forall (product_id : Z) (amount : float) (old : InventoryItem.t),
         InventoryService.first_item product_id (db s) = Some old ->
         let sum := PyFloat.add (InventoryItem.quantity old) amount in
         let r :=
           InventoryService.post_adjust send STOCK_THRESHOLD nan_storable
             product_id (InventoryAdjustment.mk amount false) s in
         if PyFloat.ltb sum PyFloat.zero
         then r = (HTTPException 400 "Adjustment would cause negative inventory", s)
         else PyFloat.is_nan sum = false ->
              stored_quantity product_id (db (snd r)) = Some sum
              /\ ((0 <? product_id) && max_length_100 (InventoryItem.location old)
                  = true ->
                  exists item : InventoryItem.t,
                    fst r = Return item
                    /\ InventoryItem.quantity item = sum)).
Proof.
  intros Hs. repeat split.
  - intros item. unfold InventoryService.post_inventory.
    destruct (InventoryItemCreate.valid item) eqn:Hvalid; [|exact Hs].
    rewrite route_tables. apply create_inventory_item_nonneg; [exact Hs|].
    unfold InventoryItemCreate.valid in Hvalid.
    apply andb_prop in Hvalid as [Hvalid _].
    apply andb_prop in Hvalid as [_ Hq]. exact Hq.
  - intros product_id item. unfold InventoryService.put_inventory.
    destruct (InventoryItemUpdate.valid item) eqn:Hvalid; [|exact Hs].
    rewrite route_tables. apply update_inventory_item_nonneg; assumption.
  - intros product_id amount Hnan. unfold InventoryService.post_adjust.
    rewrite route_tables. unfold stored_quantity in Hnan.
    destruct (InventoryService.first_item product_id (db s)) as [db_item|] eqn:Hfound.
    + specialize (Hnan _ eq_refl).
      destruct (PyFloat.ltb (PyFloat.add (InventoryItem.quantity db_item) amount)
                  PyFloat.zero) eqn:Hneg.
      * rewrite (adjust_inventory_refused _ _ _ _ Hfound Hneg). exact Hs.
      * rewrite (adjust_inventory_stored _ _ _ _ Hfound Hneg Hnan). simpl.
        apply all_nonneg_store; [|exact Hs]. simpl.
        apply ge0_of_not_negative; assumption.
    + unfold InventoryService.adjust_inventory, bind, query. simpl.
      rewrite Hfound. exact Hs.
  - intros product_id amount db_item Hfound sum r. subst sum r.
    unfold InventoryService.post_adjust.
    destruct (PyFloat.ltb (PyFloat.add (InventoryItem.quantity db_item) amount)
                PyFloat.zero) eqn:Hneg.
    + apply route_raise.
      exact (adjust_inventory_refused _ _ _ db_item Hfound Hneg).
    + intros Hnan.
      pose proof (adjust_inventory_stored _ _ _ _ Hfound Hneg Hnan) as Hrun.
      simpl in Hrun. split.
      * rewrite route_tables, Hrun. simpl. unfold stored_quantity.
        erewrite first_item_store;
          [reflexivity | exact Hfound | reflexivity
          | exact (first_item_product _ _ _ Hfound)].
      * intros Hrow. apply andb_prop in Hrow as [Hpid Hlocation].
        eexists. split; [eapply route_return; [exact Hrun|] | reflexivity].
        unfold InventoryService.response_ok.
        cbn [InventoryItem.product_id InventoryItem.quantity InventoryItem.location].
        rewrite (first_item_product _ _ _ Hfound), Hpid, Hlocation.
        rewrite (ge0_of_not_negative _ Hneg Hnan). reflexivity.
Qed.

End InventoryGuard.

(* ================================================================== *)
(** ** The failed branch on the wired services *)

Section FailedBranch.

Variable STOCK_THRESHOLD : Z.
Variable nan_storable : bool.

Let send := Deployment.send STOCK_THRESHOLD nan_storable.

(** Reading a stock level leaves the inventory table alone. *)
Lemma get_inventory_keeps_stock (product_id : Z) (w : Deployment.World) :
  Deployment.inventory (snd (send (GET_inventory product_id) w))
  = Deployment.inventory w.
Proof.
  unfold send, Deployment.send, Deployment.serve, InventoryService.get_inventory,
    InventoryService.read_inventory_item, InventoryService.respond.
  destruct (Deployment.inventory_up w); [|reflexivity].
  run.
  destruct (InventoryService.first_item product_id (Deployment.inventory w))
    as [item|]; [|reflexivity].
  cbn. destruct (InventoryService.response_ok item); reflexivity.
Qed.

Lemma post_notification_keeps_stock (n : notification) (w : Deployment.World) :
  Deployment.inventory (snd (send (POST_notification n) w))
  = Deployment.inventory w.
Proof.
  unfold send, Deployment.send, Deployment.send_leaf.
  destruct (Deployment.notification_up w); reflexivity.
Qed.

Lemma after_checks_keep_stock (lines : list OrderItem.t) :
  forall w : Deployment.World,
    Deployment.inventory (after_checks send lines w) = Deployment.inventory w.
Proof.
  unfold after_checks.
  induction lines as [|item lines IH]; intros w; simpl; [reflexivity|].
  rewrite IH, after_check_send. apply get_inventory_keeps_stock.
Qed.

(** With the inventory service of this repository behind the network, a
    fulfilment that fails a check leaves every stock level as it was. *)
Lemma failed_order_keeps_stock
      (order_id now : Z) (s : state OrderService.Tables Deployment.World)
      (order : Order.t) (k : nat) :
  OrderService.first_order order_id (db s) = Some order ->
  check_fails_at send k (OrderService.items_of order_id (db s)) (world s) = true ->
  Deployment.inventory (world (snd (OrderService.process_order send order_id now s)))
  = Deployment.inventory (world s).
Proof.
  intros Hfound Hfail.
  rewrite (process_order_fail_run send order_id now s order k Hfound Hfail).
  cbn [snd world].
  rewrite post_notification_keeps_stock. apply after_checks_keep_stock.
Qed.

End FailedBranch.

(* ================================================================== *)
(** ** The properties on the scenarios *)

Import Scenario.

(** Stock for both lines: the order is processed. *)
Lemma process_order_all_lines_pass_witness :
  OrderService.first_order 1 two_lines = Some ann
  /\ checks_pass send (OrderService.items_of 1 two_lines) (network 50 50) = true
  /\ sent (snd (OrderService.process_order send 1 200
                  (at_rest two_lines (network 50 50))))
     = [GET_inventory 1; GET_inventory 2;
        POST_adjust 1 (num (-5)) false; POST_adjust 2 (num (-3)) false;
        POST_notification (order_status 1 "processed" "ann@example.com")]
  /\ OrderService.first_order 1
       (db (snd (OrderService.process_order send 1 200
                   (at_rest two_lines (network 50 50)))))
     = Some (Order.mk 1 "Ann" "ann@example.com" "processed" 100 (Some 200)).
Proof.
  split; [reflexivity|]. split; [reflexivity|].
  destruct (process_order_all_lines_pass send 1 200
              (at_rest two_lines (network 50 50)) ann eq_refl eq_refl)
    as [_ [Hrow Hsent]].
  split; [exact Hsent | exact Hrow].
Defined.

(** Only 2 of product 1 in stock: the first check fails, product 2 is not
    checked, and the stock is what it was. *)
Lemma process_order_check_fails_witness :
  check_fails_at send 0 (OrderService.items_of 1 two_lines) (network 2 50) = true
  /\ sent (snd (OrderService.process_order send 1 200
                  (at_rest two_lines (network 2 50))))
     = [GET_inventory 1;
        POST_notification (order_status 1 "failed" "ann@example.com")]
  /\ OrderService.first_order 1
       (db (snd (OrderService.process_order send 1 200
                   (at_rest two_lines (network 2 50)))))
     = Some (Order.mk 1 "Ann" "ann@example.com" "failed" 100 (Some 200))
  /\ Deployment.inventory
       (world (snd (OrderService.process_order send 1 200
                      (at_rest two_lines (network 2 50)))))
     = stock 2 50.
Proof.
  split; [reflexivity|].
  destruct (process_order_check_fails send 1 200
              (at_rest two_lines (network 2 50)) ann 0%nat eq_refl eq_refl)
    as [_ [Hrow [Hsent _]]].
  split; [exact Hsent|]. split; [exact Hrow | reflexivity].
Defined.

(** 5 of product 1 in stock and two lines of 3: both checks pass, the
    first decrement leaves 2, the second is refused by the inventory
    service; both were posted, the order is processed, and the stock stays
    at 2. *)
Lemma process_order_decrement_fails_witness :
  checks_pass send (OrderService.items_of 1 same_product_twice) (network 5 50) = true
  /\ decrement_fails_at send 1 (OrderService.items_of 1 same_product_twice)
       (after_checks send (OrderService.items_of 1 same_product_twice)
          (network 5 50)) = true
  /\ filter is_adjust
       (sent (snd (OrderService.process_order send 1 200
                     (at_rest same_product_twice (network 5 50)))))
     = [POST_adjust 1 (num (-3)) false; POST_adjust 1 (num (-3)) false]
  /\ option_map Order.status
       (OrderService.first_order 1
          (db (snd (OrderService.process_order send 1 200
                      (at_rest same_product_twice (network 5 50))))))
     = Some "processed"
  /\ Deployment.inventory
       (world (snd (OrderService.process_order send 1 200
                      (at_rest same_product_twice (network 5 50)))))
     = stock 2 50.
Proof.
  split; [reflexivity|]. split; [reflexivity|].
  destruct (process_order_decrement_fails send 1 200
              (at_rest same_product_twice (network 5 50)) ann 1%nat
              eq_refl eq_refl eq_refl)
    as [Hposted [_ Hstatus]].
  split; [exact Hposted|]. split; [exact Hstatus | reflexivity].
Defined.

(** The inventory service is down: the check is [False]. *)
Lemma check_inventory_unavailable_witness :
  unavailable (fst (send (GET_inventory 1) inventory_down)) = true
  /\ fst (OrderService.check_inventory send 1 (num 5)
            (at_rest two_lines inventory_down))
     = Return false.
Proof.
  split; [reflexivity|].
  exact (proj2 (check_inventory_unavailable send 1 (num 5)
                  (at_rest two_lines inventory_down)) eq_refl).
Defined.

(** The second line names product 7, which the catalog does not have:
    the creation fails naming it, and Bob's order is all that is stored.
    The first line, added before product 7 was looked up, is stored by the
    commit that deletes the order: it is line 2, of order 2, which is
    gone. *)
Lemma create_order_product_missing_witness :
  unresolved_at send 1 (OrderCreate.items request_unknown_product) (network 50 50)
  = true
  /\ prices_of send (firstn 1 (OrderCreate.items request_unknown_product))
       (network 50 50)
     = Some [num 10]
  /\ fst (OrderService.create_order send sqlite request_unknown_product 100
            (at_rest earlier_order (network 50 50)))
     = HTTPException 404 "Product 7 not found"
  /\ OrderService.orders
       (db (snd (OrderService.create_order send sqlite request_unknown_product 100
                   (at_rest earlier_order (network 50 50)))))
     = [bob]
  /\ sent (snd (OrderService.create_order send sqlite request_unknown_product 100
                  (at_rest earlier_order (network 50 50))))
     = [GET_product 1; GET_product 7]
  /\ OrderService.order_items
       (db (snd (OrderService.create_order send sqlite request_unknown_product 100
                   (at_rest earlier_order (network 50 50)))))
     = [OrderItem.mk 1 1 2 (num 1) (num 20); OrderItem.mk 2 2 1 (num 5) (num 10)].
Proof.
  split; [reflexivity|]. split; [reflexivity|].
  destruct (create_order_product_missing send sqlite request_unknown_product 100
              (at_rest earlier_order (network 50 50)) 1%nat [num 10]
              eq_refl eq_refl eq_refl eq_refl)
    as [item [rows [Hnth [Herror [Horders [_ [Hsent _]]]]]]].
  injection Hnth as <-.
  split; [exact Herror|]. split; [exact Horders|].
  split; [exact Hsent | reflexivity].
Defined.

(** C3, the claim as stated fails. The second line of the request names
    product 7, which does not resolve; the first resolves, to a product
    without a price. The creation ends in an unhandled [KeyError], not in
    the not-found error, and the order row of the request stays stored. *)
Lemma create_order_missing_after_unpriced :
  unresolved unpriced (OrderItemCreate.mk 7 (num 1)) tt = true
  /\ fst (OrderService.create_order unpriced sqlite request_then_unknown 100
            (mkState earlier_order tt []))
     = Unhandled "KeyError"
  /\ fst (OrderService.create_order unpriced sqlite request_then_unknown 100
            (mkState earlier_order tt []))
     <> HTTPException 404 "Product 7 not found"
  /\ OrderService.first_order 2
       (db (snd (OrderService.create_order unpriced sqlite request_then_unknown 100
                   (mkState earlier_order tt []))))
     = Some (Order.mk 2 "Ann" "ann@example.com" "pending" 100 None).
Proof.
  split; [reflexivity|]. split; [reflexivity|].
  split; [vm_compute; discriminate | reflexivity].
Qed.

(** Both products are in the catalog: order 2 is stored "pending" with
    two lines priced 10 and 20, and returned as such. *)
Lemma create_order_all_resolve_witness :
  prices_of send (OrderCreate.items request_two_lines) (network 50 50)
  = Some [num 10; num 20]
  /\ lines_storable sqlite (OrderCreate.items request_two_lines) [num 10; num 20]
     = true
  /\ exists rows : list OrderItem.t,
      map OrderItem.unit_price rows = [num 10; num 20]
      /\ List.length rows = 2%nat
      /\ OrderService.orders
           (db (snd (OrderService.create_order send sqlite request_two_lines 100
                       (at_rest earlier_order (network 50 50)))))
         = [bob; Order.mk 2 "Ann" "ann@example.com" "pending" 100 None]
      /\ fst (OrderService.create_order send sqlite request_two_lines 100
                (at_rest earlier_order (network 50 50)))
         = Return (OrderRead.mk
                     (Order.mk 2 "Ann" "ann@example.com" "pending" 100 None) rows,
                   [OrderService.task_process_order 2]).
Proof.
  split; [reflexivity|]. split; [reflexivity|].
  destruct (create_order_all_resolve send sqlite request_two_lines 100
              (at_rest earlier_order (network 50 50)) [num 10; num 20]
              eq_refl eq_refl)
    as [rows [Horders [_ [Hlen [Hprices [_ [Hresp _]]]]]]].
  exists rows.
  split; [exact Hprices|]. split; [exact Hlen|].
  split; [exact Horders | exact Hresp].
Defined.

(** C4, the claim as stated fails. Both products of the request resolve,
    to documents without a price: the creation ends in an unhandled
    [KeyError], returns no order and stores no line. *)
Lemma create_order_unpriced_products :
  forallb (fun item => negb (unresolved unpriced item tt))
    (OrderCreate.items request_two_lines) = true
  /\ fst (OrderService.create_order unpriced sqlite request_two_lines 100
            (mkState earlier_order tt []))
     = Unhandled "KeyError"
  /\ OrderService.order_items
       (db (snd (OrderService.create_order unpriced sqlite request_two_lines 100
                   (mkState earlier_order tt []))))
     = OrderService.order_items earlier_order.
Proof.
  split; [reflexivity|]. split; reflexivity.
Qed.

(** C5, the claim as stated fails: "shipped" is refused by the pattern of
    [OrderStatusUpdate], the request is answered 422, and the stored status
    of order 1 stays "pending". *)
Lemma put_order_status_rejects_shipped :
  OrderService.first_order 1 two_lines = Some ann
  /\ fst (OrderService.put_order_status send 1 "shipped" 200
            (at_rest two_lines (network 50 50)))
     = HTTPException 422 "string does not match regex"
  /\ option_map Order.status
       (OrderService.first_order 1
          (db (snd (OrderService.put_order_status send 1 "shipped" 200
                      (at_rest two_lines (network 50 50))))))
     <> Some "shipped".
Proof.
  split; [reflexivity|]. split; [reflexivity|]. discriminate.
Qed.

(** "failed" is written over "pending"; "shipped" is refused. *)
Lemma put_order_status_writes_valid_status_witness :
  OrderService.first_order 1 two_lines = Some ann
  /\ option_map Order.status
       (OrderService.first_order 1
          (db (snd (OrderService.put_order_status send 1 "failed" 200
                      (at_rest two_lines (network 50 50))))))
     = Some "failed"
  /\ OrderService.put_order_status send 1 "shipped" 200
       (at_rest two_lines (network 50 50))
     = (HTTPException 422 "string does not match regex",
        at_rest two_lines (network 50 50)).
Proof.
  split; [reflexivity|]. split.
  - exact (proj2 (put_order_status_writes_valid_status send 1 "failed" 200
                    (at_rest two_lines (network 50 50)) ann eq_refl)).
  - destruct (proj2 (put_order_status_writes_valid_status send 1 "shipped" 200
                       (at_rest two_lines (network 50 50)) ann eq_refl))
      as [Hout Hstate].
    apply injective_projections; [exact Hout | exact Hstate].
Defined.


(** There is no order 99. *)
Lemma put_order_status_not_found_witness :
  OrderService.first_order 99 two_lines = None
  /\ OrderService.put_order_status send 99 "delivered" 200
       (at_rest two_lines (network 50 50))
     = (HTTPException 404 "Order not found", at_rest two_lines (network 50 50)).
Proof.
  split; [reflexivity|].
  exact (proj2 (put_order_status_not_found send 99 "delivered" 200
                  (at_rest two_lines (network 50 50)) eq_refl)).
Defined.

(** 5 in stock: taking 3 leaves 2, taking 8 is refused. *)
Lemma inventory_quantities_stay_nonnegative_witness :
  all_nonneg (stock 5 50) = true
  /\ stored_quantity 1
       (db (snd (InventoryService.post_adjust Deployment.send_leaf 10 true 1
                   (InventoryAdjustment.mk (num (-3)) false)
                   (at_rest (stock 5 50) (network 5 50)))))
     = Some (num 2)
  /\ InventoryService.post_adjust Deployment.send_leaf 10 true 1
       (InventoryAdjustment.mk (num (-8)) false)
       (at_rest (stock 5 50) (network 5 50))
     = (HTTPException 400 "Adjustment would cause negative inventory",
        at_rest (stock 5 50) (network 5 50)).
Proof.
  split; [reflexivity|].
  destruct (inventory_quantities_stay_nonnegative Deployment.send_leaf 10 true
              (at_rest (stock 5 50) (network 5 50)) eq_refl)
    as [_ [_ [_ Hadjust]]].
  split.
  - exact (proj1 (Hadjust 1 (num (-3)) (InventoryItem.mk 1 1 (num 5) None)
                    eq_refl eq_refl)).
  - exact (Hadjust 1 (num (-8)) (InventoryItem.mk 1 1 (num 5) None) eq_refl).
Defined.

(** C10, the guard at a NaN sum. The table holds 5 of product 1 and the
    adjustment has [amount = NaN] and [allow_negative = false]: the sum is
    NaN, which is not [< 0], so the guard lets it through. Where the engine
    keeps NaN the handler commits it: the stored quantity is NaN, which is
    not [>= 0], and the request is answered with a server error, since the
    row no longer passes the response model. Where the engine refuses NaN
    the commit fails, the call ends in an unhandled exception, and the
    stored quantity is still 5. Neither is the 400 of the guard, nor the
    update. The same sum arises with finite requests only: an amount that
    overflows to infinity is stored, and the opposite amount then gives
    NaN. *)
Theorem adjust_inventory_nan_sum :
  let s := at_rest (stock 5 50) (network 5 50) in
  let by_nan := InventoryAdjustment.mk PyFloat.nan false in
  all_nonneg (db s) = true
  /\ PyFloat.ltb (PyFloat.add (num 5) PyFloat.nan) PyFloat.zero = false
  /\ (let r := InventoryService.post_adjust Deployment.send_leaf 10 true 1 by_nan s in
      fst r = Unhandled "ResponseValidationError"
      /\ stored_quantity 1 (db (snd r)) = Some PyFloat.nan
      /\ all_nonneg (db (snd r)) = false)
  /\ (let r := InventoryService.post_adjust Deployment.send_leaf 10 false 1 by_nan s in
      fst r = Unhandled "IntegrityError"
      /\ stored_quantity 1 (db (snd r)) = Some (num 5))
  /\ (let up := InventoryAdjustment.mk PyFloat.inf false in
      let down := InventoryAdjustment.mk (PyFloat.neg PyFloat.inf) false in
      let r1 := InventoryService.post_adjust Deployment.send_leaf 10 true 1 up s in
      let r2 := InventoryService.post_adjust Deployment.send_leaf 10 true 1 down (snd r1) in
      fst r1 = Return (InventoryItem.mk 1 1 PyFloat.inf None)
      /\ all_nonneg (db (snd r1)) = true
      /\ fst r2 = Unhandled "ResponseValidationError"
      /\ all_nonneg (db (snd r2)) = false).
Proof.
  vm_compute. repeat split.
Qed.

(* ================================================================== *)
(** * Further properties of the order service *)

Section OrderService_more.

Context {World : Type}.
Variable send : request -> World -> response * World.

Let St : Type := state OrderService.Tables World.

(** The checking loop on any network: it returns whether every line
    passed, asks for the lines up to the first failure, and touches no
    table. *)
Lemma check_items_run (order_items : list OrderItem.t) :
  forall s : St,
    OrderService.check_items send order_items s
    = (Return (checks_pass send order_items (world s)),
       mkState (db s)
         (after_checks send (checked send order_items (world s)) (world s))
         (sent s ++ map check_call (checked send order_items (world s)))).
Proof.
  induction order_items as [|item rest IH]; intros s; simpl.
  - rewrite app_nil_r. destruct s; reflexivity.
  - unfold bind at 1. rewrite check_inventory_run.
    destruct (passes send item (world s)) eqn:Hitem; simpl.
    + rewrite IH. simpl. rewrite <- app_assoc. reflexivity.
    + reflexivity.
Qed.

(** The whole fulfilment on any network. *)
Lemma process_order_run (order_id now : Z) (s : St) (order : Order.t) :
  OrderService.first_order order_id (db s) = Some order ->
  let lines := OrderService.items_of order_id (db s) in
  let ok := checks_pass send lines (world s) in
  let status := if ok then "processed" else "failed" in
  let w1 := after_checks send (checked send lines (world s)) (world s) in
  let w2 := if ok then after_decrements send lines w1 else w1 in
  let call :=
    POST_notification
      (order_status (Order.id order) status (Order.customer_email order)) in
  OrderService.process_order send order_id now s
  = (Return tt,
     mkState
       (OrderService.store_order (OrderService.with_status order status now) (db s))
       (snd (send call w2))
       (sent s ++ map check_call (checked send lines (world s))
          ++ (if ok then map decrement_call lines else [])
          ++ [call])).
Proof.
  intros Hfound lines ok status w1 w2 call.
  subst lines ok status w1 w2 call.
  unfold OrderService.process_order, bind, query. simpl.
  rewrite Hfound. rewrite check_items_run. simpl.
  destruct (checks_pass send (OrderService.items_of order_id (db s)) (world s));
    simpl.
  - rewrite update_items_run. unfold commit. simpl.
    rewrite notify_order_status_run. simpl.
    rewrite <- !app_assoc. reflexivity.
  - unfold commit. simpl. rewrite notify_order_status_run. simpl.
    rewrite <- !app_assoc. reflexivity.
Qed.

Lemma first_order_store_other (other : Z) (order' : Order.t)
      (t : OrderService.Tables) :
  Order.id order' <> other ->
  OrderService.first_order other (OrderService.store_order order' t)
  = OrderService.first_order other t.
Proof.
  unfold OrderService.first_order, OrderService.store_order. simpl.
  intros Hother. induction (OrderService.orders t) as [|o rows IH]; simpl;
    [reflexivity|].
  destruct (Order.id o =? Order.id order') eqn:Ho.
  - apply Z.eqb_eq in Ho.
    assert (Hnew : (Order.id order' =? other) = false)
      by (apply Z.eqb_neq; exact Hother).
    assert (Hold : (Order.id o =? other) = false)
      by (apply Z.eqb_neq; rewrite Ho; exact Hother).
    rewrite Hnew, Hold. exact IH.
  - destruct (Order.id o =? other); [reflexivity | exact IH].
Qed.

Lemma store_order_ids (order' : Order.t) (t : OrderService.Tables) :
  map Order.id (OrderService.orders (OrderService.store_order order' t))
  = map Order.id (OrderService.orders t).
Proof.
  unfold OrderService.store_order. simpl.
  induction (OrderService.orders t) as [|o rows IH]; simpl; [reflexivity|].
  rewrite IH. f_equal.
  destruct (Order.id o =? Order.id order') eqn:Ho; [|reflexivity].
  apply Z.eqb_eq in Ho. symmetry. exact Ho.
Qed.

(** X1. Whatever the network answers, the fulfilment procedure returns
    without raising, leaves the order lines as they are, keeps the keys of
    the orders table, and leaves every order other than the one it is run
    for as it was. *)
Theorem process_order_frame (order_id now : Z) (s : St) :
  let r := OrderService.process_order send order_id now s in
  fst r = Return tt
  /\ OrderService.order_items (db (snd r)) = OrderService.order_items (db s)
  /\ map Order.id (OrderService.orders (db (snd r)))
     = map Order.id (OrderService.orders (db s))
  /\ forall other : Z,
       other <> order_id ->
       OrderService.first_order other (db (snd r))
       = OrderService.first_order other (db s).
Proof.
  intros r. subst r.
  destruct (OrderService.first_order order_id (db s)) as [order|] eqn:Hfound.
  - rewrite (process_order_run order_id now s order Hfound).
    cbn [fst snd db]. repeat split.
    + apply store_order_ids.
    + intros other Hother. apply first_order_store_other.
      unfold OrderService.with_status. simpl.
      rewrite (first_order_id _ _ _ Hfound). congruence.
  - unfold OrderService.process_order, bind, query. simpl. rewrite Hfound.
    simpl. repeat split.
Qed.

(** X2. On any network, the fulfilment of an order that exists ends with
    the order "processed" when every line passed its check and "failed"
    otherwise: it never leaves the order "pending". *)
Theorem process_order_final_status
        (order_id now : Z) (s : St) (order : Order.t) :
  OrderService.first_order order_id (db s) = Some order ->
  let r := OrderService.process_order send order_id now s in
  OrderService.first_order order_id (db (snd r))
  = Some (Order.mk order_id (Order.customer_name order)
            (Order.customer_email order)
            (if checks_pass send (OrderService.items_of order_id (db s)) (world s)
             then "processed" else "failed")
            (Order.created_at order) (Some now)).
Proof.
  intros Hfound r. subst r.
  rewrite (process_order_run order_id now s order Hfound). simpl.
  apply first_order_with_status. exact Hfound.
Qed.

Lemma checked_all (order_items : list OrderItem.t) :
  forall w : World,
    checks_pass send order_items w = true ->
    checked send order_items w = order_items.
Proof.
  induction order_items as [|item rest IH]; intros w Hpass; simpl in *;
    [reflexivity|].
  apply andb_prop in Hpass as [Hitem Hrest].
  rewrite Hitem, IH by exact Hrest. reflexivity.
Qed.

(** X3. Nothing in the fulfilment procedure looks at the status of the
    order: run a second time on an order it has already processed, with the
    checks passing again, it posts the decrement of every line a second
    time. *)
Theorem process_order_twice_decrements_twice
        (order_id now later : Z) (s : St) (order : Order.t) :
  OrderService.first_order order_id (db s) = Some order ->
  let lines := OrderService.items_of order_id (db s) in
  let s1 := snd (OrderService.process_order send order_id now s) in
  let s2 := snd (OrderService.process_order send order_id later s1) in
  checks_pass send lines (world s) = true ->
  checks_pass send lines (world s1) = true ->
  option_map Order.status (OrderService.first_order order_id (db s1))
  = Some "processed"
  /\ filter is_adjust (skipn (List.length (sent s)) (sent s2))
     = map decrement_call lines ++ map decrement_call lines.
Proof.
  intros Hfound lines s1 s2 Hpass1 Hpass2.
  pose proof (process_order_run order_id now s order Hfound) as Hrun1.
  cbv zeta in Hrun1. fold lines in Hrun1. rewrite Hpass1 in Hrun1.
  assert (Hs1 : s1 = snd (OrderService.process_order send order_id now s))
    by reflexivity.
  rewrite Hrun1 in Hs1. cbn [snd] in Hs1.
  assert (Hfound1 :
            OrderService.first_order order_id (db s1)
            = Some (Order.mk order_id (Order.customer_name order)
                      (Order.customer_email order) "processed"
                      (Order.created_at order) (Some now))).
  { rewrite Hs1. cbn [db]. apply first_order_with_status. exact Hfound. }
  assert (Hlines1 : OrderService.items_of order_id (db s1) = lines)
    by (rewrite Hs1; reflexivity).
  split; [rewrite Hfound1; reflexivity|].
  pose proof (process_order_run order_id later s1 _ Hfound1) as Hrun2.
  cbv zeta in Hrun2. rewrite Hlines1, Hpass2 in Hrun2.
  subst s2. rewrite Hrun2. cbn [snd sent].
  rewrite (checked_all lines (world s1) Hpass2).
  rewrite Hs1. cbn [sent].
  rewrite (checked_all lines (world s) Hpass1).
  rewrite <- !app_assoc, skipn_sent, !filter_app.
  rewrite !filter_adjust_checks, !filter_adjust_decrements. simpl.
  rewrite app_nil_r. reflexivity.
Qed.

Variable database : Database.t.
Variable EmailStr : string -> option string.

(** Finite numbers are numbers every engine stores. *)
Lemma lines_finite_storable (items : list OrderItemCreate.t) (prices : list float) :
  lines_finite items prices = true ->
  lines_storable database items prices = true.
Proof.
  assert (Hfinite : forall x : float,
             PyFloat.is_finite x = true -> OrderService.storable database x = true).
  { intros x Hx. unfold OrderService.storable.
    destruct x; try discriminate; apply orb_true_r. }
  unfold lines_finite, lines_storable. intros H.
  apply andb_prop in H as [Hq Hp].
  rewrite forallb_forall in Hq, Hp.
  apply andb_true_intro. split; apply forallb_forall; intros x Hin;
    apply Hfinite; [apply Hq | apply Hp]; exact Hin.
Qed.

(** A body that the schema refuses is answered 422 and nothing happens:
    among others a body without lines, or with a quantity that is not
    above zero. *)
Lemma post_orders_invalid_body (body : OrderCreate.t) (now later : Z) (s : St) :
  OrderService.validate EmailStr body = None ->
  OrderService.post_orders send database EmailStr body now later s
  = (HTTPException 422 "validation error", s).
Proof.
  intros Hinvalid. unfold OrderService.post_orders. rewrite Hinvalid. reflexivity.
Qed.

Lemma validate_no_lines (name email : string) :
  OrderService.validate EmailStr (OrderCreate.mk name email []) = None.
Proof.
  unfold OrderService.validate, OrderCreate.valid. cbn [OrderCreate.items].
  rewrite andb_false_r. reflexivity.
Qed.

(** X4. [POST /orders/] as a whole, for a body that passes validation,
    when every product resolves with a number as its price, prices and
    quantities being finite, and no line is stored under the key that the
    order receives: the response shows the order "pending" with one line
    per line of the request, and by the time the route is done the stored
    order is "processed" if every line passed its inventory check and
    "failed" otherwise, never "pending". *)
Theorem post_orders_settles_the_order
        (body order : OrderCreate.t) (now later : Z) (s : St)
        (prices : list float) :
  OrderService.validate EmailStr body = Some order ->
  prices_of send (OrderCreate.items order) (world s) = Some prices ->
  lines_finite (OrderCreate.items order) prices = true ->
  let order_id := next_id (map Order.id (OrderService.orders (db s))) in
  OrderService.items_of order_id (db s) = [] ->
  let s1 := snd (OrderService.create_order send database order now s) in
  let r := OrderService.post_orders send database EmailStr body now later s in
  (exists resp : OrderRead.t,
      fst r = Return resp
      /\ OrderRead.order resp
         = Order.mk order_id (OrderCreate.customer_name order)
             (OrderCreate.customer_email order) "pending" now None
      /\ List.length (OrderRead.items resp)
         = List.length (OrderCreate.items order))
  /\ OrderService.first_order order_id (db (snd r))
     = Some (Order.mk order_id (OrderCreate.customer_name order)
               (OrderCreate.customer_email order)
               (if checks_pass send (OrderService.items_of order_id (db s1)) (world s1)
                then "processed" else "failed")
               now (Some later)).
Proof.
  intros Hvalid Hprices Hfinite order_id Hnone s1 r.
  pose proof (lines_finite_storable _ _ Hfinite) as Hstorable.
  destruct (create_order_resolved_run send database order now s prices
              Hprices Hstorable) as [rows [Hrows Hcreate]].
  cbv zeta in Hcreate. fold order_id in Hcreate, Hrows.
  rewrite Hnone in Hcreate. cbn [app] in Hcreate.
  subst s1 r. rewrite Hcreate. cbn [snd].
  match type of Hcreate with
  | _ = (_, ?st) => set (s1 := st) in *
  end.
  assert (Hfound :
            OrderService.first_order order_id (db s1)
            = Some (Order.mk order_id (OrderCreate.customer_name order)
                      (OrderCreate.customer_email order) "pending" now None)).
  { unfold OrderService.first_order, s1. cbn [db OrderService.orders].
    rewrite find_app_none by (apply find_none_all; apply next_id_unused).
    cbn [find Order.id]. fold order_id. rewrite Z.eqb_refl. reflexivity. }
  pose proof (process_order_run order_id later s1 _ Hfound) as Hrun.
  cbv zeta in Hrun.
  assert (Hpost :
            OrderService.post_orders send database EmailStr body now later s
            = (Return (OrderRead.mk
                         (Order.mk order_id (OrderCreate.customer_name order)
                            (OrderCreate.customer_email order) "pending" now None)
                         rows),
               snd (OrderService.process_order send order_id later s1))).
  { unfold OrderService.post_orders. rewrite Hvalid.
    unfold OrderService.route.
    unfold bind at 1. rewrite Hcreate.
    cbn [snd fst OrderService.run_background OrderService.run_task].
    unfold bind, ret. rewrite Hrun. reflexivity. }
  rewrite Hpost. cbn [fst snd]. split.
  - eexists. split; [reflexivity|]. split; [reflexivity|].
    cbn [OrderRead.items].
    destruct (rows_prices rows order_id _ _
                (prices_of_length send _ _ _ Hprices) Hrows) as [_ Hcount].
    exact Hcount.
  - rewrite Hrun. cbn [snd db].
    apply first_order_with_status. exact Hfound.
Qed.

Lemma add_items_priceless (order_id : Z) (items : list OrderItemCreate.t) :
  forall (k : nat) (pending : list OrderService.pending_item) (s : St),
    priceless_at send k items (world s) = true ->
    OrderService.add_items send database order_id items pending s
    = (Unhandled "KeyError",
       mkState (db s)
         (after_lookups send (firstn (S k) items) (world s))
         (sent s ++ map lookup_call (firstn (S k) items))).
Proof.
  induction items as [|item rest IH]; intros k pending s Hk.
  - destruct k; discriminate.
  - destruct k as [|k]; simpl in Hk.
    + cbn [OrderService.add_items]. unfold bind at 1.
      rewrite get_product_info_run.
      unfold priceless in Hk.
      destruct (lookup send item (world s)) as [[product|]| |]; try discriminate.
      destruct product as [| | | | |members]; try discriminate.
      apply andb_prop in Hk as [Htruthy Hkey]. rewrite Htruthy.
      destruct (assoc "price" members); [discriminate|]. reflexivity.
    + destruct (quoted send item (world s)) as [price|] eqn:Hq; [|discriminate].
      rewrite (add_items_quoted_step send database _ _ _ _ _ _ Hq).
      rewrite (IH k) by exact Hk.
      change (firstn (S (S k)) (item :: rest)) with (item :: firstn (S k) rest).
      simpl. rewrite <- !app_assoc. reflexivity.
Qed.

(** X5. For a body that passes validation, when line [k] is the first
    whose product resolves to a dictionary without a "price" (the lines
    before it resolving to dictionaries that have one), [POST /orders/]
    ends in an unhandled [KeyError]; unlike the not-found case nothing is
    undone: the new order stays in the table, "pending", no line is stored
    for the request, and no fulfilment runs (the only requests sent are the
    product lookups of lines 0 to [k]). *)
Theorem post_orders_price_missing
        (body order : OrderCreate.t) (now later : Z) (s : St) (k : nat) :
  OrderService.validate EmailStr body = Some order ->
  priceless_at send k (OrderCreate.items order) (world s) = true ->
  let order_id := next_id (map Order.id (OrderService.orders (db s))) in
  let r := OrderService.post_orders send database EmailStr body now later s in
  fst r = Unhandled "KeyError"
  /\ OrderService.orders (db (snd r))
     = OrderService.orders (db s)
         ++ [Order.mk order_id (OrderCreate.customer_name order)
               (OrderCreate.customer_email order) "pending" now None]
  /\ OrderService.order_items (db (snd r)) = OrderService.order_items (db s)
  /\ sent (snd r)
     = sent s ++ map lookup_call (firstn (S k) (OrderCreate.items order)).
Proof.
  intros Hvalid Hk order_id r.
  assert (Hrun :
            r = (Unhandled "KeyError",
                 mkState
                   (OrderService.insert_order (OrderCreate.customer_name order)
                      (OrderCreate.customer_email order) "pending" now (db s))
                   (after_lookups send (firstn (S k) (OrderCreate.items order))
                      (world s))
                   (sent s ++ map lookup_call
                                (firstn (S k) (OrderCreate.items order))))).
  { subst r.
    unfold OrderService.post_orders. rewrite Hvalid.
    unfold OrderService.route, OrderService.create_order.
    unfold bind at 1. unfold bind at 1. unfold query at 1. cbv iota beta.
    unfold bind at 1. unfold commit at 1. cbv iota beta.
    unfold bind at 1.
    rewrite (add_items_priceless _ _ k) by exact Hk.
    reflexivity. }
  rewrite Hrun. cbn [fst snd db sent]. repeat split.
Qed.

End OrderService_more.

(* ================================================================== *)
(** * Further properties of the inventory service *)

Lemma distinct_snoc (l : list Z) (x : Z) :
  distinct (l ++ [x]) = distinct l && negb (existsb (Z.eqb x) l).
Proof.
  induction l as [|y l IH]; simpl; [reflexivity|].
  rewrite IH, existsb_app. simpl. rewrite orb_false_r, (Z.eqb_sym x y).
  destruct (existsb (Z.eqb y) l), (y =? x), (distinct l),
    (existsb (Z.eqb x) l); reflexivity.
Qed.

Lemma distinct_same_key {A} (key : A -> Z) (t : list A) (a b : A) :
  distinct (map key t) = true ->
  In a t -> In b t -> key a = key b -> a = b.
Proof.
  induction t as [|c t IH]; simpl; [tauto|].
  intros Hd Ha Hb Hkey. apply andb_prop in Hd as [Hc Hd].
  apply negb_true_iff in Hc.
  assert (Hfresh : forall x, In x t -> key c <> key x).
  { intros x Hx Heq.
    assert (existsb (Z.eqb (key c)) (map key t) = true) as Hex.
    { apply existsb_exists. exists (key x). split.
      - apply in_map. exact Hx.
      - apply Z.eqb_eq. exact Heq. }
    congruence. }
  destruct Ha as [-> | Ha], Hb as [-> | Hb].
  - reflexivity.
  - exfalso. exact (Hfresh b Hb Hkey).
  - exfalso. apply (Hfresh a Ha). symmetry. exact Hkey.
  - apply IH; assumption.
Qed.

Lemma store_item_ids (item : InventoryItem.t) (t : InventoryService.Tables) :
  map InventoryItem.id (InventoryService.store_item item t)
  = map InventoryItem.id t.
Proof.
  unfold InventoryService.store_item.
  induction t as [|i t IH]; simpl; [reflexivity|].
  rewrite IH. f_equal.
  destruct (InventoryItem.id i =? InventoryItem.id item) eqn:E; [|reflexivity].
  apply Z.eqb_eq in E. symmetry. exact E.
Qed.

Lemma store_item_product_ids (item old : InventoryItem.t)
      (t : InventoryService.Tables) :
  distinct (map InventoryItem.id t) = true ->
  In old t ->
  InventoryItem.id item = InventoryItem.id old ->
  InventoryItem.product_id item = InventoryItem.product_id old ->
  map InventoryItem.product_id (InventoryService.store_item item t)
  = map InventoryItem.product_id t.
Proof.
  intros Hd Hold Hid Hpid. unfold InventoryService.store_item.
  rewrite map_map. apply map_ext_in. intros i Hi.
  destruct (InventoryItem.id i =? InventoryItem.id item) eqn:E; [|reflexivity].
  apply Z.eqb_eq in E.
  rewrite (distinct_same_key InventoryItem.id t i old Hd Hi Hold) by congruence.
  exact Hpid.
Qed.

Lemma first_item_none_fresh (product_id : Z) (t : InventoryService.Tables) :
  InventoryService.first_item product_id t = None ->
  existsb (Z.eqb product_id) (map InventoryItem.product_id t) = false.
Proof.
  unfold InventoryService.first_item.
  induction t as [|i t IH]; simpl; [reflexivity|].
  rewrite (Z.eqb_sym product_id).
  destruct (InventoryItem.product_id i =? product_id); [discriminate|].
  exact IH.
Qed.

Lemma next_id_fresh (ids : list Z) :
  existsb (Z.eqb (next_id ids)) ids = false.
Proof.
  destruct (existsb (Z.eqb (next_id ids)) ids) eqn:E; [|reflexivity].
  apply existsb_exists in E as [x [Hin Hx]]. apply Z.eqb_eq in Hx.
  pose proof (next_id_above ids x Hin). lia.
Qed.

Lemma unique_keys_store (item old : InventoryItem.t) (t : InventoryService.Tables) :
  unique_keys t = true ->
  In old t ->
  InventoryItem.id item = InventoryItem.id old ->
  InventoryItem.product_id item = InventoryItem.product_id old ->
  unique_keys (InventoryService.store_item item t) = true.
Proof.
  unfold unique_keys. intros Hu Hold Hid Hpid.
  apply andb_prop in Hu as [Hids Hpids].
  rewrite store_item_ids, (store_item_product_ids item old t Hids Hold Hid Hpid).
  rewrite Hids, Hpids. reflexivity.
Qed.

Lemma unique_keys_insert (product_id : Z) (q : float) (location : option string)
      (t : InventoryService.Tables) :
  unique_keys t = true ->
  InventoryService.first_item product_id t = None ->
  unique_keys (InventoryService.insert_item product_id q location t) = true.
Proof.
  unfold unique_keys, InventoryService.insert_item. intros Hu Hnone.
  apply andb_prop in Hu as [Hids Hpids].
  rewrite !map_app. simpl. rewrite !distinct_snoc, Hids, Hpids.
  rewrite next_id_fresh, (first_item_none_fresh _ _ Hnone). reflexivity.
Qed.

Lemma first_item_insert (product_id : Z) (q : float) (location : option string)
      (t : InventoryService.Tables) :
  InventoryService.first_item product_id t = None ->
  InventoryService.first_item product_id
    (InventoryService.insert_item product_id q location t)
  = Some (InventoryItem.mk (next_id (map InventoryItem.id t)) product_id q location).
Proof.
  unfold InventoryService.first_item, InventoryService.insert_item.
  intros Hnone. rewrite find_app_none by exact Hnone.
  simpl. rewrite Z.eqb_refl. reflexivity.
Qed.

Section InventoryService_more.

Context {World : Type}.
Variable send : request -> World -> response * World.
Variable STOCK_THRESHOLD : Z.
Variable nan_storable : bool.

Let St : Type := state InventoryService.Tables World.

(** The creation handler, case by case. *)
Lemma create_inventory_item_run (item : InventoryItemCreate.t) (s : St) :
  let product_id := InventoryItemCreate.product_id item in
  let q := InventoryItemCreate.quantity item in
  let location := InventoryItemCreate.location item in
  let found := InventoryService.first_item product_id (db s) in
  let row :=
    match found with
    | Some old =>
        InventoryItem.mk (InventoryItem.id old) (InventoryItem.product_id old)
          q location
    | None =>
        InventoryItem.mk (next_id (map InventoryItem.id (db s))) product_id
          q location
    end in
  let write :=
    match found with
    | Some _ => InventoryService.store_item row
    | None => InventoryService.insert_item product_id q location
    end in
  exists (b : bool) (w : World),
    InventoryService.create_inventory_item send STOCK_THRESHOLD nan_storable item s
    = if b then
        if nan_storable || negb (PyFloat.is_nan q) then
          (Return (row, InventoryService.low_stock_tasks STOCK_THRESHOLD row),
           mkState (write (db s)) w (sent s ++ [GET_product product_id]))
        else (Unhandled "IntegrityError",
              mkState (db s) w (sent s ++ [GET_product product_id]))
      else (HTTPException 404 "Product not found",
            mkState (db s) w (sent s ++ [GET_product product_id])).
Proof.
  intros product_id q location found row write.
  destruct (verify_product_exists_run send product_id s) as [b [w Hverify]].
  exists b, w. unfold InventoryService.create_inventory_item.
  fold product_id q location.
  unfold bind at 1. rewrite Hverify.
  destruct b; [|reflexivity]. cbn [negb].
  unfold bind, query, InventoryService.commit_item, commit, ret, fault.
  cbn [db world sent]. subst row write found.
  destruct (InventoryService.first_item product_id (db s));
    destruct (nan_storable || negb (PyFloat.is_nan q)); reflexivity.
Qed.

(** The update handler, case by case. *)
Lemma update_inventory_item_run (product_id : Z) (item : InventoryItemUpdate.t)
      (s : St) :
  exists (b : bool) (w : World),
    InventoryService.update_inventory_item send STOCK_THRESHOLD nan_storable
      product_id item s
    = let st := mkState (db s) w (sent s ++ [GET_product product_id]) in
      if b then
        match InventoryService.first_item product_id (db s) with
        | None => (HTTPException 404 "Inventory item not found", st)
        | Some old =>
            match InventoryItemUpdate.quantity item with
            | Given None => (Unhandled "IntegrityError", st)
            | _ =>
                let row := updated_row old item in
                if nan_storable || negb (PyFloat.is_nan (InventoryItem.quantity row))
                then
                  (Return (row, InventoryService.low_stock_tasks STOCK_THRESHOLD row),
                   mkState (InventoryService.store_item row (db s)) w
                     (sent s ++ [GET_product product_id]))
                else (Unhandled "IntegrityError", st)
            end
        end
      else (HTTPException 404 "Product not found", st).
Proof.
  destruct (verify_product_exists_run send product_id s) as [b [w Hverify]].
  exists b, w. unfold InventoryService.update_inventory_item.
  unfold bind at 1. rewrite Hverify.
  destruct b; [|reflexivity]. cbn [negb].
  unfold bind, query, InventoryService.commit_item, commit, ret, fault, updated_row.
  cbn [db world sent].
  destruct (InventoryService.first_item product_id (db s)) as [old|];
    [|reflexivity].
  destruct (InventoryItemUpdate.quantity item) as [|[q|]]; cbn;
    try reflexivity;
    match goal with
    | |- context [nan_storable || ?c] => destruct (nan_storable || c); reflexivity
    end.
Qed.

(** The adjustment handler, case by case. *)
Lemma adjust_inventory_run (product_id : Z) (adjustment : InventoryAdjustment.t)
      (s : St) :
  InventoryService.adjust_inventory STOCK_THRESHOLD nan_storable product_id
    adjustment s
  = match InventoryService.first_item product_id (db s) with
    | None => (HTTPException 404 "Inventory item not found", s)
    | Some old =>
        let sum :=
          PyFloat.add (InventoryItem.quantity old)
            (InventoryAdjustment.amount adjustment) in
        let row :=
          InventoryItem.mk (InventoryItem.id old) (InventoryItem.product_id old)
            sum (InventoryItem.location old) in
        if PyFloat.ltb sum PyFloat.zero
           && negb (InventoryAdjustment.allow_negative adjustment)
        then (HTTPException 400 "Adjustment would cause negative inventory", s)
        else if nan_storable || negb (PyFloat.is_nan sum)
             then (Return (row, InventoryService.low_stock_tasks STOCK_THRESHOLD row),
                   mkState (InventoryService.store_item row (db s)) (world s) (sent s))
             else (Unhandled "IntegrityError", s)
    end.
Proof.
  unfold InventoryService.adjust_inventory, bind, query,
    InventoryService.commit_item, commit, ret, fault, raise.
  cbn [db world sent].
  destruct (InventoryService.first_item product_id (db s)) as [old|];
    [|reflexivity].
  cbv zeta.
  destruct (PyFloat.ltb _ PyFloat.zero && negb _); [reflexivity|].
  destruct (nan_storable || negb _); [reflexivity|].
  destruct s; reflexivity.
Qed.

Lemma route_of_return
      (handler : InventoryService.H World (InventoryItem.t * list InventoryService.task))
      (s s' : St) (item : InventoryItem.t) (tasks : list InventoryService.task) :
  handler s = (Return (item, tasks), s') ->
  InventoryService.response_ok item = true ->
  fst (InventoryService.route send STOCK_THRESHOLD handler s) = Return item
  /\ db (snd (InventoryService.route send STOCK_THRESHOLD handler s)) = db s'.
Proof.
  intros Hrun Hok. split.
  - exact (route_return send STOCK_THRESHOLD handler s item tasks s' Hrun Hok).
  - rewrite route_tables, Hrun. reflexivity.
Qed.

(** A row that fails the response model: the write stays, the caller gets
    a server error, and no background task runs. *)
Lemma route_of_invalid
      (handler : InventoryService.H World (InventoryItem.t * list InventoryService.task))
      (s s' : St) (item : InventoryItem.t) (tasks : list InventoryService.task) :
  handler s = (Return (item, tasks), s') ->
  InventoryService.response_ok item = false ->
  InventoryService.route send STOCK_THRESHOLD handler s
  = (Unhandled "ResponseValidationError", s').
Proof.
  intros Hrun Hok.
  rewrite (route_run send STOCK_THRESHOLD _ _ _ _ _ Hrun), Hok. reflexivity.
Qed.

Lemma route_of_fault
      (handler : InventoryService.H World (InventoryItem.t * list InventoryService.task))
      (s s' : St) (exc : string) :
  handler s = (Unhandled exc, s') ->
  InventoryService.route send STOCK_THRESHOLD handler s = (Unhandled exc, s').
Proof.
  intros Hrun. unfold InventoryService.route, bind. rewrite Hrun. reflexivity.
Qed.

(** X6. Creation is an upsert that reads back: when [POST /inventory/]
    returns an item, [GET /inventory/{product_id}] on the resulting table
    returns that same item, and it carries the product id, quantity and
    location of the request, whether the product already had a row or
    not. *)
Theorem post_inventory_then_read
        (item : InventoryItemCreate.t) (s : St) (row : InventoryItem.t) :
  fst (InventoryService.post_inventory send STOCK_THRESHOLD nan_storable item s)
  = Return row ->
  fst (InventoryService.read_inventory_item (InventoryItemCreate.product_id item)
         (snd (InventoryService.post_inventory send STOCK_THRESHOLD nan_storable
                 item s)))
  = Return row
  /\ InventoryItem.product_id row = InventoryItemCreate.product_id item
  /\ InventoryItem.quantity row = InventoryItemCreate.quantity item
  /\ InventoryItem.location row = InventoryItemCreate.location item.
Proof.
  unfold InventoryService.post_inventory.
  destruct (InventoryItemCreate.valid item); [|discriminate].
  destruct (create_inventory_item_run item s) as [b [w Hrun]]. cbv zeta in Hrun.
  destruct b.
  - destruct (nan_storable || negb (PyFloat.is_nan (InventoryItemCreate.quantity item))).
    + match type of Hrun with
      | _ = (Return (?created, _), _) =>
          destruct (InventoryService.response_ok created) eqn:Hok
      end;
        [|rewrite (route_of_invalid _ _ _ _ _ Hrun Hok); discriminate].
      destruct (route_of_return _ _ _ _ _ Hrun Hok) as [Hret Hdb].
      rewrite Hret. intros Hrow. injection Hrow as <-.
      unfold InventoryService.read_inventory_item, bind, query.
      cbn [fst snd]. rewrite Hdb. cbn [db].
      destruct (InventoryService.first_item (InventoryItemCreate.product_id item) (db s))
        as [old|] eqn:Hfound.
      * erewrite first_item_store;
          [ | exact Hfound | reflexivity | exact (first_item_product _ _ _ Hfound)].
        cbn. repeat split. apply (first_item_product _ _ _ Hfound).
      * rewrite (first_item_insert _ _ _ _ Hfound). cbn. repeat split.
    + rewrite (route_of_fault _ _ _ _ Hrun). discriminate.
  - rewrite (route_raise send STOCK_THRESHOLD _ _ _ _ _ Hrun). discriminate.
Qed.

(** X7. The three routes that write keep the keys of the table distinct:
    starting from a table in which no [id] and no [product_id] occurs
    twice, creation, update and adjustment (with any body) leave such a
    table. *)
Theorem inventory_keys_stay_unique (s : St) :
  unique_keys (db s) = true ->
  (forall item : InventoryItemCreate.t,
      unique_keys
        (db (snd (InventoryService.post_inventory send STOCK_THRESHOLD
                    nan_storable item s))) = true)
  /\ (forall (product_id : Z) (item : InventoryItemUpdate.t),
         unique_keys
           (db (snd (InventoryService.put_inventory send STOCK_THRESHOLD
                       nan_storable product_id item s))) = true)
  /\ (forall (product_id : Z) (adjustment : InventoryAdjustment.t),
         unique_keys
           (db (snd (InventoryService.post_adjust send STOCK_THRESHOLD
                       nan_storable product_id adjustment s))) = true).
Proof.
  intros Hu. repeat split.
  - intros item. unfold InventoryService.post_inventory.
    destruct (InventoryItemCreate.valid item); [|exact Hu].
    rewrite route_tables.
    destruct (create_inventory_item_run item s) as [b [w Hrun]]. cbv zeta in Hrun.
    rewrite Hrun.
    destruct b; [|exact Hu].
    destruct (nan_storable || negb _); [|exact Hu]. cbn [snd db].
    destruct (InventoryService.first_item (InventoryItemCreate.product_id item) (db s))
      as [old|] eqn:Hfound.
    + apply (unique_keys_store _ old); try reflexivity; [exact Hu|].
      apply find_some in Hfound as [Hin _]. exact Hin.
    + apply unique_keys_insert; assumption.
  - intros product_id item. unfold InventoryService.put_inventory.
    destruct (InventoryItemUpdate.valid item); [|exact Hu].
    rewrite route_tables.
    destruct (update_inventory_item_run product_id item s) as [b [w Hrun]].
    cbv zeta in Hrun. rewrite Hrun.
    destruct b; [|exact Hu].
    destruct (InventoryService.first_item product_id (db s)) as [old|] eqn:Hfound;
      [|exact Hu].
    assert (Hstore : unique_keys
                       (InventoryService.store_item (updated_row old item) (db s))
                     = true).
    { apply (unique_keys_store _ old); try reflexivity; [exact Hu|].
      apply find_some in Hfound as [Hin _]. exact Hin. }
    destruct (InventoryItemUpdate.quantity item) as [|[q|]];
      try exact Hu;
      destruct (nan_storable || negb _); try exact Hu; exact Hstore.
  - intros product_id adjustment. unfold InventoryService.post_adjust.
    rewrite route_tables, adjust_inventory_run.
    destruct (InventoryService.first_item product_id (db s)) as [old|] eqn:Hfound;
      [|exact Hu].
    cbv zeta.
    destruct (PyFloat.ltb _ PyFloat.zero && negb _); [exact Hu|].
    destruct (nan_storable || negb _); [|exact Hu]. cbn [snd db].
    apply (unique_keys_store _ old); try reflexivity; [exact Hu|].
    apply find_some in Hfound as [Hin _]. exact Hin.
Qed.

(** X8. [PUT /inventory/{product_id}] is a partial update: when it returns
    an item for a product that had the row [old], the item keeps the keys
    of [old], takes the quantity and the location the body gives, keeps the
    ones it leaves out, and is the row read back afterwards. *)
Theorem put_inventory_partial_update
        (product_id : Z) (item : InventoryItemUpdate.t) (s : St)
        (old row : InventoryItem.t) :
  InventoryService.first_item product_id (db s) = Some old ->
  fst (InventoryService.put_inventory send STOCK_THRESHOLD nan_storable
         product_id item s) = Return row ->
  row = InventoryItem.mk (InventoryItem.id old) (InventoryItem.product_id old)
          match InventoryItemUpdate.quantity item with
          | Given (Some q) => q
          | _ => InventoryItem.quantity old
          end
          match InventoryItemUpdate.location item with
          | Given l => l
          | Unset => InventoryItem.location old
          end
  /\ InventoryService.first_item product_id
       (db (snd (InventoryService.put_inventory send STOCK_THRESHOLD nan_storable
                   product_id item s)))
     = Some row.
Proof.
  intros Hfound. unfold InventoryService.put_inventory.
  destruct (InventoryItemUpdate.valid item); [|discriminate].
  destruct (update_inventory_item_run product_id item s) as [b [w Hrun]].
  cbv zeta in Hrun. rewrite Hfound in Hrun.
  assert (Hstored :
            InventoryService.first_item product_id
              (InventoryService.store_item (updated_row old item) (db s))
            = Some (updated_row old item)).
  { erewrite first_item_store;
      [reflexivity | exact Hfound | reflexivity
      | exact (first_item_product _ _ _ Hfound)]. }
  destruct b;
    [|rewrite (route_raise send STOCK_THRESHOLD _ _ _ _ _ Hrun); discriminate].
  destruct (InventoryItemUpdate.quantity item) as [|[q|]] eqn:Hq;
    try (rewrite (route_of_fault _ _ _ _ Hrun); discriminate);
    (destruct (nan_storable || negb _);
     [|rewrite (route_of_fault _ _ _ _ Hrun); discriminate]);
    (destruct (InventoryService.response_ok (updated_row old item)) eqn:Hok;
     [|rewrite (route_of_invalid _ _ _ _ _ Hrun Hok); discriminate]);
    destruct (route_of_return _ _ _ _ _ Hrun Hok) as [Hret Hdb];
    rewrite Hret, Hdb; intros Hrow; injection Hrow as <-;
    (split; [unfold updated_row; rewrite Hq; reflexivity | exact Hstored]).
Qed.

(** X9. A body that gives [quantity] as [null] never updates anything,
    not even the location it may give with it: the request fails (a
    validation error, a 404 when the product or its row is missing, an
    integrity error otherwise), no item is returned, and the table is left
    as it was. *)
Theorem put_inventory_null_quantity
        (product_id : Z) (item : InventoryItemUpdate.t) (s : St) :
  InventoryItemUpdate.quantity item = Given None ->
  let r := InventoryService.put_inventory send STOCK_THRESHOLD nan_storable
             product_id item s in
  db (snd r) = db s
  /\ (fst r = HTTPException 422 "validation error"
      \/ fst r = HTTPException 404 "Product not found"
      \/ fst r = HTTPException 404 "Inventory item not found"
      \/ fst r = Unhandled "IntegrityError").
Proof.
  intros Hnull r. subst r. unfold InventoryService.put_inventory.
  destruct (update_inventory_item_run product_id item s) as [b [w Hrun]].
  cbv zeta in Hrun. rewrite Hnull in Hrun.
  destruct (InventoryItemUpdate.valid item); [|cbn; auto].
  destruct b.
  - destruct (InventoryService.first_item product_id (db s)).
    + rewrite (route_of_fault _ _ _ _ Hrun). cbn. auto.
    + rewrite (route_raise send STOCK_THRESHOLD _ _ _ _ _ Hrun). cbn. auto.
  - rewrite (route_raise send STOCK_THRESHOLD _ _ _ _ _ Hrun). cbn. auto.
Qed.

(** What the product check makes of the reply of the product service. *)
Lemma verify_product_exists_value (product_id : Z) (s : St) :
  InventoryService.verify_product_exists send product_id s
  = (Return (negb (unavailable (fst (send (GET_product product_id) (world s))))),
     mkState (db s) (snd (send (GET_product product_id) (world s)))
       (sent s ++ [GET_product product_id])).
Proof.
  unfold InventoryService.verify_product_exists, unavailable. run.
  destruct (send (GET_product product_id) (world s)) as [[|code body] w];
    simpl; [reflexivity|].
  rewrite negb_involutive. reflexivity.
Qed.

(** X10. Creation and update ask the product service first: when it
    raises or answers anything but 200, a valid creation or update fails
    with 404 "Product not found", whatever the inventory table holds, and
    the table is left as it was. *)
Theorem inventory_write_needs_the_product
        (create : InventoryItemCreate.t) (update : InventoryItemUpdate.t) (s : St) :
  unavailable
    (fst (send (GET_product (InventoryItemCreate.product_id create)) (world s)))
  = true ->
  InventoryItemCreate.valid create = true ->
  InventoryItemUpdate.valid update = true ->
  let r1 := InventoryService.post_inventory send STOCK_THRESHOLD nan_storable
              create s in
  let r2 := InventoryService.put_inventory send STOCK_THRESHOLD nan_storable
              (InventoryItemCreate.product_id create) update s in
  fst r1 = HTTPException 404 "Product not found" /\ db (snd r1) = db s
  /\ fst r2 = HTTPException 404 "Product not found" /\ db (snd r2) = db s.
Proof.
  intros Hdown Hcreate Hupdate r1 r2. subst r1 r2.
  unfold InventoryService.post_inventory, InventoryService.put_inventory.
  rewrite Hcreate, Hupdate.
  set (st := mkState (db s)
               (snd (send (GET_product (InventoryItemCreate.product_id create))
                       (world s)))
               (sent s ++ [GET_product (InventoryItemCreate.product_id create)])).
  assert (H1 : InventoryService.create_inventory_item send STOCK_THRESHOLD
                 nan_storable create s
               = (HTTPException 404 "Product not found", st)).
  { unfold InventoryService.create_inventory_item. unfold bind at 1.
    rewrite verify_product_exists_value, Hdown. reflexivity. }
  assert (H2 : InventoryService.update_inventory_item send STOCK_THRESHOLD
                 nan_storable (InventoryItemCreate.product_id create) update s
               = (HTTPException 404 "Product not found", st)).
  { unfold InventoryService.update_inventory_item. unfold bind at 1.
    rewrite verify_product_exists_value, Hdown. reflexivity. }
  rewrite (route_raise send STOCK_THRESHOLD _ _ _ _ _ H1).
  rewrite (route_raise send STOCK_THRESHOLD _ _ _ _ _ H2).
  repeat split.
Qed.

(** X11. For a product without a row, adjustment and lookup fail with 404
    "Inventory item not found" and leave everything as it was, and an
    update returns no item and leaves the table as it was: only creation
    makes a row. *)
Theorem inventory_row_missing
        (product_id : Z) (adjustment : InventoryAdjustment.t)
        (update : InventoryItemUpdate.t) (s : St) :
  InventoryService.first_item product_id (db s) = None ->
  InventoryService.post_adjust send STOCK_THRESHOLD nan_storable product_id
    adjustment s
  = (HTTPException 404 "Inventory item not found", s)
  /\ InventoryService.read_inventory_item product_id s
     = (HTTPException 404 "Inventory item not found", s)
  /\ db (snd (InventoryService.put_inventory send STOCK_THRESHOLD nan_storable
                product_id update s)) = db s
  /\ InventoryService.first_item product_id
       (db (snd (InventoryService.put_inventory send STOCK_THRESHOLD nan_storable
                   product_id update s))) = None.
Proof.
  intros Hnone.
  assert (Hput :
            db (snd (InventoryService.put_inventory send STOCK_THRESHOLD
                       nan_storable product_id update s)) = db s).
  { unfold InventoryService.put_inventory.
    destruct (InventoryItemUpdate.valid update); [|reflexivity].
    rewrite route_tables.
    destruct (update_inventory_item_run product_id update s) as [b [w Hrun]].
    cbv zeta in Hrun. rewrite Hnone in Hrun. rewrite Hrun.
    destruct b; reflexivity. }
  repeat split.
  - unfold InventoryService.post_adjust. apply route_raise.
    rewrite adjust_inventory_run, Hnone. reflexivity.
  - unfold InventoryService.read_inventory_item, bind, query, raise.
    cbn. rewrite Hnone. reflexivity.
  - exact Hput.
  - rewrite Hput. exact Hnone.
Qed.

(** X12. [allow_negative = true] turns the guard off, not the response
    model. For a product in stock, an adjustment whose sum is below zero
    is committed, so that the stored quantity becomes that sum, and is
    then answered with a server error, because the row fails the [ge=0]
    of the response model. No low-stock notification is sent, and the row
    can no longer be read: [GET /inventory/{product_id}] fails the same
    way. *)
Theorem post_adjust_allow_negative
        (product_id : Z) (amount : float) (s : St) (old : InventoryItem.t) :
  InventoryService.first_item product_id (db s) = Some old ->
  PyFloat.ltb (PyFloat.add (InventoryItem.quantity old) amount) PyFloat.zero
  = true ->
  let r := InventoryService.post_adjust send STOCK_THRESHOLD nan_storable
             product_id (InventoryAdjustment.mk amount true) s in
  fst r = Unhandled "ResponseValidationError"
  /\ stored_quantity product_id (db (snd r))
     = Some (PyFloat.add (InventoryItem.quantity old) amount)
  /\ sent (snd r) = sent s
  /\ fst (InventoryService.get_inventory product_id (snd r))
     = Unhandled "ResponseValidationError".
Proof.
  intros Hfound Hneg r. subst r. unfold InventoryService.post_adjust.
  pose proof (adjust_inventory_run product_id
                (InventoryAdjustment.mk amount true) s) as Hrun.
  rewrite Hfound in Hrun. cbv zeta in Hrun. cbn [InventoryAdjustment.amount
    InventoryAdjustment.allow_negative negb] in Hrun.
  rewrite andb_false_r, (negative_not_nan _ Hneg), orb_true_r in Hrun.
  match type of Hrun with
  | _ = (Return (?row, _), _) =>
      assert (Hok : InventoryService.response_ok row = false)
  end.
  { unfold InventoryService.response_ok. cbn [InventoryItem.quantity].
    rewrite (negative_not_ge0 _ Hneg), andb_false_r. reflexivity. }
  rewrite (route_of_invalid _ _ _ _ _ Hrun Hok). cbn [fst snd db sent].
  assert (Hstored :
            InventoryService.first_item product_id
              (InventoryService.store_item
                 (InventoryItem.mk (InventoryItem.id old)
                    (InventoryItem.product_id old)
                    (PyFloat.add (InventoryItem.quantity old) amount)
                    (InventoryItem.location old)) (db s))
            = Some (InventoryItem.mk (InventoryItem.id old)
                      (InventoryItem.product_id old)
                      (PyFloat.add (InventoryItem.quantity old) amount)
                      (InventoryItem.location old))).
  { erewrite first_item_store;
      [reflexivity | exact Hfound | reflexivity
      | exact (first_item_product _ _ _ Hfound)]. }
  split; [reflexivity|]. split.
  - unfold stored_quantity. rewrite Hstored. reflexivity.
  - split; [reflexivity|].
    unfold InventoryService.get_inventory, InventoryService.read_inventory_item,
      InventoryService.respond, bind, query.
    cbn [db fst snd]. rewrite Hstored. unfold ret at 1. cbv iota beta.
    rewrite Hok. reflexivity.
Qed.



End InventoryService_more.

Lemma firstn_plus {A} (n m : nat) (l : list A) :
  firstn (n + m) l = firstn n l ++ firstn m (skipn n l).
Proof.
  revert l. induction n as [|n IH]; intros l; simpl; [reflexivity|].
  destruct l as [|a l]; simpl.
  - rewrite firstn_nil. reflexivity.
  - rewrite IH. reflexivity.
Qed.

Lemma skipn_plus {A} (n m : nat) (l : list A) :
  skipn (n + m) l = skipn m (skipn n l).
Proof.
  revert l. induction n as [|n IH]; intros l; simpl; [reflexivity|].
  destruct l as [|a l]; simpl; [rewrite skipn_nil; reflexivity | apply IH].
Qed.

(** X14. The listing pages the table in storage order: for bounds that
    are not negative a page never has more than [limit] items, and the page
    of [n] items from [skip] followed by the page of [m] items from
    [skip + n] is the page of [n + m] items from [skip]. The listing
    changes nothing. *)
Theorem read_inventory_items_pages
        {World : Type} (skip n m : Z) (s : state InventoryService.Tables World) :
  0 <= skip -> 0 <= n -> 0 <= m ->
  exists page1 page2 : list InventoryItem.t,
    InventoryQueries.read_inventory_items skip n s = (Return page1, s)
    /\ InventoryQueries.read_inventory_items (skip + n) m s = (Return page2, s)
    /\ InventoryQueries.read_inventory_items skip (n + m) s
       = (Return (page1 ++ page2), s)
    /\ Z.of_nat (List.length page1) <= n.
Proof.
  intros Hskip Hn Hm.
  unfold InventoryQueries.read_inventory_items, query,
    InventoryQueries.limit, InventoryQueries.offset.
  assert ((n <? 0) = false) as -> by (apply Z.ltb_ge; lia).
  assert ((m <? 0) = false) as -> by (apply Z.ltb_ge; lia).
  assert ((n + m <? 0) = false) as -> by (apply Z.ltb_ge; lia).
  eexists. eexists. repeat split.
  - rewrite !Z2Nat.inj_add by lia. rewrite firstn_plus, skipn_plus. reflexivity.
  - apply Z.le_trans with (Z.of_nat (Z.to_nat n)).
    + apply Nat2Z.inj_le. apply firstn_le_length.
    + rewrite Z2Nat.id by exact Hn. apply Z.le_refl.
Qed.

(* ================================================================== *)
(** * The order service against the inventory service *)

Section DecrementOnTheNetwork.

Context {World : Type}.
Variable send : request -> World -> response * World.

(** A decrement reaches the network as one adjustment, and succeeds when
    that is answered 200. *)
Lemma after_decrement_send (item : OrderItem.t) (w : World) :
  after_decrement send item w = snd (send (decrement_call item) w).
Proof.
  unfold after_decrement, on_world, decrement_call,
    OrderService.update_inventory. run.
  destruct (send _ w) as [[|code body] w']; reflexivity.
Qed.

Lemma decrements_send (item : OrderItem.t) (w : World) :
  decrements send item w
  = negb (unavailable (fst (send (decrement_call item) w))).
Proof.
  unfold decrements, on_world, decrement_call, unavailable,
    OrderService.update_inventory. run.
  destruct (send _ w) as [[|code body] w']; simpl; [reflexivity|].
  rewrite negb_involutive. reflexivity.
Qed.

End DecrementOnTheNetwork.

Section Wired.

Variable STOCK_THRESHOLD : Z.
Variable nan_storable : bool.

Let send := Deployment.send STOCK_THRESHOLD nan_storable.

(** X15. With the inventory service of this repository behind the network,
    the inventory check of the order service is true exactly when the
    service answers, the product has a row that the response model
    accepts, and its quantity is finite and at least the quantity asked
    for. A product without a row counts as insufficient, and so does an
    infinite stock, which the service writes as [null]. *)
Theorem check_inventory_reads_the_stock (item : OrderItem.t) (w : Deployment.World) :
  passes send item w
  = Deployment.inventory_up w
    && match InventoryService.first_item (OrderItem.product_id item)
               (Deployment.inventory w) with
       | Some row =>
           InventoryService.response_ok row
           && PyFloat.is_finite (InventoryItem.quantity row)
           && PyFloat.geb (InventoryItem.quantity row) (OrderItem.quantity item)
       | None => false
       end.
Proof.
  unfold passes, on_world, OrderService.check_inventory, send, Deployment.send,
    Deployment.serve, InventoryService.get_inventory,
    InventoryService.read_inventory_item, InventoryService.respond.
  run.
  destruct (Deployment.inventory_up w); [|reflexivity]. cbn.
  destruct (InventoryService.first_item (OrderItem.product_id item)
              (Deployment.inventory w)) as [row|]; [|reflexivity].
  cbn. destruct (InventoryService.response_ok row); [|reflexivity].
  cbn. destruct (PyFloat.is_finite (InventoryItem.quantity row)); reflexivity.
Qed.

Lemma serve_parts (route : InventoryService.H Deployment.World InventoryItem.t)
      (w : Deployment.World) :
  fst (Deployment.serve route w)
  = Deployment.reply Deployment.inventory_json
      (fst (route (mkState (Deployment.inventory w) w [])))
  /\ Deployment.inventory (snd (Deployment.serve route w))
     = db (snd (route (mkState (Deployment.inventory w) w []))).
Proof.
  unfold Deployment.serve.
  destruct (route (mkState (Deployment.inventory w) w [])) as [o st].
  split; reflexivity.
Qed.

(** The decrement of a line of stock, seen from the network: whether the
    sum is written, and whether the caller is told so. *)
Lemma wired_decrement (product_id : Z) (amount : float) (w : Deployment.World)
      (old : InventoryItem.t) :
  InventoryService.first_item product_id (Deployment.inventory w) = Some old ->
  let sum := PyFloat.add (InventoryItem.quantity old) amount in
  let row :=
    InventoryItem.mk (InventoryItem.id old) (InventoryItem.product_id old) sum
      (InventoryItem.location old) in
  let written :=
    Deployment.inventory_up w
    && negb (PyFloat.ltb sum PyFloat.zero)
    && (nan_storable || negb (PyFloat.is_nan sum)) in
  unavailable (fst (send (POST_adjust product_id amount false) w))
  = negb (written && InventoryService.response_ok row)
  /\ stored_quantity product_id
       (Deployment.inventory (snd (send (POST_adjust product_id amount false) w)))
     = Some (if written then sum else InventoryItem.quantity old).
Proof.
  intros Hfound sum row written. subst sum row written.
  assert (Hkeep : stored_quantity product_id (Deployment.inventory w)
                  = Some (InventoryItem.quantity old))
    by (unfold stored_quantity; rewrite Hfound; reflexivity).
  unfold send, Deployment.send.
  destruct (Deployment.inventory_up w); [|split; [reflexivity | exact Hkeep]].
  destruct (serve_parts
              (InventoryService.post_adjust Deployment.send_leaf STOCK_THRESHOLD
                 nan_storable product_id (InventoryAdjustment.mk amount false)) w)
    as [Hreply Hstock].
  rewrite Hreply, Hstock. clear Hreply Hstock.
  unfold InventoryService.post_adjust.
  pose proof (adjust_inventory_run STOCK_THRESHOLD nan_storable product_id
                (InventoryAdjustment.mk amount false)
                (mkState (Deployment.inventory w) w [])) as Hrun.
  cbn [db] in Hrun. rewrite Hfound in Hrun. cbv zeta in Hrun.
  cbn [InventoryAdjustment.amount InventoryAdjustment.allow_negative negb] in Hrun.
  rewrite andb_true_r in Hrun.
  destruct (PyFloat.ltb (PyFloat.add (InventoryItem.quantity old) amount)
              PyFloat.zero).
  - rewrite (route_raise Deployment.send_leaf STOCK_THRESHOLD _ _ _ _ _ Hrun).
    split; [reflexivity | exact Hkeep].
  - destruct (nan_storable
              || negb (PyFloat.is_nan
                         (PyFloat.add (InventoryItem.quantity old) amount))).
    + rewrite route_tables, Hrun. cbn [snd db andb negb].
      split.
      * rewrite (route_run Deployment.send_leaf STOCK_THRESHOLD _ _ _ _ _ Hrun).
        destruct (InventoryService.response_ok _); reflexivity.
      * unfold stored_quantity.
        erewrite first_item_store;
          [reflexivity | exact Hfound | reflexivity
          | exact (first_item_product _ _ _ Hfound)].
    + rewrite (route_of_fault Deployment.send_leaf STOCK_THRESHOLD _ _ _ _ Hrun).
      split; [reflexivity | exact Hkeep].
Qed.

(** X16. On the same wiring, and for a product whose row the response
    model accepts, a decrement applies in full or not at all: when
    [update_inventory] returns [True] the stored quantity has become the
    old quantity minus the quantity of the line, and when it returns
    [False] the stored quantity is what it was. The exception is a
    difference that is NaN (an infinite stock less an infinite quantity)
    on an engine that keeps NaN: [update_inventory] returns [False], and
    the inventory service, when it is up, has stored the NaN. *)
Theorem update_inventory_all_or_nothing
        (item : OrderItem.t) (w : Deployment.World) (old : InventoryItem.t) :
  InventoryService.first_item (OrderItem.product_id item) (Deployment.inventory w)
  = Some old ->
  InventoryService.response_ok old = true ->
  let sum :=
    PyFloat.add (InventoryItem.quantity old) (PyFloat.neg (OrderItem.quantity item)) in
  let after :=
    stored_quantity (OrderItem.product_id item)
      (Deployment.inventory (after_decrement send item w)) in
  if nan_storable && PyFloat.is_nan sum
  then decrements send item w = false
       /\ after = Some (if Deployment.inventory_up w then sum
                       else InventoryItem.quantity old)
  else after = Some (if decrements send item w then sum
                     else InventoryItem.quantity old).
Proof.
  intros Hfound Hold sum after. subst sum after.
  destruct (wired_decrement (OrderItem.product_id item)
              (PyFloat.neg (OrderItem.quantity item)) w old Hfound)
    as [Hreply Hstock].
  cbv zeta in Hreply, Hstock.
  rewrite after_decrement_send, decrements_send. unfold decrement_call.
  rewrite Hreply, Hstock, negb_involutive. clear Hreply Hstock.
  unfold InventoryService.response_ok in *.
  cbn [InventoryItem.product_id InventoryItem.quantity InventoryItem.location].
  apply andb_prop in Hold as [Hold Hlocation].
  apply andb_prop in Hold as [Hpid _].
  rewrite Hpid, Hlocation, andb_true_r. cbn [andb].
  set (sum := PyFloat.add (InventoryItem.quantity old)
                (PyFloat.neg (OrderItem.quantity item))).
  destruct (PyFloat.is_nan sum) eqn:Hnan.
  - assert (Hneg : PyFloat.ltb sum PyFloat.zero = false)
      by (destruct sum; try discriminate; reflexivity).
    assert (Hge0 : ge0 sum = false)
      by (destruct sum; try discriminate; reflexivity).
    rewrite Hneg, Hge0. cbn [negb].
    destruct nan_storable; cbn [andb orb negb];
      rewrite ?andb_true_r, ?andb_false_r; [split|]; reflexivity.
  - rewrite andb_false_r. cbn [negb]. rewrite orb_true_r, andb_true_r.
    destruct (PyFloat.ltb sum PyFloat.zero) eqn:Hneg.
    + cbn [negb]. rewrite !andb_false_r. reflexivity.
    + rewrite (ge0_of_not_negative _ Hneg Hnan). cbn [negb].
      rewrite !andb_true_r. reflexivity.
Qed.

End Wired.

(* ================================================================== *)
(** * Properties of the notification service *)




Section NotificationService_more.

Variable as_type : json -> option string.
Variable as_data : json -> option (list (string * json)).
Variable py_str : json -> string.

Let St : Type := state NotificationService.Tables NotificationService.Outbox.

(** X17. The notification service refuses every body the other services
    send it: the dictionaries built by [notify_order_status] and
    [notify_low_stock] have no [data] member, which [NotificationCreate]
    requires, so [POST /notifications/] answers 422, stores nothing and
    sends nothing, however pydantic reads the members that are there. *)
Theorem service_notifications_are_refused
        (n : notification) (now later : Z) (s : St) :
  NotificationService.post_notifications as_type as_data py_str (payload n)
    now later s
  = (HTTPException 422 "validation error", s).
Proof.
  destruct n; reflexivity.
Qed.




End NotificationService_more.

(* ================================================================== *)
(** * Properties of the gateway *)

Lemma assoc_dict_set_same (key : string) (v : json) (m : list (string * json)) :
  assoc key (Gateway.dict_set key v m) = Some v.
Proof.
  induction m as [|[k old] m IH]; simpl.
  - rewrite String.eqb_refl. reflexivity.
  - destruct (String.eqb k key) eqn:E; simpl; rewrite E; [reflexivity | exact IH].
Qed.

Lemma assoc_dict_set_other (key other : string) (v : json)
      (m : list (string * json)) :
  other <> key ->
  assoc other (Gateway.dict_set key v m) = assoc other m.
Proof.
  intros Hother. induction m as [|[k old] m IH]; simpl.
  - assert (String.eqb key other = false) as ->
        by (apply String.eqb_neq; congruence).
    reflexivity.
  - destruct (String.eqb k key) eqn:E; simpl.
    + apply String.eqb_eq in E. subst k.
      assert (String.eqb key other = false) as ->
          by (apply String.eqb_neq; congruence).
      reflexivity.
    + destruct (String.eqb k other); [reflexivity | exact IH].
Qed.

Lemma json_of_200_unavailable (r : response) :
  unavailable r = true -> Gateway.json_of_200 r = JNull.
Proof.
  destruct r as [|code [j|]]; simpl; try reflexivity.
  intros H. apply negb_true_iff in H. rewrite H. reflexivity.
Qed.

Section Gateway_more.

Context {World : Type}.
Variable send : request -> World -> response * World.

(** The aggregation, request by request. *)
Lemma get_product_with_inventory_run (product_id : Z) (s : state unit World) :
  let r1 := send (GET_product product_id) (world s) in
  let r2 := send (GET_inventory product_id) (snd r1) in
  let inventory := Gateway.json_of_200 (fst r2) in
  let st := mkState (db s) (snd r2)
              (sent s ++ [GET_product product_id; GET_inventory product_id]) in
  Gateway.get_product_with_inventory send product_id s
  = match Gateway.json_of_200 (fst r1) with
    | JNull => (HTTPException 404 "Product not found", st)
    | JObject members =>
        (Return (JObject
                   (Gateway.dict_set "inventory"
                      (if truthy inventory then inventory else Gateway.no_inventory)
                      members)),
         st)
    | _ => (Unhandled "TypeError", st)
    end.
Proof.
  unfold Gateway.get_product_with_inventory. run.
  destruct (send (GET_product product_id) (world s)) as [resp1 w1]. simpl.
  destruct (send (GET_inventory product_id) w1) as [resp2 w2]. simpl.
  rewrite <- app_assoc. simpl.
  destruct (Gateway.json_of_200 resp1); reflexivity.
Qed.

(** X20. When the product service answers 200 with an object, the
    aggregation returns that object with every member but ["inventory"]
    as it was, and with ["inventory"] set to what the inventory service
    answered if that was a 200 with a truthy body, and to quantity 0 with
    no location otherwise: a failing inventory service never fails the
    request. Both services are asked, the product service first. *)
Theorem gateway_product_with_inventory
        (product_id : Z) (s : state unit World) (members : list (string * json)) :
  fst (send (GET_product product_id) (world s)) = Response 200 (Some (JObject members)) ->
  let w1 := snd (send (GET_product product_id) (world s)) in
  let inventory := Gateway.json_of_200 (fst (send (GET_inventory product_id) w1)) in
  let r := Gateway.get_product_with_inventory send product_id s in
  exists result : list (string * json),
    fst r = Return (JObject result)
    /\ assoc "inventory" result
       = Some (if truthy inventory then inventory
               else JObject [("quantity", JNumber (PyFloat.of_Z 0));
                             ("location", JNull)])
    /\ (forall key : string, key <> "inventory" -> assoc key result = assoc key members)
    /\ (unavailable (fst (send (GET_inventory product_id) w1)) = true ->
        assoc "inventory" result
        = Some (JObject [("quantity", JNumber (PyFloat.of_Z 0)); ("location", JNull)]))
    /\ sent (snd r) = sent s ++ [GET_product product_id; GET_inventory product_id].
Proof.
  intros Hproduct w1 inventory r. subst r.
  rewrite get_product_with_inventory_run. cbv zeta.
  rewrite Hproduct. cbn [Gateway.json_of_200 Z.eqb Pos.eqb fst snd sent].
  fold w1. fold inventory.
  eexists. split; [reflexivity|].
  split; [apply assoc_dict_set_same|].
  split; [intros key Hkey; apply assoc_dict_set_other; exact Hkey|].
  split; [|reflexivity].
  intros Hdown. rewrite assoc_dict_set_same.
  subst inventory. rewrite (json_of_200_unavailable _ Hdown). reflexivity.
Qed.

(** X21. When the product service raises or answers anything but 200,
    the aggregation fails with 404 "Product not found", whatever the
    inventory service holds for the product; the inventory service is
    asked all the same. *)
Theorem gateway_product_missing (product_id : Z) (s : state unit World) :
  unavailable (fst (send (GET_product product_id) (world s))) = true ->
  let r := Gateway.get_product_with_inventory send product_id s in
  fst r = HTTPException 404 "Product not found"
  /\ sent (snd r) = sent s ++ [GET_product product_id; GET_inventory product_id].
Proof.
  intros Hdown r. subst r.
  rewrite get_product_with_inventory_run. cbv zeta.
  rewrite (json_of_200_unavailable _ Hdown). split; reflexivity.
Qed.

End Gateway_more.

(* ================================================================== *)
(** ** The further properties on the scenarios *)

Import Scenario_more.

(** Only 2 of product 1 in stock: the order ends "failed". *)
Lemma process_order_final_status_witness :
  OrderService.first_order 1 two_lines = Some ann
  /\ OrderService.first_order 1
       (db (snd (OrderService.process_order send 1 200
                   (at_rest two_lines (network 2 50)))))
     = Some (Order.mk 1 "Ann" "ann@example.com" "failed" 100 (Some 200)).
Proof.
  split; [reflexivity|].
  exact (process_order_final_status send 1 200
           (at_rest two_lines (network 2 50)) ann eq_refl).
Defined.

(** Stock for both runs: four decrements are posted, two per line. *)
Lemma process_order_twice_decrements_twice_witness :
  checks_pass send (OrderService.items_of 1 two_lines) (network 50 50) = true
  /\ filter is_adjust
       (sent (snd (OrderService.process_order send 1 300
                     (snd (OrderService.process_order send 1 200
                             (at_rest two_lines (network 50 50)))))))
     = [POST_adjust 1 (num (-5)) false; POST_adjust 2 (num (-3)) false;
        POST_adjust 1 (num (-5)) false; POST_adjust 2 (num (-3)) false].
Proof.
  split; [reflexivity|].
  exact (proj2 (process_order_twice_decrements_twice send 1 200 300
                  (at_rest two_lines (network 50 50)) ann
                  eq_refl eq_refl eq_refl)).
Defined.

(** Ann's request on a stocked network: answered "pending", stored
    "processed". *)
Lemma post_orders_settles_the_order_witness :
  OrderService.validate address request_two_lines = Some request_two_lines
  /\ prices_of send (OrderCreate.items request_two_lines) (network 50 50)
     = Some [num 10; num 20]
  /\ lines_finite (OrderCreate.items request_two_lines) [num 10; num 20] = true
  /\ OrderService.items_of 2 earlier_order = []
  /\ OrderService.first_order 2
       (db (snd (OrderService.post_orders send sqlite address request_two_lines
                   100 200 (at_rest earlier_order (network 50 50)))))
     = Some (Order.mk 2 "Ann" "ann@example.com" "processed" 100 (Some 200)).
Proof.
  split; [reflexivity|]. split; [reflexivity|].
  split; [reflexivity|]. split; [reflexivity|].
  exact (proj2 (post_orders_settles_the_order send sqlite address
                  request_two_lines request_two_lines 100 200
                  (at_rest earlier_order (network 50 50)) [num 10; num 20]
                  eq_refl eq_refl eq_refl eq_refl)).
Defined.

(** A product without a price: the order stays in the table, "pending",
    after a single lookup. *)
Lemma post_orders_price_missing_witness :
  OrderService.validate address request_two_lines = Some request_two_lines
  /\ priceless_at send_priceless 0 (OrderCreate.items request_two_lines) tt = true
  /\ fst (OrderService.post_orders send_priceless sqlite address request_two_lines
            100 200 (idle earlier_order tt))
     = Unhandled "KeyError"
  /\ OrderService.orders
       (db (snd (OrderService.post_orders send_priceless sqlite address
                   request_two_lines 100 200 (idle earlier_order tt))))
     = [bob; Order.mk 2 "Ann" "ann@example.com" "pending" 100 None]
  /\ sent (snd (OrderService.post_orders send_priceless sqlite address
                  request_two_lines 100 200 (idle earlier_order tt)))
     = [GET_product 1].
Proof.
  split; [reflexivity|]. split; [reflexivity|].
  destruct (post_orders_price_missing send_priceless sqlite address
              request_two_lines request_two_lines 100 200
              (idle earlier_order tt) 0%nat eq_refl eq_refl)
    as [Hout [Horders [_ Hsent]]].
  split; [exact Hout|]. split; [exact Horders | exact Hsent].
Defined.

(** Restocking product 1 at 7 in warehouse B, then reading it. *)
Lemma post_inventory_then_read_witness :
  fst (InventoryService.post_inventory Deployment.send_leaf 10 true
         (InventoryItemCreate.mk 1 (num 7) (Some "Warehouse B"))
         (at_rest (stock 5 50) (network 5 50)))
  = Return (InventoryItem.mk 1 1 (num 7) (Some "Warehouse B"))
  /\ fst (InventoryService.read_inventory_item 1
            (snd (InventoryService.post_inventory Deployment.send_leaf 10 true
                    (InventoryItemCreate.mk 1 (num 7) (Some "Warehouse B"))
                    (at_rest (stock 5 50) (network 5 50)))))
     = Return (InventoryItem.mk 1 1 (num 7) (Some "Warehouse B")).
Proof.
  split; [reflexivity|].
  exact (proj1 (post_inventory_then_read Deployment.send_leaf 10 true
                  (InventoryItemCreate.mk 1 (num 7) (Some "Warehouse B"))
                  (at_rest (stock 5 50) (network 5 50))
                  (InventoryItem.mk 1 1 (num 7) (Some "Warehouse B")) eq_refl)).
Defined.

(** The keys of the stock table stay distinct through an adjustment. *)
Lemma inventory_keys_stay_unique_witness :
  unique_keys (stock 5 50) = true
  /\ unique_keys
       (db (snd (InventoryService.post_adjust Deployment.send_leaf 10 true 1
                   (InventoryAdjustment.mk (num (-3)) false)
                   (at_rest (stock 5 50) (network 5 50)))))
     = true.
Proof.
  split; [reflexivity|].
  exact (proj2 (proj2 (inventory_keys_stay_unique Deployment.send_leaf 10 true
                         (at_rest (stock 5 50) (network 5 50)) eq_refl))
           1 (InventoryAdjustment.mk (num (-3)) false)).
Defined.

(** Moving product 1 to shelf 3 leaves its quantity at 5. *)
Lemma put_inventory_partial_update_witness :
  InventoryService.first_item 1 (stock 5 50) = Some (InventoryItem.mk 1 1 (num 5) None)
  /\ InventoryService.first_item 1
       (db (snd (InventoryService.put_inventory Deployment.send_leaf 10 true 1
                   (InventoryItemUpdate.mk Unset (Given (Some "Shelf 3")))
                   (at_rest (stock 5 50) (network 5 50)))))
     = Some (InventoryItem.mk 1 1 (num 5) (Some "Shelf 3")).
Proof.
  split; [reflexivity|].
  exact (proj2 (put_inventory_partial_update Deployment.send_leaf 10 true 1
                  (InventoryItemUpdate.mk Unset (Given (Some "Shelf 3")))
                  (at_rest (stock 5 50) (network 5 50))
                  (InventoryItem.mk 1 1 (num 5) None)
                  (InventoryItem.mk 1 1 (num 5) (Some "Shelf 3"))
                  eq_refl eq_refl)).
Defined.

(** A null quantity with a new location: nothing moves. *)
Lemma put_inventory_null_quantity_witness :
  db (snd (InventoryService.put_inventory Deployment.send_leaf 10 true 1
             (InventoryItemUpdate.mk (Given None) (Given (Some "Shelf 3")))
             (at_rest (stock 5 50) (network 5 50))))
  = stock 5 50.
Proof.
  exact (proj1 (put_inventory_null_quantity Deployment.send_leaf 10 true 1
                  (InventoryItemUpdate.mk (Given None) (Given (Some "Shelf 3")))
                  (at_rest (stock 5 50) (network 5 50)) eq_refl)).
Defined.

(** The product service is down: restocking product 1 fails with 404. *)
Lemma inventory_write_needs_the_product_witness :
  unavailable (fst (Deployment.send_leaf (GET_product 1) product_down)) = true
  /\ fst (InventoryService.post_inventory Deployment.send_leaf 10 true
            (InventoryItemCreate.mk 1 (num 7) None)
            (at_rest (stock 5 50) product_down))
     = HTTPException 404 "Product not found".
Proof.
  split; [reflexivity|].
  exact (proj1 (inventory_write_needs_the_product Deployment.send_leaf 10 true
                  (InventoryItemCreate.mk 1 (num 7) None)
                  (InventoryItemUpdate.mk Unset Unset)
                  (at_rest (stock 5 50) product_down)
                  eq_refl eq_refl eq_refl)).
Defined.

(** Product 9 has no row. *)
Lemma inventory_row_missing_witness :
  InventoryService.first_item 9 (stock 5 50) = None
  /\ InventoryService.post_adjust Deployment.send_leaf 10 true 9
       (InventoryAdjustment.mk (num 1) true) (at_rest (stock 5 50) (network 5 50))
     = (HTTPException 404 "Inventory item not found",
        at_rest (stock 5 50) (network 5 50)).
Proof.
  split; [reflexivity|].
  exact (proj1 (inventory_row_missing Deployment.send_leaf 10 true 9
                  (InventoryAdjustment.mk (num 1) true)
                  (InventoryItemUpdate.mk Unset Unset)
                  (at_rest (stock 5 50) (network 5 50)) eq_refl)).
Defined.

(** 5 in stock, 8 taken with [allow_negative]: -3 is stored, the request
    is answered with a server error, and nothing is sent. *)
Lemma post_adjust_allow_negative_witness :
  InventoryService.first_item 1 (stock 5 50) = Some (InventoryItem.mk 1 1 (num 5) None)
  /\ PyFloat.ltb (PyFloat.add (num 5) (num (-8))) PyFloat.zero = true
  /\ fst (InventoryService.post_adjust Deployment.send_leaf 10 true 1
            (InventoryAdjustment.mk (num (-8)) true)
            (at_rest (stock 5 50) (network 5 50)))
     = Unhandled "ResponseValidationError"
  /\ stored_quantity 1
       (db (snd (InventoryService.post_adjust Deployment.send_leaf 10 true 1
                   (InventoryAdjustment.mk (num (-8)) true)
                   (at_rest (stock 5 50) (network 5 50)))))
     = Some (num (-3))
  /\ sent (snd (InventoryService.post_adjust Deployment.send_leaf 10 true 1
                  (InventoryAdjustment.mk (num (-8)) true)
                  (at_rest (stock 5 50) (network 5 50))))
     = [].
Proof.
  split; [reflexivity|]. split; [reflexivity|].
  destruct (post_adjust_allow_negative Deployment.send_leaf 10 true 1
              (num (-8)) (at_rest (stock 5 50) (network 5 50))
              (InventoryItem.mk 1 1 (num 5) None) eq_refl eq_refl)
    as [Hout [Hstored [Hsent _]]].
  split; [exact Hout|]. split; [exact Hstored | exact Hsent].
Defined.


(** Two pages of one item make the page of two. *)
Lemma read_inventory_items_pages_witness :
  exists page1 page2 : list InventoryItem.t,
    InventoryQueries.read_inventory_items 0 1 (at_rest (stock 5 50) (network 5 50))
    = (Return page1, at_rest (stock 5 50) (network 5 50))
    /\ InventoryQueries.read_inventory_items (0 + 1) 1
         (at_rest (stock 5 50) (network 5 50))
       = (Return page2, at_rest (stock 5 50) (network 5 50))
    /\ InventoryQueries.read_inventory_items 0 (1 + 1)
         (at_rest (stock 5 50) (network 5 50))
       = (Return (page1 ++ page2), at_rest (stock 5 50) (network 5 50))
    /\ Z.of_nat (List.length page1) <= 1.
Proof.
  apply (read_inventory_items_pages 0 1 1 (at_rest (stock 5 50) (network 5 50)));
    lia.
Defined.

(** 5 in stock: the decrement of a line of 3 leaves 2, the decrement of a
    line of 8 leaves 5. An infinite stock less an infinite quantity, on an
    engine that keeps NaN: the decrement is reported as failed and the
    stock is NaN. *)
Lemma update_inventory_all_or_nothing_witness :
  InventoryService.first_item 1 (Deployment.inventory (network 5 50))
  = Some (InventoryItem.mk 1 1 (num 5) None)
  /\ InventoryService.response_ok (InventoryItem.mk 1 1 (num 5) None) = true
  /\ stored_quantity 1
       (Deployment.inventory
          (after_decrement send (OrderItem.mk 1 1 1 (num 3) (num 10)) (network 5 50)))
     = Some (num 2)
  /\ stored_quantity 1
       (Deployment.inventory
          (after_decrement send (OrderItem.mk 1 1 1 (num 8) (num 10)) (network 5 50)))
     = Some (num 5)
  /\ decrements send (OrderItem.mk 1 1 1 PyFloat.inf (num 10)) endless = false
  /\ stored_quantity 1
       (Deployment.inventory
          (after_decrement send (OrderItem.mk 1 1 1 PyFloat.inf (num 10)) endless))
     = Some PyFloat.nan.
Proof.
  split; [reflexivity|]. split; [reflexivity|]. split; [|split].
  - exact (update_inventory_all_or_nothing 10 true
             (OrderItem.mk 1 1 1 (num 3) (num 10)) (network 5 50)
             (InventoryItem.mk 1 1 (num 5) None) eq_refl eq_refl).
  - exact (update_inventory_all_or_nothing 10 true
             (OrderItem.mk 1 1 1 (num 8) (num 10)) (network 5 50)
             (InventoryItem.mk 1 1 (num 5) None) eq_refl eq_refl).
  - exact (update_inventory_all_or_nothing 10 true
             (OrderItem.mk 1 1 1 PyFloat.inf (num 10)) endless
             (InventoryItem.mk 1 1 PyFloat.inf None) eq_refl eq_refl).
Defined.


(** Product 1 through the gateway, with the inventory service down:
    quantity 0 and no location. *)
Lemma gateway_product_with_inventory_witness :
  fst (send (GET_product 1) inventory_down)
  = Response 200 (Some (Deployment.product_json 1 (num 10)))
  /\ exists result : list (string * json),
      fst (Gateway.get_product_with_inventory send 1 (idle tt inventory_down))
      = Return (JObject result)
      /\ assoc "inventory" result
         = Some (JObject [("quantity", JNumber (num 0)); ("location", JNull)])
      /\ assoc "price" result = Some (JNumber (num 10)).
Proof.
  split; [reflexivity|].
  destruct (gateway_product_with_inventory send 1 (idle tt inventory_down)
              [("id", JNumber (num 1)); ("price", JNumber (num 10))] eq_refl)
    as [result [Hout [_ [Hkeep [Hdown _]]]]].
  exists result. split; [exact Hout|]. split.
  - exact (Hdown eq_refl).
  - rewrite (Hkeep "price") by discriminate. reflexivity.
Defined.

(** Product 7 is not in the catalog. *)
Lemma gateway_product_missing_witness :
  unavailable (fst (send (GET_product 7) (network 5 50))) = true
  /\ fst (Gateway.get_product_with_inventory send 7 (idle tt (network 5 50)))
     = HTTPException 404 "Product not found".
Proof.
  split; [reflexivity|].
  exact (proj1 (gateway_product_missing send 7 (idle tt (network 5 50)) eq_refl)).
Defined.
